(** * Attendance reconciliation engine of attensheets

    A shallow embedding of the attendance code of the two storage
    backends, [db_manager.py] (class [DatabaseManager], flat JSON files)
    and [mongodb_manager.py] (class [MongoDBManager], document store):
    the three stored shapes of an attendance cell, session numbering,
    the merge performed by a QR scan and by stopping a QR session, the
    statistics aggregators, and enrollment; of the file backend also
    the reading and updating of a class, the teacher's edit of a day,
    the attendance sessions and their copy into the monthly attendance;
    and, of the endpoints of [main.py], the numbering of a new QR
    session and the stop of a QR session.

    Conventions of the embedding:
    - a JSON object is a record or a tagged value, a JSON list a [list];
    - a Python [int] is a [Z]; a Python [float] is an IEEE-754 binary64
      value, computed with the operations of [SpecFloat];
    - [datetime.utcnow().isoformat()] is an explicit argument [now],
      [datetime.now(timezone.utc).isoformat()] of the endpoints an
      explicit argument [stamp]; the random QR code is an explicit
      argument [code];
    - a function that raises returns [Raise msg]. *)

From Stdlib Require Import ZArith List String Ascii Bool Lia.
From Stdlib Require Import DecimalString DecimalZ.
From Stdlib Require Import Floats.SpecFloat.
Import ListNotations.
Open Scope string_scope.
Open Scope Z_scope.

(** ** Python floats *)

Module PyFloat.

Definition prec : Z := 53.
Definition emax : Z := 1024.
Definition float : Type := spec_float.

(** An integer read as an unrounded dyadic number. *)
Definition exact_int (z : Z) : spec_float :=
  match z with
  | Z0 => S754_zero false
  | Zpos p => S754_finite false p 0
  | Zneg p => S754_finite true p 0
  end.

(** [float(z)]. *)
Definition of_int (z : Z) : float := binary_normalize prec emax z 0 false.

(** [a / b] on two ints: the correctly rounded quotient. *)
Definition truediv (a b : Z) : float :=
  SFdiv prec emax (exact_int a) (exact_int b).

Definition mul (x y : float) : float := SFmul prec emax x y.
Definition add (x y : float) : float := SFadd prec emax x y.
Definition div (x y : float) : float := SFdiv prec emax x y.

(** [x >= y] and [x < y]; both are [False] on a NaN. *)
Definition ge (x y : float) : bool := SFleb y x.
Definition lt (x y : float) : bool := SFltb x y.

Definition zero : float := S754_zero false.

(** Nearest integer to [num / den], ties to even ([0 <= num], [0 < den]). *)
Definition half_even (num den : Z) : Z :=
  let q := num / den in
  match (2 * (num mod den)) ?= den with
  | Lt => q
  | Gt => q + 1
  | Eq => if Z.even q then q else q + 1
  end.

(** [round(x, ndigits)] for [0 <= ndigits]: the exact value of [x] is
    rounded to [ndigits] decimals, ties to even, and the decimal result
    is read back as the nearest float; the sign is kept, NaN and the
    infinities round to themselves. *)
Definition round (x : float) (ndigits : Z) : float :=
  match x with
  | S754_finite s m e =>
      if 0 <=? e then x
      else
        let n := half_even (Zpos m * 10 ^ ndigits) (2 ^ (- e)) in
        let r := truediv n (10 ^ ndigits) in
        if s then SFopp r else r
  | _ => x
  end.

End PyFloat.

Definition float : Type := spec_float.

(** ** Data model *)

(** [x in ["P", "A", "L"]]. *)
Definition in_PAL (s : string) : bool :=
  (s =? "P")%string || (s =? "A")%string || (s =? "L")%string.

(** One entry of a [sessions] array; [None] is a missing key or [null]. *)
Record session : Type := mk_session {
  session_id : option string;
  session_name : option string;
  session_status : option string
}.

(** The value stored under one date of a student's [attendance]. *)
Inductive cell : Type :=
| Null                                                (* null *)
| Simple (s : string)                                 (* 'P' | 'A' | 'L' *)
| Counted (status : option string) (count : option Z) (* { status, count } *)
| Sessions (sessions : list session) (updated_at : string)
                                                      (* { sessions, updated_at } *)
| Unrecognized.                                       (* anything else *)

Definition attendance_map : Type := list (string * cell).

(** [attendance.get(date)]: [None] when the key is missing or holds null. *)
Fixpoint attendance_get (att : attendance_map) (date : string) : option cell :=
  match att with
  | [] => None
  | (d, c) :: rest =>
      if (d =? date)%string
      then match c with Null => None | _ => Some c end
      else attendance_get rest date
  end.

(** [attendance[date] = c]. *)
Fixpoint attendance_set (att : attendance_map) (date : string) (c : cell)
  : attendance_map :=
  match att with
  | [] => [(date, c)]
  | (d, c0) :: rest =>
      if (d =? date)%string then (d, c) :: rest
      else (d, c0) :: attendance_set rest date c
  end.

(** A roster-scoped student record id: a JSON number or string. *)
Inductive record_id : Type :=
| IdInt (z : Z)
| IdStr (s : string).

Definition record_id_eqb (a b : record_id) : bool :=
  match a, b with
  | IdInt x, IdInt y => x =? y
  | IdStr x, IdStr y => (x =? y)%string
  | _, _ => false
  end.

(** A student record of a class; a record without an [attendance] key
    reads as the empty mapping at every use. *)
Record student : Type := mk_student {
  student_record_id : record_id;
  rollNo : string;
  student_name : string;
  student_email : string;
  attendance : attendance_map
}.

(** The [thresholds] object of a class; a missing key is [None]. *)
Record thresholds : Type := mk_thresholds {
  excellent : option float;
  good : option float;
  moderate : option float;
  atRisk : option float
}.

Definition f95 : float := PyFloat.of_int 95.
Definition f90 : float := PyFloat.of_int 90.
Definition f85 : float := PyFloat.of_int 85.
Definition f100 : float := PyFloat.of_int 100.

Definition default_thresholds : thresholds :=
  mk_thresholds (Some f95) (Some f90) (Some f85) (Some f85).

(** [th.get(key, default)]. *)
Definition get_or (v : option float) (default : float) : float :=
  match v with Some x => x | None => default end.

(** The dictionary returned by [calculate_student_statistics]. *)
Record student_statistics : Type := mk_student_statistics {
  total_classes : Z;
  present : Z;
  absent : Z;
  late : Z;
  percentage : float;
  status : string
}.

(** The four counters of the aggregation loops. *)
Record tally : Type := mk_tally {
  t_present : Z;
  t_absent : Z;
  t_late : Z;
  t_total : Z
}.

Definition tally0 : tally := mk_tally 0 0 0 0.

(** The block
    [if status in ['P','A','L']: total += n; if status == 'P': present += n
     elif status == 'A': absent += n elif status == 'L': late += n]. *)
Definition tally_add (st : option string) (n : Z) (t : tally) : tally :=
  match st with
  | Some s =>
      if in_PAL s then
        if (s =? "P")%string
        then mk_tally (t_present t + n) (t_absent t) (t_late t) (t_total t + n)
        else if (s =? "A")%string
        then mk_tally (t_present t) (t_absent t + n) (t_late t) (t_total t + n)
        else if (s =? "L")%string
        then mk_tally (t_present t) (t_absent t) (t_late t + n) (t_total t + n)
        else mk_tally (t_present t) (t_absent t) (t_late t) (t_total t + n)
      else t
  | None => t
  end.

(** [f"session_{i}"] and [f"QR Session {i}"]. *)
Definition str_of_int (i : Z) : string := NilZero.string_of_int (Z.to_int i).
Definition session_key (i : Z) : string := "session_" ++ str_of_int i.
Definition qr_session_name (i : Z) : string := "QR Session " ++ str_of_int i.

(** [range(lo, hi)]. *)
Definition py_range (lo hi : Z) : list Z :=
  map (fun k => lo + Z.of_nat k) (seq 0 (Z.to_nat (hi - lo))).

(** ** The decode contract (specification section 4.1)

    Written from the specification, to compare the code against: the
    ordered list of session entries a stored value stands for. *)

Definition spec_decode (raw : option cell) : list session :=
  match raw with
  | None | Some Null => []
  | Some (Simple s) =>
      if in_PAL s
      then [mk_session (Some "session_1") (Some "Session 1") (Some s)]
      else []
  | Some (Counted st c) =>
      map (fun i => mk_session (Some (session_key i))
                               (Some ("Session " ++ str_of_int i)) st)
          (py_range 1 (match c with Some n => n | None => 1 end + 1))
  | Some (Sessions ss _) => ss
  | Some Unrecognized => []
  end.

(** Entries whose status is the given mark. *)
Definition has_status (mark : string) (s : session) : bool :=
  match session_status s with
  | Some x => (x =? mark)%string
  | None => false
  end.

(** Entries carrying a verdict P, A or L. *)
Definition is_marked (s : session) : bool :=
  match session_status s with
  | Some x => in_PAL x
  | None => false
  end.

(** Entries whose status is not null: the "valid sessions". *)
Definition is_valid (s : session) : bool :=
  match session_status s with
  | Some _ => true
  | None => false
  end.

Definition count_of {A : Type} (p : A -> bool) (l : list A) : Z :=
  Z.of_nat (List.length (filter p l)).

(** Every decoded entry of a student, over all dates. *)
Definition spec_entries (att : attendance_map) : list session :=
  flat_map (fun dc => spec_decode (Some (snd dc))) att.

(** The status bucket of a percentage (specification section 4.4). *)
Definition spec_bucket (th : thresholds) (pct : float) : string :=
  if PyFloat.ge pct (get_or (excellent th) f95) then "excellent"
  else if PyFloat.ge pct (get_or (good th) f90) then "good"
  else if PyFloat.ge pct (get_or (moderate th) f85) then "moderate"
  else "at risk".

(** A legacy-counted cell is well formed when its count is not negative
    (the data model asks for [count >= 1]). *)
Definition cell_wf (c : cell) : bool :=
  match c with
  | Counted _ (Some n) => 0 <=? n
  | _ => true
  end.

Definition attendance_wf (att : attendance_map) : bool :=
  forallb (fun dc => cell_wf (snd dc)) att.

(** ** Stored documents shared by the two backends *)

(** A QR session document. *)
Record qr_session : Type := mk_qr_session {
  qr_class_id : string;
  qr_teacher_id : string;
  qr_date : string;
  session_number : Z;
  started_at : string;
  qr_rotation_interval : Z;
  current_code : string;
  code_generated_at : string;
  last_rotation : option string;
  scanned_students : list record_id;
  qr_status : string;
  last_scan_at : option string;
  stopped_at : option string
}.

(** An enrollment document. *)
Record enrollment : Type := mk_enrollment {
  e_student_id : string;
  e_student_record_id : record_id;
  e_class_id : string;
  e_roll_no : string;
  e_status : string;
  enrolled_at : string;
  re_enrolled_at : option string;
  unenrolled_at : option string
}.

(** The cached [statistics] object of a class; the two backends write
    different keys, a key that is not written is [None]. *)
Record class_statistics : Type := mk_class_statistics {
  totalStudents : Z;
  avgAttendance : option float;
  atRiskCount : option Z;
  excellentCount : option Z;
  lastCalculated : option string;
  averageAttendance : option float;
  totalSessions : option Z
}.

(** A class document. *)
Record class_data : Type := mk_class_data {
  c_id : string;
  c_teacher_id : string;
  enrollment_mode : option string;
  students : list student;
  class_thresholds : option thresholds;
  statistics : option class_statistics;
  updated_at : string
}.

(** The outcome of a call: a returned value or a raised exception. *)
Inductive result (A : Type) : Type :=
| Return (a : A)
| Raise (msg : string).
Arguments Return {A} a.
Arguments Raise {A} msg.

(** The dictionary returned by [stop_qr_session]. *)
Record stop_report : Type := mk_stop_report {
  scanned_count : Z;
  absent_count : Z;
  report_date : string;
  report_session_number : Z
}.

Definition record_id_eq_dec (a b : record_id) : {a = b} + {a <> b}.
Proof.
  decide equality; [apply Z.eq_dec | apply string_dec].
Defined.

(** [x in ids]. *)
Definition id_in (x : record_id) (ids : list record_id) : bool :=
  existsb (record_id_eqb x) ids.

(** [key in {s.get('id') for s in sessions}]. *)
Definition key_in (key : string) (ids : list (option string)) : bool :=
  existsb (fun o => match o with
                    | Some k => (k =? key)%string
                    | None => false
                    end) ids.

(** [l.insert(i, x)] for [0 <= i]: past the end it appends. *)
Fixpoint py_insert {A : Type} (l : list A) (i : nat) (x : A) : list A :=
  match i, l with
  | O, _ => x :: l
  | S _, [] => [x]
  | S k, y :: rest => y :: py_insert rest k x
  end.

Definition set_status (s : session) (st : string) : session :=
  mk_session (session_id s) (session_name s) (Some st).

(** [for s in sessions: if s.get('id') == key: s['status'] = st; break]. *)
Fixpoint set_first_status (key st : string) (sessions : list session)
  : list session :=
  match sessions with
  | [] => []
  | s :: rest =>
      match session_id s with
      | Some k =>
          if (k =? key)%string then set_status s st :: rest
          else s :: set_first_status key st rest
      | None => s :: set_first_status key st rest
      end
  end.

(** The entry the merge inserts for a missing id [i] of session [n]:
    [{id: f"session_{i}", name: f"QR Session {i}", status}] where the
    status is [last] for [i == n] and ['A'] otherwise. *)
Definition new_session (n : Z) (last : string) (i : Z) : session :=
  mk_session (Some (session_key i)) (Some (qr_session_name i))
             (Some (if i =? n then last else "A")).

(** One round of the loop
    [for i in range(1, n + 1): if f"session_{i}" not in existing_ids:
       sessions.insert(i - 1, {...})];
    [existing_ids] is computed once, before the loop. *)
Definition fill_step (existing_ids : list (option string)) (n : Z)
    (last : string) (sessions : list session) (i : Z) : list session :=
  if key_in (session_key i) existing_ids then sessions
  else py_insert sessions (Z.to_nat (i - 1)) (new_session n last i).

Definition fill_missing (existing_ids : list (option string)) (n : Z)
    (last : string) (sessions : list session) : list session :=
  fold_left (fill_step existing_ids n last) (py_range 1 (n + 1)) sessions.

(** The list with the first element satisfying [p] rewritten by [f]:
    the effect of mutating the object a search loop stopped at. *)
Fixpoint update_first {A : Type} (p : A -> bool) (f : A -> A) (l : list A)
  : list A :=
  match l with
  | [] => []
  | x :: rest => if p x then f x :: rest else x :: update_first p f rest
  end.

(** Truthiness of a stored value, [if day_data:]. *)
Definition truthy (c : cell) : bool :=
  match c with
  | Null => false
  | Simple s => negb (s =? "")%string
  | Counted _ _ => true
  | Sessions _ _ => true
  | Unrecognized => false
  end.

Definition update_student_attendance (s : student) (att : attendance_map)
  : student :=
  mk_student (student_record_id s) (rollNo s) (student_name s)
             (student_email s) att.

(** ** The file backend: [db_manager.py] *)

Module DatabaseManager.

(** *** Session numbering *)

(** The contribution of one student's value for the date to
    [max_sessions] in [_count_valid_sessions_for_date]. *)
Definition day_session_count (day_data : option cell) : Z :=
  match day_data with
  | Some c =>
      if truthy c then
        match c with
        | Sessions sessions _ => count_of is_valid sessions
        | Counted (Some _) c => match c with Some n => n | None => 1 end
        | Simple _ => 1
        | _ => 0
        end
      else 0
  | None => 0
  end.

Definition _count_valid_sessions_for_date (cd : class_data) (date : string)
  : Z :=
  match students cd with
  | [] => 0
  | sts =>
      fold_left
        (fun max_sessions st =>
           Z.max max_sessions
                 (day_session_count (attendance_get (attendance st) date)))
        sts 0
  end.

(** [existing_session] is the content of the QR session file of the
    class and date, [cd] the class found by [get_class_by_id]. *)
Definition start_qr_session (cd : option class_data)
    (existing_session : option qr_session)
    (class_id teacher_id date : string) (rotation_interval : Z)
    (now code : string) : result qr_session :=
  match cd with
  | None => Raise "Class not found or unauthorized"
  | Some cd =>
      if negb (c_teacher_id cd =? teacher_id)%string
      then Raise "Class not found or unauthorized"
      else
        let mode := match enrollment_mode cd with
                    | Some m => m
                    | None => "manual_entry"
                    end in
        if negb (mode =? "enrollment_via_id")%string
        then Raise "QR attendance is only available for classes with student enrollment via Class ID"
        else
          let valid_session_count := _count_valid_sessions_for_date cd date in
          let active :=
            match existing_session with
            | Some s => (qr_status s =? "active")%string
            | None => false
            end in
          if active
          then Raise "There is already an active QR session for this date. Please stop it first."
          else
            Return (mk_qr_session class_id teacher_id date
                      (valid_session_count + 1) now rotation_interval
                      code now None [] "active" None None)
  end.

(** *** The merge of a QR scan *)

(** The value [scan_qr_code] assigns to [attendance[date]] for a QR
    session numbered [n], from the value found there; [None] when no
    branch assigns. *)
Definition scan_cell (n : Z) (now : string) (current_value : option cell)
  : option cell :=
  if n =? 1 then
    match current_value with
    | None => Some (Simple "P")
    | Some (Simple _) => Some (Simple "P")
    | Some (Sessions sessions _) =>
        let sessions :=
          match sessions with
          | s0 :: rest => set_status s0 "P" :: rest
          | [] => [mk_session (Some "session_1") (Some "QR Session 1")
                              (Some "P")]
          end in
        Some (Sessions sessions now)
    | Some _ => None
    end
  else
    match current_value with
    | None =>
        Some (Sessions
                (map (fun i => mk_session (Some (session_key i))
                                          (Some (qr_session_name i))
                                          (Some "A"))
                     (py_range 1 n)
                 ++ [mk_session (Some (session_key n))
                                (Some (qr_session_name n)) (Some "P")])
                now)
    | Some (Simple v) =>
        Some (Sessions
                (map (fun i => mk_session (Some (session_key i))
                                          (Some (qr_session_name i))
                                          (Some (if i =? 1 then v else "A")))
                     (py_range 1 n)
                 ++ [mk_session (Some (session_key n))
                                (Some (qr_session_name n)) (Some "P")])
                now)
    | Some (Sessions sessions _) =>
        (* the set of the source leaves out the ids that are falsy; no
           [f"session_{i}"] is *)
        let existing_session_ids := map session_id sessions in
        let sessions := fill_missing existing_session_ids n "P" sessions in
        Some (Sessions (set_first_status (session_key n) "P" sessions) now)
    | Some _ => None
    end.

(** The student's attendance mapping after the scan. *)
Definition scan_attendance (n : Z) (now date : string) (att : attendance_map)
  : attendance_map :=
  match scan_cell n now (attendance_get att date) with
  | Some c => attendance_set att date c
  | None => att
  end.

(** [for e in all_enrollments: if e.student_id == student_id and
     e.status == "active": enrollment = e; break]. *)
Definition find_active_enrollment (all_enrollments : list enrollment)
    (student_id : string) : option enrollment :=
  find (fun e => (e_student_id e =? student_id)%string
                 && (e_status e =? "active")%string) all_enrollments.

Definition set_students (cd : class_data) (sts : list student) : class_data :=
  mk_class_data (c_id cd) (c_teacher_id cd) (enrollment_mode cd)
                sts (class_thresholds cd) (statistics cd) (updated_at cd).

(** [qr_code_value] is the code read from the scanned payload. *)
Definition scan_qr_code (session_data : option qr_session)
    (all_enrollments : list enrollment) (cd : option class_data)
    (student_id qr_code_value date now : string)
  : result (class_data * qr_session) :=
  match session_data with
  | None => Raise "No active QR session"
  | Some sd =>
      if negb (qr_status sd =? "active")%string
      then Raise "No active QR session"
      else if negb (current_code sd =? qr_code_value)%string
      then Raise "Invalid or expired QR code"
      else
        let qr_session_number := session_number sd in
        match find_active_enrollment all_enrollments student_id with
        | None => Raise "Student not actively enrolled in this class"
        | Some e =>
            let rid := e_student_record_id e in
            match cd with
            | None => Raise "Class not found"
            | Some cd =>
                if negb (existsb (fun s => record_id_eqb (student_record_id s) rid)
                                 (students cd))
                then Raise "Student record not found"
                else
                  let sts :=
                    update_first
                      (fun s => record_id_eqb (student_record_id s) rid)
                      (fun s => update_student_attendance s
                                  (scan_attendance qr_session_number now date
                                                   (attendance s)))
                      (students cd) in
                  let scanned :=
                    if id_in rid (scanned_students sd)
                    then scanned_students sd
                    else (scanned_students sd ++ [rid])%list in
                  Return (set_students cd sts,
                          mk_qr_session (qr_class_id sd) (qr_teacher_id sd)
                            (qr_date sd) (session_number sd) (started_at sd)
                            (qr_rotation_interval sd) (current_code sd)
                            (code_generated_at sd) (last_rotation sd)
                            scanned (qr_status sd) (Some now) (stopped_at sd))
            end
        end
  end.

(** *** Stopping a QR session *)

(** The value [stop_qr_session] assigns to [attendance[date]] of a
    student who did not scan; [None] when no branch assigns. *)
Definition absent_cell (n : Z) (now : string) (current_value : option cell)
  : option cell :=
  if n =? 1 then Some (Simple "A")
  else
    match current_value with
    | None =>
        Some (Sessions
                (map (fun i => mk_session (Some (session_key i))
                                          (Some (qr_session_name i))
                                          (Some "A"))
                     (py_range 1 (n + 1)))
                now)
    | Some (Simple v) =>
        Some (Sessions
                (map (fun i => mk_session (Some (session_key i))
                                          (Some (qr_session_name i))
                                          (Some (if i =? 1 then v else "A")))
                     (py_range 1 (n + 1)))
                now)
    | Some (Sessions sessions _) =>
        let existing_ids := map session_id sessions in
        Some (Sessions (fill_missing existing_ids n "A" sessions) now)
    | Some _ => None
    end.

Definition absent_attendance (n : Z) (now date : string)
    (att : attendance_map) : attendance_map :=
  match absent_cell n now (attendance_get att date) with
  | Some c => attendance_set att date c
  | None => att
  end.

(** [{e.student_record_id for e in all_enrollments if e.status == "active"}]. *)
Definition active_student_ids (all_enrollments : list enrollment)
  : list record_id :=
  map e_student_record_id
      (filter (fun e => (e_status e =? "active")%string) all_enrollments).

(** The students the loop of [stop_qr_session] marks. *)
Definition to_mark (active scanned : list record_id) (s : student) : bool :=
  id_in (student_record_id s) active
  && negb (id_in (student_record_id s) scanned).

(** [cd] is the class file of the teacher and class; reading a missing
    file gives [None] and the first [.get] on it raises. *)
Definition stop_qr_session (session_data : option qr_session)
    (all_enrollments : list enrollment) (cd : option class_data)
    (teacher_id date now : string)
  : result (class_data * qr_session * stop_report) :=
  match session_data with
  | None => Raise "No active session"
  | Some sd =>
      if negb (qr_status sd =? "active")%string
      then Raise "No active session"
      else if negb (qr_teacher_id sd =? teacher_id)%string
      then Raise "Unauthorized"
      else
        let qr_session_number := session_number sd in
        let scanned_ids := nodup record_id_eq_dec (scanned_students sd) in
        let active := active_student_ids all_enrollments in
        match cd with
        | None => Raise "AttributeError"
        | Some cd =>
            let sts :=
              map (fun s =>
                     if to_mark active scanned_ids s
                     then update_student_attendance s
                            (absent_attendance qr_session_number now date
                                               (attendance s))
                     else s)
                  (students cd) in
            let marked_absent :=
              count_of (to_mark active scanned_ids) (students cd) in
            Return (set_students cd sts,
                    mk_qr_session (qr_class_id sd) (qr_teacher_id sd)
                      (qr_date sd) (session_number sd) (started_at sd)
                      (qr_rotation_interval sd) (current_code sd)
                      (code_generated_at sd) (last_rotation sd)
                      (scanned_students sd) "stopped" (last_scan_at sd)
                      (Some now),
                    mk_stop_report (Z.of_nat (List.length scanned_ids))
                      marked_absent date qr_session_number)
        end
  end.

(** *** Student statistics *)

(** The body of the loop over [attendance.items()] of
    [calculate_student_statistics]. *)
Definition student_tally_step (t : tally) (dc : string * cell) : tally :=
  match snd dc with
  | Sessions sessions _ =>
      fold_left (fun acc s => tally_add (session_status s) 1 acc) sessions t
  | Counted st c =>
      tally_add st (match c with Some n => n | None => 1 end) t
  | Simple value => tally_add (Some value) 1 t
  | Null | Unrecognized => t
  end.

Definition calculate_student_statistics
    (student_record : student) (th : option thresholds) : student_statistics :=
  let th := match th with Some t => t | None => default_thresholds end in
  match attendance student_record with
  | [] => mk_student_statistics 0 0 0 0 PyFloat.zero "no data"
  | att =>
      let t := fold_left student_tally_step att tally0 in
      let pct :=
        if t_total t >? 0
        then PyFloat.mul (PyFloat.truediv (t_present t + t_late t) (t_total t)) f100
        else PyFloat.zero in
      let st :=
        if PyFloat.ge pct (get_or (excellent th) f95) then "excellent"
        else if PyFloat.ge pct (get_or (good th) f90) then "good"
        else if PyFloat.ge pct (get_or (moderate th) f85) then "moderate"
        else "at risk" in
      mk_student_statistics (t_total t) (t_present t) (t_absent t) (t_late t)
                            (PyFloat.round pct 3) st
  end.

(** *** Class statistics *)

(** The body of the loop over [attendance.items()] of
    [calculate_class_statistics].  The source enters the first branch on
    a sessions array that is not empty; an empty one adds nothing in
    either reading. *)
Definition class_tally_step (t : tally) (dc : string * cell) : tally :=
  match snd dc with
  | Sessions sessions _ =>
      fold_left (fun acc s => tally_add (session_status s) 1 acc) sessions t
  | Counted st c =>
      tally_add st (match c with Some n => n | None => 1 end) t
  | Simple value => tally_add (Some value) 1 t
  | Null | Unrecognized => t
  end.

(** The counters of the loop over the students. *)
Record class_acc : Type := mk_class_acc {
  at_risk : Z;
  excellent_count : Z;
  total_attendance : float;
  students_with_attendance : Z
}.

Definition class_acc0 : class_acc := mk_class_acc 0 0 PyFloat.zero 0.

Definition class_student_step (th : thresholds) (acc : class_acc)
    (st : student) : class_acc :=
  match attendance st with
  | [] => acc
  | att =>
      let t := fold_left class_tally_step att tally0 in
      if t_total t >? 0 then
        let percentage :=
          PyFloat.mul (PyFloat.truediv (t_present t + t_late t) (t_total t))
                      f100 in
        let total_attendance := PyFloat.add (total_attendance acc) percentage in
        let students_with_attendance := students_with_attendance acc + 1 in
        if PyFloat.ge percentage (get_or (excellent th) f95)
        then mk_class_acc (at_risk acc) (excellent_count acc + 1)
                          total_attendance students_with_attendance
        else if PyFloat.lt percentage (get_or (atRisk th) f85)
        then mk_class_acc (at_risk acc + 1) (excellent_count acc)
                          total_attendance students_with_attendance
        else mk_class_acc (at_risk acc) (excellent_count acc)
                          total_attendance students_with_attendance
      else acc
  end.

Definition calculate_class_statistics (cd : class_data) (now : string)
  : class_statistics :=
  match students cd with
  | [] => mk_class_statistics 0 (Some PyFloat.zero) (Some 0) (Some 0)
                              None None None
  | sts =>
      let th := match class_thresholds cd with
                | Some t => t
                | None => default_thresholds
                end in
      let acc := fold_left (class_student_step th) sts class_acc0 in
      let avg_attendance :=
        if students_with_attendance acc >? 0
        then PyFloat.div (total_attendance acc)
                         (PyFloat.of_int (students_with_attendance acc))
        else PyFloat.zero in
      mk_class_statistics (Z.of_nat (List.length sts))
        (Some (PyFloat.round avg_attendance 3))
        (Some (at_risk acc)) (Some (excellent_count acc)) (Some now)
        None None
  end.

(** *** Enrollment *)

Record student_info : Type := mk_student_info {
  info_name : string;
  info_rollNo : string;
  info_email : string
}.

(** The dictionary returned by [enroll_student]. *)
Record enroll_report : Type := mk_enroll_report {
  r_class_id : string;
  r_student_id : string;
  r_student_record_id : record_id;
  r_status : string;
  r_message : string
}.

(** What [update_user_overview] does to the class file, through
    [get_all_classes]: the cached statistics are recomputed, over the
    actively enrolled students in enrollment mode, and saved; the
    roster of the file is not touched.  Nothing happens when the
    teacher's user file is missing. *)
Definition refresh_statistics (teacher_exists : bool)
    (enrollments : list enrollment) (cd : class_data) (now : string)
  : class_data :=
  if teacher_exists then
    let mode := match enrollment_mode cd with
                | Some m => m
                | None => "manual_entry"
                end in
    let shown :=
      if (mode =? "enrollment_via_id")%string
      then filter (fun s => id_in (student_record_id s)
                                  (active_student_ids enrollments))
                  (students cd)
      else students cd in
    mk_class_data (c_id cd) (c_teacher_id cd) (enrollment_mode cd)
      (students cd) (class_thresholds cd)
      (Some (calculate_class_statistics (set_students cd shown) now))
      (updated_at cd)
  else cd.

Definition reactivate (info : student_info) (now : string) (e : enrollment)
  : enrollment :=
  mk_enrollment (e_student_id e) (e_student_record_id e) (e_class_id e)
                (info_rollNo info) "active" (enrolled_at e) (Some now)
                (unenrolled_at e).

Definition rename_student (info : student_info) (s : student) : student :=
  mk_student (student_record_id s) (info_rollNo info) (info_name info)
             (student_email s) (attendance s).

(** [fresh_id] is the value of [_generate_student_record_id()];
    [teacher_exists] tells whether the teacher's user file is there. *)
Definition enroll_student (cd : option class_data)
    (enrollments : list enrollment) (student_id class_id : string)
    (info : student_info) (now : string) (fresh_id : Z)
    (teacher_exists : bool)
  : result (list enrollment * class_data * enroll_report) :=
  match cd with
  | None => Raise "Class not found"
  | Some cd =>
      if (c_teacher_id cd =? "")%string then Raise "Invalid class data"
      else if existsb (fun e => (e_student_id e =? student_id)%string
                                && (e_status e =? "active")%string)
                      enrollments
      then Raise "You are already enrolled in this class"
      else
        let is_student := fun e => (e_student_id e =? student_id)%string in
        match find is_student enrollments with
        | Some previous_enrollment =>
            let rid := e_student_record_id previous_enrollment in
            let enrollments := update_first is_student (reactivate info now)
                                            enrollments in
            let has_id := fun s => record_id_eqb (student_record_id s) rid in
            let sts :=
              match find has_id (students cd) with
              | Some _ => update_first has_id (rename_student info)
                                       (students cd)
              | None =>
                  (students cd
                   ++ [mk_student rid (info_rollNo info) (info_name info)
                                  (info_email info) []])%list
              end in
            let attendance_count :=
              match find has_id sts with
              | Some s => Z.of_nat (List.length (attendance s))
              | None => 0
              end in
            Return (enrollments,
                    refresh_statistics teacher_exists enrollments
                                       (set_students cd sts) now,
                    mk_enroll_report class_id student_id rid "re-enrolled"
                      ("Welcome back! Your " ++ str_of_int attendance_count
                       ++ " attendance records have been restored."))
        | None =>
            let rid := IdInt fresh_id in
            let enrollments :=
              (enrollments
               ++ [mk_enrollment student_id rid class_id (info_rollNo info)
                                 "active" now None None])%list in
            let sts :=
              (students cd
               ++ [mk_student rid (info_rollNo info) (info_name info)
                              (info_email info) []])%list in
            Return (enrollments,
                    refresh_statistics teacher_exists enrollments
                                       (set_students cd sts) now,
                    mk_enroll_report class_id student_id rid "enrolled"
                      "Successfully enrolled in class!")
        end
  end.

Definition deactivate (now : string) (e : enrollment) : enrollment :=
  mk_enrollment (e_student_id e) (e_student_record_id e) (e_class_id e)
                (e_roll_no e) "inactive" (enrolled_at e) (re_enrolled_at e)
                (Some now).

(** Returns the flag of the source with the enrollment file and the
    class file as they are left. *)
Definition unenroll_student (all_enrollments : list enrollment)
    (cd : option class_data) (student_id : string) (now : string)
    (teacher_exists : bool)
  : bool * list enrollment * option class_data :=
  let is_active := fun e => (e_student_id e =? student_id)%string
                            && (e_status e =? "active")%string in
  match find is_active all_enrollments with
  | None => (false, all_enrollments, cd)
  | Some _ =>
      let all_enrollments := update_first is_active (deactivate now)
                                          all_enrollments in
      let cd :=
        match cd with
        | Some c =>
            if (c_teacher_id c =? "")%string then Some c
            else Some (refresh_statistics teacher_exists all_enrollments c now)
        | None => None
        end in
      (true, all_enrollments, cd)
  end.

(** *** Reading the active session *)

(** [session_data] is the content of the QR session file, [expired] the
    outcome of the test [elapsed >= rotation_interval] on the clock.  A
    session that is returned is also what the file holds afterwards. *)
Definition get_qr_session (session_data : option qr_session)
    (expired : bool) (now code : string) : option qr_session :=
  match session_data with
  | None => None
  | Some sd =>
      if negb (qr_status sd =? "active")%string then None
      else if expired
      then Some (mk_qr_session (qr_class_id sd) (qr_teacher_id sd)
                   (qr_date sd) (session_number sd) (started_at sd)
                   (qr_rotation_interval sd) code now (last_rotation sd)
                   (scanned_students sd) (qr_status sd) (last_scan_at sd)
                   (stopped_at sd))
      else Some sd
  end.

(** *** Reading and updating a class *)

Definition get_class_enrollments (all_enrollments : list enrollment)
  : list enrollment :=
  filter (fun e => (e_status e =? "active")%string) all_enrollments.

Definition set_statistics (cd : class_data) (st : class_statistics)
  : class_data :=
  mk_class_data (c_id cd) (c_teacher_id cd) (enrollment_mode cd)
                (students cd) (class_thresholds cd) (Some st) (updated_at cd).

(** [cd] is the content of the class file; the file is not written. *)
Definition get_class (cd : option class_data)
    (all_enrollments : list enrollment) (now : string) : option class_data :=
  match cd with
  | None => None
  | Some class_data =>
      let enrollment_mode := match enrollment_mode class_data with
                             | Some m => m
                             | None => "manual_entry"
                             end in
      if (enrollment_mode =? "enrollment_via_id")%string then
        let active_enrollments := get_class_enrollments all_enrollments in
        let active_record_ids := map e_student_record_id active_enrollments in
        let all_students := students class_data in
        let active_students :=
          filter (fun s => id_in (student_record_id s) active_record_ids)
                 all_students in
        let class_data_copy := set_students class_data active_students in
        Some (set_statistics class_data_copy
                (calculate_class_statistics class_data_copy now))
      else
        Some (set_statistics class_data
                (calculate_class_statistics class_data now))
  end.

(** The dictionary [class_data] handed to [update_class], with the keys
    a class document of this model has; a key that is absent is [None]. *)
Record class_update : Type := mk_class_update {
  u_id : option string;
  u_teacher_id : option string;
  u_enrollment_mode : option (option string);
  u_students : option (list student);
  u_thresholds : option (option thresholds)
}.

(** An enrollment the teacher removed: [status] becomes inactive.  The
    stamp [removed_by_teacher_at], which is written here and read
    nowhere, is not a field of the record. *)
Definition remove_by_teacher (e : enrollment) : enrollment :=
  mk_enrollment (e_student_id e) (e_student_record_id e) (e_class_id e)
                (e_roll_no e) "inactive" (enrolled_at e) (re_enrolled_at e)
                (unenrolled_at e).

(** [{s.get('id'): s for s in incoming_students}.get(rid)]: of the
    records with the same id the last one stays in the dictionary. *)
Definition updated_student (incoming_students : list student)
    (rid : record_id) : option student :=
  find (fun s => record_id_eqb (student_record_id s) rid)
       (rev incoming_students).

(** [current_class.update(class_data)], then the new time stamp. *)
Definition merge_update (current_class : class_data)
    (payload : class_update) (now : string) : class_data :=
  mk_class_data
    (match u_id payload with Some v => v | None => c_id current_class end)
    (match u_teacher_id payload with
     | Some v => v
     | None => c_teacher_id current_class
     end)
    (match u_enrollment_mode payload with
     | Some v => v
     | None => enrollment_mode current_class
     end)
    (match u_students payload with
     | Some v => v
     | None => students current_class
     end)
    (match u_thresholds payload with
     | Some v => v
     | None => class_thresholds current_class
     end)
    (statistics current_class)
    now.

Definition with_students (payload : class_update) (sts : list student)
  : class_update :=
  mk_class_update (u_id payload) (u_teacher_id payload)
                  (u_enrollment_mode payload) (Some sts)
                  (u_thresholds payload).

(** Returns the class handed back, and the class file and the
    enrollment file as they are left; [teacher_exists] tells whether
    the teacher's user file is there, for [update_user_overview]. *)
Definition update_class (current_class : option class_data)
    (enrollments : list enrollment) (class_id : string)
    (payload : class_update) (now : string) (teacher_exists : bool)
  : result (class_data * class_data * list enrollment) :=
  match current_class with
  | None => Raise ("Class " ++ class_id ++ " not found")
  | Some current_class =>
      let enrollment_mode := match enrollment_mode current_class with
                             | Some m => m
                             | None => "manual_entry"
                             end in
      let '(enrollments, payload) :=
        if (enrollment_mode =? "enrollment_via_id")%string then
          let all_students_in_file := students current_class in
          let incoming_students := match u_students payload with
                                   | Some l => l
                                   | None => []
                                   end in
          let current_ids := map student_record_id all_students_in_file in
          let new_ids := map student_record_id incoming_students in
          let deleted := fun rid => id_in rid current_ids
                                    && negb (id_in rid new_ids) in
          let enrollments :=
            map (fun e =>
                   if deleted (e_student_record_id e)
                      && (e_status e =? "active")%string
                   then remove_by_teacher e
                   else e)
                enrollments in
          let final_students :=
            map (fun student =>
                   match updated_student incoming_students
                                         (student_record_id student) with
                   | Some s => s
                   | None => student
                   end)
                all_students_in_file in
          (enrollments, with_students payload final_students)
        else (enrollments, payload) in
      let current_class := merge_update current_class payload now in
      let current_class :=
        set_statistics current_class
                       (calculate_class_statistics current_class now) in
      Return (current_class,
              refresh_statistics teacher_exists enrollments current_class now,
              enrollments)
  end.

(** *** The teacher's edit of one day *)

(** [if date in attendance: del attendance[date]]. *)
Definition attendance_del (att : attendance_map) (date : string)
  : attendance_map :=
  filter (fun dc => negb (fst dc =? date)%string) att.

(** Returns the flag of the source with the class file as it is left. *)
Definition update_multi_session_attendance (cd : option class_data)
    (student_id : record_id) (date : string) (sessions : list session)
    (now : string) : bool * option class_data :=
  match cd with
  | None => (false, None)
  | Some class_data =>
      let is_student := fun s => record_id_eqb (student_record_id s)
                                               student_id in
      if existsb is_student (students class_data) then
        let valid_sessions := filter is_valid sessions in
        let edit := fun s =>
          update_student_attendance s
            (match valid_sessions with
             | [] => attendance_del (attendance s) date
             | _ => attendance_set (attendance s) date
                                   (Sessions valid_sessions now)
             end) in
        let class_data :=
          set_students class_data
                       (update_first is_student edit (students class_data)) in
        (true,
         Some (set_statistics class_data
                              (calculate_class_statistics class_data now)))
      else (false, Some class_data)
  end.

(** *** Attendance sessions *)

(** The marks of an attendance session, [{student_id: status}]. *)
Definition marks : Type := list (string * string).

Fixpoint marks_get (m : marks) (student_id : string) : option string :=
  match m with
  | [] => None
  | (k, v) :: rest =>
      if (k =? student_id)%string then Some v else marks_get rest student_id
  end.

Fixpoint marks_set (m : marks) (student_id status : string) : marks :=
  match m with
  | [] => [(student_id, status)]
  | (k, v) :: rest =>
      if (k =? student_id)%string then (k, status) :: rest
      else (k, v) :: marks_set rest student_id status
  end.

(** The body of a request to create a session (the four strings of
    [AttendanceSessionRequest]). *)
Record session_request : Type := mk_session_request {
  req_date : string;
  req_sessionName : string;
  req_startTime : string;
  req_endTime : string
}.

(** An entry of the sessions file of a class. *)
Record attendance_session : Type := mk_attendance_session {
  as_id : string;
  as_class_id : string;
  as_date : string;
  as_sessionName : string;
  as_startTime : string;
  as_endTime : string;
  as_created_at : string;
  as_updated_at : string;
  as_attendance : marks
}.

(** [all_sessions] is the content of the sessions file, the empty list
    when there is no file; [millis] is
    [int(datetime.utcnow().timestamp() * 1000)].  Returns the file as it
    is left with the new session. *)
Definition create_attendance_session (cd : option class_data)
    (all_enrollments : list enrollment)
    (all_sessions : list attendance_session) (user_id class_id : string)
    (session_data : session_request) (now : string) (millis : Z)
  : result (list attendance_session * attendance_session) :=
  match get_class cd all_enrollments now with
  | None => Raise ("Class " ++ class_id ++ " not found for user " ++ user_id)
  | Some _ =>
      let session_id := session_key millis in
      let new_session :=
        mk_attendance_session session_id class_id (req_date session_data)
          (req_sessionName session_data) (req_startTime session_data)
          (req_endTime session_data) now now [] in
      Return ((all_sessions ++ [new_session])%list, new_session)
  end.

(** [date] is the optional filter; an empty string filters nothing. *)
Definition get_class_sessions (all_sessions : list attendance_session)
    (date : option string) : list attendance_session :=
  match date with
  | Some d =>
      if negb (d =? "")%string
      then filter (fun s => (as_date s =? d)%string) all_sessions
      else all_sessions
  | None => all_sessions
  end.

Definition get_session_by_id (all_sessions : list attendance_session)
    (session_id : string) : option attendance_session :=
  find (fun s => (as_id s =? session_id)%string)
       (get_class_sessions all_sessions None).

Definition set_marks (s : attendance_session) (m : marks) (now : string)
  : attendance_session :=
  mk_attendance_session (as_id s) (as_class_id s) (as_date s)
    (as_sessionName s) (as_startTime s) (as_endTime s) (as_created_at s)
    now m.

(** Returns the flag of the source with the sessions file as it is
    left. *)
Definition update_session_attendance (all_sessions : list attendance_session)
    (session_id student_id status now : string)
  : bool * list attendance_session :=
  if negb (in_PAL status) then (false, all_sessions)
  else
    let is_session := fun s => (as_id s =? session_id)%string in
    if existsb is_session all_sessions
    then (true,
          update_first is_session
            (fun s => set_marks s (marks_set (as_attendance s) student_id
                                             status) now)
            all_sessions)
    else (false, all_sessions).

(** The loop [for student_id, status in attendance_data.items():
     if status in ['P', 'A', 'L']: session["attendance"][student_id] = status]. *)
Definition bulk_marks (attendance_data : marks) (m : marks) : marks :=
  fold_left (fun m kv => if in_PAL (snd kv)
                         then marks_set m (fst kv) (snd kv)
                         else m)
            attendance_data m.

Definition bulk_update_session_attendance
    (all_sessions : list attendance_session) (session_id : string)
    (attendance_data : marks) (now : string)
  : bool * list attendance_session :=
  let is_session := fun s => (as_id s =? session_id)%string in
  if existsb is_session all_sessions
  then (true,
        update_first is_session
          (fun s => set_marks s (bulk_marks attendance_data (as_attendance s))
                              now)
          all_sessions)
  else (false, all_sessions).

Definition delete_attendance_session (all_sessions : list attendance_session)
    (session_id : string) : bool * list attendance_session :=
  let original_count := List.length all_sessions in
  let updated_sessions :=
    filter (fun s => negb (as_id s =? session_id)%string) all_sessions in
  if (List.length updated_sessions <? original_count)%nat
  then (true, updated_sessions)
  else (false, all_sessions).

(** The dictionary returned by [get_student_day_attendance]. *)
Record day_statistics : Type := mk_day_statistics {
  ds_date : string;
  ds_total_sessions : Z;
  ds_attended : Z;
  ds_present : Z;
  ds_late : Z;
  ds_absent : Z;
  ds_percentage : float
}.

(** The counters [attended, present, absent, late] of the loop. *)
Definition day_step (student_id : string) (acc : Z * Z * Z * Z)
    (session : attendance_session) : Z * Z * Z * Z :=
  let '(attended, present, absent, late) := acc in
  match marks_get (as_attendance session) student_id with
  | Some status =>
      if (status =? "P")%string
      then (attended + 1, present + 1, absent, late)
      else if (status =? "L")%string
      then (attended + 1, present, absent, late + 1)
      else if (status =? "A")%string
      then (attended, present, absent + 1, late)
      else acc
  | None => acc
  end.

(** With no session of the day the percentage is the integer [0], which
    is written here as the float of the same value. *)
Definition get_student_day_attendance
    (all_sessions : list attendance_session) (student_id date : string)
  : day_statistics :=
  let sessions := get_class_sessions all_sessions (Some date) in
  let total_sessions := Z.of_nat (List.length sessions) in
  let '(attended, present, absent, late) :=
    fold_left (day_step student_id) sessions (0, 0, 0, 0) in
  let percentage :=
    if total_sessions >? 0
    then PyFloat.mul (PyFloat.truediv attended total_sessions) f100
    else PyFloat.zero in
  mk_day_statistics date total_sessions attended present late absent
                    (PyFloat.round percentage 1).

(** *** Copying a session into the monthly attendance *)

(** [str(student.get('id'))]. *)
Definition str_of_id (r : record_id) : string :=
  match r with
  | IdInt z => str_of_int z
  | IdStr s => s
  end.

(** ['P'] if either status is, else ['L'] if either is, else ['A']. *)
Definition final_status (old_status : option string) (new_status : string)
  : string :=
  let old_is := fun mark => match old_status with
                            | Some o => (o =? mark)%string
                            | None => false
                            end in
  if old_is "P" || (new_status =? "P")%string then "P"
  else if old_is "L" || (new_status =? "L")%string then "L"
  else "A".

(** The value stored for the date of the session, from the value found
    there ([if current: ... else: attendance[date] = new_status]).  A
    value that is a dictionary is read through its keys [status] and
    [count]; a sessions array has neither.  What the source stores for
    an [Unrecognized] value depends on the value itself -- whether it is
    truthy and, for a dictionary, what it holds under [count] -- which
    [cell] does not record: such a value is outside the embedding, and
    [sync_cell] is [None] for it. *)
Definition sync_cell (current : option cell) (new_status : string)
  : option cell :=
  match current with
  | None | Some Null => Some (Simple new_status)
  | Some (Simple old_status) =>
      if truthy (Simple old_status) then
        Some (Counted (Some (final_status (Some old_status) new_status))
                      (Some 2))
      else Some (Simple new_status)
  | Some (Counted old_status old_count) =>
      let old_count := match old_count with Some n => n | None => 1 end in
      Some (Counted (Some (final_status old_status new_status))
                    (Some (old_count + 1)))
  | Some (Sessions _ _) =>
      Some (Counted (Some (final_status None new_status)) (Some (1 + 1)))
  | Some Unrecognized => None
  end.

(** The record of one student after the copy; [None] when the value
    found under the date is outside the embedding. *)
Definition sync_student (attendance_map : marks) (date : string)
    (s : student) : option student :=
  match marks_get attendance_map (str_of_id (student_record_id s)) with
  | Some new_status =>
      match sync_cell (attendance_get (attendance s) date) new_status with
      | Some c =>
          Some (update_student_attendance s
                  (attendance_set (attendance s) date c))
      | None => None
      end
  | None => Some s
  end.

(** The loop over the roster. *)
Fixpoint sync_students (attendance_map : marks) (date : string)
    (sts : list student) : option (list student) :=
  match sts with
  | [] => Some []
  | s :: rest =>
      match sync_student attendance_map date s,
            sync_students attendance_map date rest with
      | Some s', Some rest' => Some (s' :: rest')
      | _, _ => None
      end
  end.

(** Returns the flag of the source with the class file as it is left;
    [None] when a value the loop reads is outside the embedding. *)
Definition sync_session_to_monthly_attendance
    (all_sessions : list attendance_session) (cd : option class_data)
    (session_id now : string) : option (bool * option class_data) :=
  match find (fun s => (as_id s =? session_id)%string) all_sessions with
  | None => Some (false, cd)
  | Some session =>
      let date := as_date session in
      let attendance_map := as_attendance session in
      match cd with
      | None => Some (false, None)
      | Some class_data =>
          match sync_students attendance_map date (students class_data) with
          | Some sts =>
              let class_data := set_students class_data sts in
              Some (true,
                    Some (set_statistics class_data
                            (calculate_class_statistics class_data now)))
          | None => None
          end
      end
  end.

End DatabaseManager.

(** ** The endpoints: [main.py] *)

Module Main.



(** The value the stop endpoint assigns to [attendance[date]] of a
    student who did not scan; [None] when no branch assigns.  [stamp] is
    [datetime.now(timezone.utc).isoformat()]. *)
Definition absent_cell (session_number : Z) (stamp : string)
    (current_value : option cell) : option cell :=
  if session_number =? 1 then Some (Simple "A")
  else
    match current_value with
    | None =>
        Some (Sessions
                (map (fun i => mk_session (Some (session_key i))
                                          (Some (qr_session_name i))
                                          (Some "A"))
                     (py_range 1 (session_number + 1)))
                stamp)
    | Some (Simple v) =>
        Some (Sessions
                (map (fun i => mk_session (Some (session_key i))
                                          (Some (qr_session_name i))
                                          (Some (if i =? 1 then v else "A")))
                     (py_range 1 (session_number + 1)))
                stamp)
    | Some (Sessions sessions _) =>
        let existing_ids := map session_id sessions in
        Some (Sessions
                (fold_left
                   (fun sessions i =>
                      if key_in (session_key i) existing_ids then sessions
                      else py_insert sessions (Z.to_nat (i - 1))
                             (mk_session (Some (session_key i))
                                         (Some (qr_session_name i))
                                         (Some "A")))
                   (py_range 1 (session_number + 1)) sessions)
                stamp)
    | Some _ => None
    end.

(** The endpoint [POST /qr/stop-session] over the file backend.
    [user] is the id of the user of the token, [session] the entry of
    [db.active_qr_sessions] for the class and date (its [status] is not
    read), [cd] the class file of the user and class.  The endpoint
    stamps with [datetime.now(timezone.utc).isoformat()], a string with
    the offset [+00:00]: [stamp]; the file manager it calls stamps with
    [datetime.utcnow().isoformat()], a string without offset: [now].
    Returns the class file as it is left, with the report; the entry is
    deleted. *)
Definition stop_qr_session (user : option string)
    (session : option qr_session) (all_enrollments : list enrollment)
    (cd : option class_data) (class_id date stamp now : string)
    (teacher_exists : bool) : result (class_data * stop_report) :=
  if (class_id =? "")%string || (date =? "")%string
  then Raise "class_id and date required"
  else
    match user with
    | None => Raise "User not found"
    | Some user_id =>
        match session with
        | None => Raise "No active session found"
        | Some session =>
            if negb (qr_teacher_id session =? user_id)%string
            then Raise "Unauthorized"
            else
              let session_number := session_number session in
              let scanned_students :=
                nodup record_id_eq_dec (scanned_students session) in
              match DatabaseManager.get_class cd all_enrollments now with
              | None => Raise "Class not found"
              | Some class_data =>
                  let not_scanned := fun student =>
                    negb (id_in (student_record_id student)
                                scanned_students) in
                  let marked :=
                    map (fun student =>
                           if not_scanned student
                           then update_student_attendance student
                                  (match absent_cell session_number stamp
                                           (attendance_get (attendance student)
                                                           date) with
                                   | Some c =>
                                       attendance_set (attendance student)
                                                      date c
                                   | None => attendance student
                                   end)
                           else student)
                        (students class_data) in
                  let absent_count :=
                    count_of not_scanned (students class_data) in
                  let class_data :=
                    mk_class_data (c_id class_data) (c_teacher_id class_data)
                      (enrollment_mode class_data) marked
                      (class_thresholds class_data) (statistics class_data)
                      stamp in
                  let class_data :=
                    DatabaseManager.set_statistics class_data
                      (DatabaseManager.calculate_class_statistics class_data
                                                                  now) in
                  Return (DatabaseManager.refresh_statistics teacher_exists
                            all_enrollments class_data now,
                          mk_stop_report
                            (Z.of_nat (List.length scanned_students))
                            absent_count date session_number)
              end
        end
    end.

End Main.

(** ** The document-store backend: [mongodb_manager.py] *)

Module MongoDBManager.

(** *** Starting a QR session *)

Definition is_active (s : qr_session) : bool :=
  (qr_status s =? "active")%string.

(** [docs] are the documents of the [qr_sessions] collection for the
    class and the date.  Returns the collection after the insertion
    with the new session. *)
Definition start_qr_session (docs : list qr_session)
    (class_id teacher_id date : string) (rotation_interval : Z)
    (now code : string) : result (list qr_session * qr_session) :=
  match find is_active docs with
  | Some _ => Raise "An active QR session already exists for this date"
  | None =>
      let session_number :=
        match docs with
        | [] => 1
        | d :: rest =>
            fold_left Z.max (map session_number rest) (session_number d) + 1
        end in
      let session_data :=
        mk_qr_session class_id teacher_id date session_number now
                      rotation_interval code now (Some now) [] "active"
                      None None in
      Return ((docs ++ [session_data])%list, session_data)
  end.

(** *** Reading the active session *)

(** [expired] is the outcome of the test [elapsed >= rotation_interval]
    on the clock. *)
Definition _maybe_rotate_qr_session (session : qr_session) (expired : bool)
    (now new_code : string) : qr_session :=
  if expired
  then mk_qr_session (qr_class_id session) (qr_teacher_id session)
         (qr_date session) (session_number session) (started_at session)
         (qr_rotation_interval session) new_code now (Some now)
         (scanned_students session) (qr_status session)
         (last_scan_at session) (stopped_at session)
  else session.

(** Returns the collection as the rotation leaves it with the session
    found. *)
Definition get_qr_session (docs : list qr_session) (expired : bool)
    (now new_code : string) : list qr_session * option qr_session :=
  match find is_active docs with
  | None => (docs, None)
  | Some session =>
      (update_first is_active
         (fun s => _maybe_rotate_qr_session s expired now new_code) docs,
       Some (_maybe_rotate_qr_session session expired now new_code))
  end.

(** *** The merge of a QR scan *)

(** The value [scan_qr_code] assigns to [attendance[date]]; [None] when
    no branch assigns. *)
Definition scan_cell (n : Z) (now : string) (current_value : option cell)
  : option cell :=
  if n =? 1 then Some (Simple "P")
  else
    match current_value with
    | None =>
        Some (Sessions
                (map (fun i => mk_session (Some (session_key i))
                                          (Some (qr_session_name i))
                                          (Some (if i <? n then "A" else "P")))
                     (py_range 1 (n + 1)))
                now)
    | Some (Simple v) =>
        Some (Sessions
                (map (fun i => mk_session (Some (session_key i))
                                          (Some (qr_session_name i))
                                          (Some (if i =? 1 then v
                                                 else if i <? n then "A"
                                                 else "P")))
                     (py_range 1 (n + 1)))
                now)
    | Some (Sessions sessions _) =>
        let existing_ids := map session_id sessions in
        let sessions := fill_missing existing_ids n "P" sessions in
        Some (Sessions (set_first_status (session_key n) "P" sessions) now)
    | Some _ => None
    end.

Definition scan_attendance (n : Z) (now date : string) (att : attendance_map)
  : attendance_map :=
  match scan_cell n now (attendance_get att date) with
  | Some c => attendance_set att date c
  | None => att
  end.

(** *** Stopping a QR session *)

Definition absent_cell (n : Z) (now : string) (current_value : option cell)
  : option cell :=
  if n =? 1 then Some (Simple "A")
  else
    match current_value with
    | None =>
        Some (Sessions
                (map (fun i => mk_session (Some (session_key i))
                                          (Some (qr_session_name i))
                                          (Some "A"))
                     (py_range 1 (n + 1)))
                now)
    | Some (Simple v) =>
        Some (Sessions
                (map (fun i => mk_session (Some (session_key i))
                                          (Some (qr_session_name i))
                                          (Some (if i =? 1 then v else "A")))
                     (py_range 1 (n + 1)))
                now)
    | Some (Sessions sessions _) =>
        let existing_ids := map session_id sessions in
        Some (Sessions (fill_missing existing_ids n "A" sessions) now)
    | Some _ => None
    end.

Definition absent_attendance (n : Z) (now date : string)
    (att : attendance_map) : attendance_map :=
  match absent_cell n now (attendance_get att date) with
  | Some c => attendance_set att date c
  | None => att
  end.

Definition to_mark (active scanned : list record_id) (s : student) : bool :=
  id_in (student_record_id s) active
  && negb (id_in (student_record_id s) scanned).

Definition stop_session (now : string) (s : qr_session) : qr_session :=
  mk_qr_session (qr_class_id s) (qr_teacher_id s) (qr_date s)
    (session_number s) (started_at s) (qr_rotation_interval s)
    (current_code s) (code_generated_at s) (last_rotation s)
    (scanned_students s) "stopped" (last_scan_at s) (Some now).

(** [docs] are the QR session documents of the class and date,
    [enrollments] the enrollment documents of the class, [cd] the class
    as [get_class_by_id] returns it (roster in roll-number order); the
    class document is written only when its teacher is [teacher_id]. *)
Definition stop_qr_session (docs : list qr_session)
    (enrollments : list enrollment) (cd : option class_data)
    (teacher_id date now : string) (expired : bool) (new_code : string)
  : result (class_data * list qr_session * stop_report) :=
  match get_qr_session docs expired now new_code with
  | (_, None) => Raise "No active session"
  | (docs, Some session) =>
      if negb (qr_status session =? "active")%string
      then Raise "No active session"
      else if negb (qr_teacher_id session =? teacher_id)%string
      then Raise "Unauthorized"
      else
        let qr_session_number := session_number session in
        let scanned_ids := nodup record_id_eq_dec (scanned_students session) in
        let active :=
          map e_student_record_id
              (filter (fun e => (e_status e =? "active")%string) enrollments) in
        match cd with
        | None => Raise "AttributeError"
        | Some cd =>
            let sts :=
              map (fun s =>
                     if to_mark active scanned_ids s
                     then update_student_attendance s
                            (absent_attendance qr_session_number now date
                                               (attendance s))
                     else s)
                  (students cd) in
            let marked_absent :=
              count_of (to_mark active scanned_ids) (students cd) in
            let cd' :=
              if (c_teacher_id cd =? teacher_id)%string
              then mk_class_data (c_id cd) (c_teacher_id cd)
                     (enrollment_mode cd) sts (class_thresholds cd)
                     (statistics cd) now
              else cd in
            Return (cd',
                    update_first is_active (stop_session now) docs,
                    mk_stop_report (Z.of_nat (List.length scanned_ids))
                      marked_absent date qr_session_number)
        end
  end.

(** *** Class statistics *)

(** [v == "P" or (isinstance(v, dict) and
     any(s.get("status") == "P" for s in v.get("sessions", [])))]. *)
Definition day_present (v : cell) : bool :=
  match v with
  | Simple s => (s =? "P")%string
  | Sessions sessions _ => existsb (has_status "P") sessions
  | _ => false
  end.

Record class_acc : Type := mk_class_acc {
  total_attendance_sum : float;
  students_with_attendance : Z;
  total_sessions : Z
}.

Definition class_student_step (acc : class_acc) (st : student) : class_acc :=
  match attendance st with
  | [] => acc
  | att =>
      let present_count := count_of (fun dc => day_present (snd dc)) att in
      let total_days := Z.of_nat (List.length att) in
      if total_days >? 0 then
        mk_class_acc
          (PyFloat.add (total_attendance_sum acc)
                       (PyFloat.mul (PyFloat.truediv present_count total_days)
                                    f100))
          (students_with_attendance acc + 1)
          (Z.max (total_sessions acc) total_days)
      else acc
  end.

Definition calculate_class_statistics (cd : class_data) : class_statistics :=
  match students cd with
  | [] => mk_class_statistics 0 None None None None (Some PyFloat.zero)
                              (Some 0)
  | sts =>
      let acc := fold_left class_student_step sts
                           (mk_class_acc PyFloat.zero 0 0) in
      let average_attendance :=
        if students_with_attendance acc >? 0
        then PyFloat.div (total_attendance_sum acc)
                         (PyFloat.of_int (students_with_attendance acc))
        else PyFloat.zero in
      mk_class_statistics (Z.of_nat (List.length sts)) None None None None
        (Some (PyFloat.round average_attendance 2))
        (Some (total_sessions acc))
  end.

(** *** Student statistics *)

(** The body of the loop over [attendance.items()]; [int(count)] on an
    integer count is the count itself. *)
Definition student_tally_step (t : tally) (dc : string * cell) : tally :=
  match snd dc with
  | Sessions sessions _ =>
      fold_left (fun acc s => tally_add (session_status s) 1 acc) sessions t
  | Counted st c =>
      let count_int := match c with Some n => n | None => 1 end in
      tally_add st count_int t
  | Simple value => tally_add (Some value) 1 t
  | Null | Unrecognized => t
  end.

Definition calculate_student_statistics
    (student_record : student) (th : option thresholds) : student_statistics :=
  let th := match th with Some t => t | None => default_thresholds end in
  match attendance student_record with
  | [] => mk_student_statistics 0 0 0 0 PyFloat.zero "no data"
  | att =>
      let t := fold_left student_tally_step att tally0 in
      let pct :=
        if t_total t >? 0
        then PyFloat.mul (PyFloat.truediv (t_present t + t_late t) (t_total t)) f100
        else PyFloat.zero in
      let st :=
        if PyFloat.ge pct (get_or (excellent th) f95) then "excellent"
        else if PyFloat.ge pct (get_or (good th) f90) then "good"
        else if PyFloat.ge pct (get_or (moderate th) f85) then "moderate"
        else "at risk" in
      mk_student_statistics (t_total t) (t_present t) (t_absent t) (t_late t)
                            (PyFloat.round pct 3) st
  end.

End MongoDBManager.

(** ** The numbering contract (specification section 4.2)

    Written from the specification: the number of a freshly started
    session is one more than the largest count of valid entries any
    student has for the date. *)

Definition spec_valid_count (raw : option cell) : Z :=
  count_of is_valid (spec_decode raw).

Definition spec_next_session_number (cd : class_data) (date : string) : Z :=
  fold_right Z.max 0
    (map (fun st => spec_valid_count (attendance_get (attendance st) date))
         (students cd))
  + 1.

(** A stored value of the data model: a simple mark is P, A or L and a
    count is not negative. *)
Definition cell_in_model (c : cell) : bool :=
  match c with
  | Simple s => in_PAL s
  | Counted _ (Some n) => 0 <=? n
  | _ => true
  end.

Definition day_in_model (date : string) (st : student) : bool :=
  match attendance_get (attendance st) date with
  | Some c => cell_in_model c
  | None => true
  end.

(** ** The class aggregate (specification section 4.4)

    Written from the specification: the percentage of a student with at
    least one entry marked P, A or L, where P and L both count as attended;
    students without such an entry have none. *)

Definition spec_student_percentage (st : student) : option float :=
  let entries := spec_entries (attendance st) in
  let t := count_of is_marked entries in
  if t >? 0
  then Some (PyFloat.mul
               (PyFloat.truediv (count_of (has_status "P") entries
                                 + count_of (has_status "L") entries) t)
               f100)
  else None.

Definition spec_percentages (sts : list student) : list float :=
  flat_map (fun st => match spec_student_percentage st with
                      | Some p => [p]
                      | None => []
                      end) sts.

Definition float_sum (l : list float) (start : float) : float :=
  fold_left PyFloat.add l start.

Definition is_excellent (th : thresholds) (p : float) : bool :=
  PyFloat.ge p (get_or (excellent th) f95).

Definition is_at_risk (th : thresholds) (p : float) : bool :=
  negb (is_excellent th p) && PyFloat.lt p (get_or (atRisk th) f85).

(** ** The merge contract (specification section 4.3) *)

(** The first entry of a sessions array with the given id. *)
Definition find_session (key : string) (sessions : list session)
  : option session :=
  find (fun s => match session_id s with
                 | Some k => (k =? key)%string
                 | None => false
                 end) sessions.

(** Written from the specification: the sessions synthesized for an
    empty or legacy-simple value when session [n] gets [verdict]: ids
    [session_1 .. session_n], session 1 with the legacy mark when there
    is one, the sessions before [n] absent, session [n] with the
    verdict. *)
Definition spec_backfill (legacy : option string) (n : Z) (verdict : string)
  : list session :=
  map (fun i =>
         mk_session (Some (session_key i)) (Some (qr_session_name i))
           (Some (if i =? n then verdict
                  else if i =? 1
                       then match legacy with Some v => v | None => "A" end
                       else "A")))
      (py_range 1 (n + 1)).

(** The value under the date after a merge that assigned [assigned], or
    nothing. *)
Definition value_after (before assigned : option cell) : option cell :=
  match assigned with
  | Some c => Some c
  | None => before
  end.

(** Session [n] is recorded with [verdict] in a stored value. *)
Definition records_session (n : Z) (verdict : string) (v : option cell) : Prop :=
  exists ss u s,
    v = Some (Sessions ss u) /\
    find_session (session_key n) ss = Some s /\
    session_status s = Some verdict.

(** Session [n] is recorded as absent in a stored value: the simple
    mark ['A'], or a sessions array whose entry for session [n] is
    absent. *)
Definition marked_absent_at (n : Z) (v : option cell) : Prop :=
  v = Some (Simple "A") \/ records_session n "A" v.

(** The ids of [1 .. n] that a sessions array lacks. *)
Definition missing_ids (n : Z) (sessions : list session) : list Z :=
  filter (fun i => negb (key_in (session_key i) (map session_id sessions)))
         (py_range 1 (n + 1)).

(** A stored value stamped anew. *)
Definition restamp (now : string) (c : cell) : cell :=
  match c with
  | Sessions ss _ => Sessions ss now
  | _ => c
  end.

(** The shape shared by the four merges: the value found under the date
    is rewritten by [f], which may assign nothing. *)
Definition merge_at (f : string -> option cell -> option cell)
    (now date : string) (att : attendance_map) : attendance_map :=
  match f now (attendance_get att date) with
  | Some c => attendance_set att date c
  | None => att
  end.

(** ** Sample data *)

(** A class in enrollment mode whose only student has two recorded
    sessions on 2024-03-04, entered by the teacher. *)
Definition two_session_class : class_data :=
  mk_class_data "c1" "t1" (Some "enrollment_via_id")
    [mk_student (IdInt 42) "7" "Asha" "asha@example.org"
       [("2024-03-04",
         Sessions [mk_session (Some "session_1") (Some "Session 1") (Some "P");
                   mk_session (Some "session_2") (Some "Session 2") (Some "A")]
                  "2024-03-04T09:00:00")]]
    None None "2024-03-04T09:00:00".

(** A class in enrollment mode with nothing recorded, and a QR session
    of 2024-03-04 that was stopped with nobody to mark. *)
Definition blank_class : class_data :=
  mk_class_data "c1" "t1" (Some "enrollment_via_id")
    [mk_student (IdInt 42) "7" "Asha" "asha@example.org" []]
    None None "2024-03-01T00:00:00".

Definition stopped_session : qr_session :=
  mk_qr_session "c1" "t1" "2024-03-04" 1 "2024-03-04T08:00:00" 5 "AB12CD34"
    "2024-03-04T08:00:00" (Some "2024-03-04T08:00:00") [] "stopped" None
    (Some "2024-03-04T08:05:00").

(** A class whose roster is typed in by the teacher. *)
Definition manual_class : class_data :=
  mk_class_data "c2" "t1" (Some "manual_entry")
    [mk_student (IdInt 1) "1" "Chen" "chen@example.org" []]
    None None "2024-03-01T00:00:00".

(** A class whose only student was late on the one day recorded. *)
Definition late_class : class_data :=
  mk_class_data "c3" "t1" (Some "enrollment_via_id")
    [mk_student (IdInt 42) "7" "Asha" "asha@example.org"
       [("2024-03-01", Simple "L")]]
    None None "2024-03-01T00:00:00".

(** A day with an absence and a late mark, entered by the teacher. *)
Definition two_marks : cell :=
  Sessions [mk_session (Some "session_1") (Some "Session 1") (Some "A");
            mk_session (Some "session_2") (Some "Session 2") (Some "L")]
           "2024-03-04T09:00:00".


(** A student whose only date holds a session slot without a verdict,
    in a class whose moderate cutoff is 0. *)
Definition unrecorded_student : student :=
  mk_student (IdInt 43) "8" "Bram" "bram@example.org"
    [("2024-03-04",
      Sessions [mk_session (Some "session_1") (Some "Session 1") None]
               "2024-03-04T10:00:00")].

Definition lenient_thresholds : thresholds :=
  mk_thresholds (Some f90) (Some (PyFloat.of_int 75)) (Some PyFloat.zero)
                (Some PyFloat.zero).

(** The scenario of the specification: two enrolled students, a first
    QR session on 2024-03-04 in which the first of them has scanned.  The
    cached statistics are those computed before the day. *)
Definition qr_class : class_data :=
  mk_class_data "c1" "t1" (Some "enrollment_via_id")
    [mk_student (IdInt 1) "1" "Xena" "xena@example.org"
       [("2024-03-04", Simple "P")];
     mk_student (IdInt 2) "2" "Yuri" "yuri@example.org" []]
    None
    (Some (mk_class_statistics 2 (Some PyFloat.zero) (Some 0) (Some 0)
                               (Some "2024-03-01T00:00:00") None None))
    "2024-03-01T00:00:00".

Definition qr_enrollments : list enrollment :=
  [mk_enrollment "u-xena" (IdInt 1) "c1" "1" "active" "2024-02-01T00:00:00"
                 None None;
   mk_enrollment "u-yuri" (IdInt 2) "c1" "2" "active" "2024-02-01T00:00:00"
                 None None].

Definition running_session : qr_session :=
  mk_qr_session "c1" "t1" "2024-03-04" 1 "2024-03-04T10:00:00" 5 "Q7XK2M9A"
    "2024-03-04T10:00:00" (Some "2024-03-04T10:00:00") [IdInt 1] "active"
    (Some "2024-03-04T10:01:00") None.

(** The re-enrollment scenario of the specification: a student
    enrolled with record 42 and five days marked present, next to an
    other enrolled student. *)
Definition history_class : class_data :=
  mk_class_data "c1" "t1" (Some "enrollment_via_id")
    [mk_student (IdInt 41) "3" "Noor" "noor@example.org"
       [("2024-03-01", Simple "A")];
     mk_student (IdInt 42) "7" "Asha" "asha@example.org"
       [("2024-03-01", Simple "P"); ("2024-03-02", Simple "P");
        ("2024-03-03", Simple "P"); ("2024-03-04", Simple "P");
        ("2024-03-05", Simple "P")]]
    None None "2024-03-05T00:00:00".

Definition asha_enrollment : enrollment :=
  mk_enrollment "u-asha" (IdInt 42) "c1" "7" "active" "2024-02-01T00:00:00"
                None None.

Definition history_enrollments : list enrollment :=
  [mk_enrollment "u-noor" (IdInt 41) "c1" "3" "active" "2024-02-01T00:00:00"
                 None None;
   asha_enrollment].

(** A third QR session of the day, nobody has scanned yet, and a class
    whose only student has two sessions of the day stored in the
    legacy-counted shape. *)
Definition third_session : qr_session :=
  mk_qr_session "c1" "t1" "2024-03-04" 3 "2024-03-04T14:00:00" 5 "Q7XK2M9A"
    "2024-03-04T14:00:00" (Some "2024-03-04T14:00:00") [] "active" None None.

Definition counted_class : class_data :=
  mk_class_data "c1" "t1" (Some "enrollment_via_id")
    [mk_student (IdInt 2) "2" "Yuri" "yuri@example.org"
       [("2024-03-04", Counted (Some "P") (Some 2))]]
    None None "2024-03-04T12:00:00".

Definition counted_enrollments : list enrollment :=
  [mk_enrollment "u-yuri" (IdInt 2) "c1" "2" "active" "2024-02-01T00:00:00"
                 None None].

(** The class of the scenario as the class document of another teacher,
    [t2]: the session of the scenario was started on it by [t1]. *)
Definition colleague_class : class_data :=
  mk_class_data "c1" "t2" (Some "enrollment_via_id")
    [mk_student (IdInt 1) "1" "Xena" "xena@example.org"
       [("2024-03-04", Simple "P")];
     mk_student (IdInt 2) "2" "Yuri" "yuri@example.org" []]
    None None "2024-03-01T00:00:00".

(** ** Notions used in the statements about the other operations *)

(** The student record with the given id. *)
Definition has_id (rid : record_id) (s : student) : bool :=
  record_id_eqb (student_record_id s) rid.

(** The active enrollment of a student. *)
Definition is_active_of (student_id : string) (e : enrollment) : bool :=
  (e_student_id e =? student_id)%string && (e_status e =? "active")%string.

(** The invariant of the enrollment file of a class and its roster: a
    student has one enrollment, and the record of every enrollment is on
    the roster. *)
Definition enrollment_invariant (enrollments : list enrollment)
    (cd : class_data) : Prop :=
  NoDup (map e_student_id enrollments) /\
  forall e, In e enrollments ->
    id_in (e_student_record_id e) (map student_record_id (students cd)) = true.

(** A value the merges of a QR session rewrite, every session entry of
    which has a status. *)
Definition mergeable (v : option cell) : bool :=
  match v with
  | None => true
  | Some (Simple _) => true
  | Some (Sessions sessions _) => forallb is_valid sessions
  | Some _ => false
  end.


(** What each student contributes to the count of the valid sessions of
    a date. *)
Definition day_counts (date : string) (sts : list student) : list Z :=
  map (fun st => DatabaseManager.day_session_count
                   (attendance_get (attendance st) date)) sts.

(** The attendance sessions in which the student has the given mark. *)
Definition marked_with (student_id mark : string)
    (s : DatabaseManager.attendance_session) : bool :=
  match DatabaseManager.marks_get (DatabaseManager.as_attendance s)
          student_id with
  | Some v => (v =? mark)%string
  | None => false
  end.

(** The four counters agree: the total is the sum of the three marks. *)
Definition tally_adds_up (t : tally) : Prop :=
  t_total t = t_present t + t_absent t + t_late t.

(** The best mark of a list: present before late before absent. *)
Definition best_status (marks : list string) : string :=
  if existsb (String.eqb "P") marks then "P"
  else if existsb (String.eqb "L") marks then "L"
  else "A".

(** The value of a day after the marks of several attendance sessions
    were copied into it, one session after the other; [None] when a
    value outside the embedding is met. *)
Fixpoint sync_all (marks : list string) (start : option cell)
  : option cell :=
  match marks with
  | [] => start
  | new_status :: rest =>
      match DatabaseManager.sync_cell start new_status with
      | Some c => sync_all rest (Some c)
      | None => None
      end
  end.

(** The values a copy of the session reads are of the stored shapes: no
    student with a mark in the session holds, under the date of the
    session, a value that is neither a mark, a counted value nor a
    sessions array. *)
Definition stored_shapes_at (session : DatabaseManager.attendance_session)
    (sts : list student) : bool :=
  forallb
    (fun s =>
       match DatabaseManager.marks_get
               (DatabaseManager.as_attendance session)
               (DatabaseManager.str_of_id (student_record_id s)),
             attendance_get (attendance s) (DatabaseManager.as_date session)
       with
       | Some _, Some Unrecognized => false
       | _, _ => true
       end)
    sts.

(** ** Sample data of the other operations *)

(** Two attendance sessions of 2024-03-04 and one of the day after, for
    the class of the re-enrollment scenario. *)
Definition morning_session : DatabaseManager.attendance_session :=
  DatabaseManager.mk_attendance_session "session_1709542800000" "c1"
    "2024-03-04" "Morning" "09:00" "10:00" "2024-03-04T09:00:00"
    "2024-03-04T09:30:00" [("42", "P"); ("41", "A")].

Definition afternoon_session : DatabaseManager.attendance_session :=
  DatabaseManager.mk_attendance_session "session_1709560800000" "c1"
    "2024-03-04" "Afternoon" "14:00" "15:00" "2024-03-04T14:00:00"
    "2024-03-04T14:30:00" [("42", "L")].

Definition next_day_session : DatabaseManager.attendance_session :=
  DatabaseManager.mk_attendance_session "session_1709629200000" "c1"
    "2024-03-05" "Morning" "09:00" "10:00" "2024-03-05T09:00:00"
    "2024-03-05T09:30:00" [("42", "P")].

Definition sample_sessions : list DatabaseManager.attendance_session :=
  [morning_session; afternoon_session; next_day_session].

Definition lab_request : DatabaseManager.session_request :=
  DatabaseManager.mk_session_request "2024-03-06" "Lab" "11:00" "12:00".


(** The sessions a teacher enters for a day: present, then a slot left
    without a verdict. *)
Definition entered_sessions : list session :=
  [mk_session (Some "session_1") (Some "Session 1") (Some "P");
   mk_session (Some "session_2") (Some "Session 2") None].

(** The enrollments of the re-enrollment scenario after the second
    student has left. *)
Definition left_enrollments : list enrollment :=
  [mk_enrollment "u-noor" (IdInt 41) "c1" "3" "active" "2024-02-01T00:00:00"
                 None None;
   mk_enrollment "u-asha" (IdInt 42) "c1" "7" "inactive"
                 "2024-02-01T00:00:00" None (Some "2024-03-06T09:00:00")].

(** What the teacher saves after removing the second student from the
    roster shown. *)
Definition roster_without_asha : DatabaseManager.class_update :=
  DatabaseManager.mk_class_update None None None
    (Some [mk_student (IdInt 41) "3" "Noor" "noor@example.org"
             [("2024-03-01", Simple "A")]])
    None.

(** * Properties *)

(** ** Counting lemmas *)

Lemma count_of_app {A : Type} (p : A -> bool) (l1 l2 : list A) :
  count_of p (l1 ++ l2) = count_of p l1 + count_of p l2.
Proof.
  unfold count_of. rewrite filter_app, length_app. lia.
Qed.

Lemma count_of_cons {A : Type} (p : A -> bool) (x : A) (l : list A) :
  count_of p (x :: l) = (if p x then 1 else 0) + count_of p l.
Proof.
  unfold count_of. simpl. destruct (p x); cbn [List.length]; lia.
Qed.

Lemma count_of_nonneg {A : Type} (p : A -> bool) (l : list A) :
  0 <= count_of p l.
Proof. unfold count_of. lia. Qed.

Lemma py_range_length (lo hi : Z) :
  List.length (py_range lo hi) = Z.to_nat (hi - lo).
Proof. unfold py_range. now rewrite length_map, length_seq. Qed.

Lemma count_of_const {A B : Type} (p : B -> bool) (f : A -> B) (l : list A) (b : bool) :
  (forall x, p (f x) = b) ->
  count_of p (map f l) = if b then Z.of_nat (List.length l) else 0.
Proof.
  intros H. induction l as [|x l IH].
  - destruct b; reflexivity.
  - simpl map. rewrite count_of_cons, IH, H. destruct b; cbn [List.length]; lia.
Qed.



(** What one [tally_add] does, in terms of the marks. *)
Lemma tally_add_spec (st : option string) (n : Z) (t : tally) :
  let s := mk_session None None st in
  tally_add st n t =
  mk_tally (t_present t + (if has_status "P" s then n else 0))
           (t_absent t + (if has_status "A" s then n else 0))
           (t_late t + (if has_status "L" s then n else 0))
           (t_total t + (if is_marked s then n else 0)).
Proof.
  unfold tally_add, has_status, is_marked, in_PAL; simpl.
  destruct t as [p a l tt]; simpl.
  destruct st as [x|]; [|f_equal; lia].
  destruct (String.eqb_spec x "P") as [->|]; [simpl; f_equal; lia|].
  destruct (String.eqb_spec x "A") as [->|]; [simpl; f_equal; lia|].
  destruct (String.eqb_spec x "L") as [->|]; simpl; f_equal; lia.
Qed.

Lemma tally_sessions (ss : list session) (t : tally) :
  fold_left (fun acc s => tally_add (session_status s) 1 acc) ss t =
  mk_tally (t_present t + count_of (has_status "P") ss)
           (t_absent t + count_of (has_status "A") ss)
           (t_late t + count_of (has_status "L") ss)
           (t_total t + count_of is_marked ss).
Proof.
  revert t. induction ss as [|s ss IH]; intros t.
  - destruct t; simpl. unfold count_of; simpl. f_equal; lia.
  - simpl fold_left. rewrite IH, tally_add_spec. rewrite !count_of_cons.
    unfold has_status, is_marked; simpl.
    destruct (session_status s) as [x|]; simpl;
      repeat match goal with
             | |- context [if ?b then _ else _] => destruct b
             end; f_equal; lia.
Qed.

(** One date of the aggregation loop adds the marks of its decoded
    entries. *)
Lemma student_tally_step_spec (dc : string * cell) (t : tally) :
  cell_wf (snd dc) = true ->
  let es := spec_decode (Some (snd dc)) in
  DatabaseManager.student_tally_step t dc =
  mk_tally (t_present t + count_of (has_status "P") es)
           (t_absent t + count_of (has_status "A") es)
           (t_late t + count_of (has_status "L") es)
           (t_total t + count_of is_marked es).
Proof.
  destruct dc as [d c]; simpl snd. intros Hwf.
  unfold DatabaseManager.student_tally_step; simpl snd.
  destruct c as [|v|st c|ss u|]; simpl spec_decode.
  - destruct t; unfold count_of; simpl; f_equal; lia.
  - rewrite tally_add_spec. unfold has_status, is_marked; simpl.
    destruct (in_PAL v) eqn:E.
    + rewrite !count_of_cons. unfold has_status, is_marked, count_of; simpl.
      rewrite E.
      repeat match goal with
             | |- context [if ?b then _ else _] => destruct b
             end; f_equal; lia.
    + unfold in_PAL in E.
      destruct (v =? "P")%string, (v =? "A")%string, (v =? "L")%string;
        try discriminate. unfold count_of; simpl. f_equal; lia.
  - rewrite tally_add_spec.
    set (n := match c with Some n => n | None => 1 end).
    assert (Hn : 0 <= n).
    { subst n. destruct c as [k|]; simpl in Hwf; lia. }
    assert (Hlen : Z.of_nat (List.length (py_range 1 (n + 1))) = n).
    { rewrite py_range_length. lia. }
    rewrite (count_of_const (has_status "P") _ _ (has_status "P" (mk_session None None st))) by reflexivity.
    rewrite (count_of_const (has_status "A") _ _ (has_status "A" (mk_session None None st))) by reflexivity.
    rewrite (count_of_const (has_status "L") _ _ (has_status "L" (mk_session None None st))) by reflexivity.
    rewrite (count_of_const is_marked _ _ (is_marked (mk_session None None st))) by reflexivity.
    rewrite Hlen. reflexivity.
  - apply tally_sessions.
  - destruct t; unfold count_of; simpl; f_equal; lia.
Qed.

Lemma student_tally_spec (att : attendance_map) (t : tally) :
  attendance_wf att = true ->
  let es := spec_entries att in
  fold_left DatabaseManager.student_tally_step att t =
  mk_tally (t_present t + count_of (has_status "P") es)
           (t_absent t + count_of (has_status "A") es)
           (t_late t + count_of (has_status "L") es)
           (t_total t + count_of is_marked es).
Proof.
  revert t. induction att as [|dc att IH]; intros t Hwf.
  - destruct t; unfold count_of; simpl; f_equal; lia.
  - simpl in Hwf. apply andb_prop in Hwf. destruct Hwf as [Hc Hrest].
    simpl fold_left. rewrite (IH _ Hrest).
    rewrite (student_tally_step_spec dc t Hc). simpl.
    unfold spec_entries. simpl flat_map. rewrite !count_of_app.
    f_equal; lia.
Qed.

Lemma mongo_tally_step_eq (t : tally) (dc : string * cell) :
  MongoDBManager.student_tally_step t dc = DatabaseManager.student_tally_step t dc.
Proof. destruct dc as [d []]; reflexivity. Qed.

Lemma mongo_tally_eq (att : attendance_map) (t : tally) :
  fold_left MongoDBManager.student_tally_step att t =
  fold_left DatabaseManager.student_tally_step att t.
Proof.
  revert t. induction att as [|dc att IH]; intros t; simpl;
    [reflexivity | now rewrite mongo_tally_step_eq, IH].
Qed.

(** The two backends compute the same student statistics. *)
Lemma mongo_student_statistics_eq (rec : student) (th : option thresholds) :
  MongoDBManager.calculate_student_statistics rec th =
  DatabaseManager.calculate_student_statistics rec th.
Proof.
  unfold MongoDBManager.calculate_student_statistics,
    DatabaseManager.calculate_student_statistics.
  destruct (attendance rec) as [|dc att]; [reflexivity|].
  now rewrite mongo_tally_eq.
Qed.

(** ** Student statistics *)

(** A cutoff above zero is not met by a percentage of zero. *)
Lemma zero_below_positive (x : float) :
  PyFloat.lt PyFloat.zero x = true -> PyFloat.ge PyFloat.zero x = false.
Proof.
  unfold PyFloat.lt, PyFloat.ge, PyFloat.zero, SFltb, SFleb.
  destruct x as [[]|[]| |[] m e]; simpl; congruence.
Qed.

Lemma bucket_names (th : thresholds) (pct : float) :
  spec_bucket th pct <> "no data".
Proof.
  unfold spec_bucket.
  repeat match goal with
         | |- context [if ?b then _ else _] => destruct b
         end; discriminate.
Qed.



(** C10, as stated, fails: with a cutoff of 0 the student below is
    "moderate", not "at risk". *)
Lemma no_valid_entry_not_always_at_risk :
  ~ (forall (rec : student) (th : option thresholds),
       attendance rec <> [] ->
       count_of is_marked (spec_entries (attendance rec)) = 0 ->
       let stats := DatabaseManager.calculate_student_statistics rec th in
       percentage stats = PyFloat.zero /\ status stats = "at risk").
Proof.
  intros H.
  destruct (H unrecorded_student (Some lenient_thresholds)) as [_ Hs];
    [discriminate | reflexivity | ].
  vm_compute in Hs. discriminate.
Qed.

(** C10, amended. A student whose attendance mapping is not empty but
    holds no entry marked P, A or L gets, in both backends, total 0 and
    percentage 0.0 with the status of the bucket 0.0 falls in under the
    class cutoffs, never "no data": that is "at risk" whenever the
    excellent, good and moderate cutoffs are all above 0, as the
    defaults are. *)
Theorem no_valid_entry_statistics (rec : student) (th : option thresholds) :
  attendance rec <> [] ->
  attendance_wf (attendance rec) = true ->
  count_of is_marked (spec_entries (attendance rec)) = 0 ->
  let cutoffs := match th with Some t => t | None => default_thresholds end in
  let stats := DatabaseManager.calculate_student_statistics rec th in
  MongoDBManager.calculate_student_statistics rec th = stats /\
  total_classes stats = 0 /\
  percentage stats = PyFloat.zero /\
  status stats = spec_bucket cutoffs PyFloat.zero /\
  status stats <> "no data" /\
  (PyFloat.lt PyFloat.zero (get_or (excellent cutoffs) f95) = true ->
   PyFloat.lt PyFloat.zero (get_or (good cutoffs) f90) = true ->
   PyFloat.lt PyFloat.zero (get_or (moderate cutoffs) f85) = true ->
   status stats = "at risk").
Proof.
  intros Hne Hwf Hzero; cbv zeta.
  split; [apply mongo_student_statistics_eq|].
  unfold DatabaseManager.calculate_student_statistics.
  destruct (attendance rec) as [|dc att] eqn:E; [congruence|].
  rewrite (student_tally_spec (dc :: att) tally0 Hwf).
  cbn [t_present t_absent t_late t_total tally0 total_classes percentage status].
  rewrite !Z.add_0_l, Hzero. cbn [Z.gtb Z.compare PyFloat.round PyFloat.zero].
  fold PyFloat.zero.
  repeat split.
  - apply (bucket_names _ PyFloat.zero).
  - intros He Hg Hm. unfold spec_bucket.
    now rewrite (zero_below_positive _ He), (zero_below_positive _ Hg),
      (zero_below_positive _ Hm).
Qed.

Lemma no_valid_entry_statistics_witness :
  attendance unrecorded_student <> [] /\
  attendance_wf (attendance unrecorded_student) = true /\
  count_of is_marked (spec_entries (attendance unrecorded_student)) = 0 /\
  status (DatabaseManager.calculate_student_statistics unrecorded_student None)
  = "at risk".
Proof.
  split; [discriminate|]. split; [reflexivity|]. split; [reflexivity|].
  apply (no_valid_entry_statistics unrecorded_student None);
    try reflexivity; discriminate.
Defined.

(** ** Session numbering *)

Lemma fold_max_left_right {A : Type} (f : A -> Z) (l : list A) (a : Z) :
  0 <= a ->
  fold_left (fun m x => Z.max m (f x)) l a =
  Z.max a (fold_right Z.max 0 (map f l)).
Proof.
  revert a. induction l as [|x l IH]; intros a Ha; simpl.
  - lia.
  - rewrite IH by lia. lia.
Qed.

Lemma in_PAL_nonempty (s : string) : in_PAL s = true -> (s =? "")%string = false.
Proof. destruct s; [discriminate | reflexivity]. Qed.

(** On a value of the data model the file backend counts the valid
    entries of the decoded value. *)
Lemma day_session_count_spec (raw : option cell) :
  match raw with Some c => cell_in_model c = true | None => True end ->
  DatabaseManager.day_session_count raw = spec_valid_count raw.
Proof.
  unfold DatabaseManager.day_session_count, spec_valid_count.
  destruct raw as [[|s|st c|ss u|]|]; simpl; intros H; try reflexivity.
  - rewrite (in_PAL_nonempty s H), H. reflexivity.
  - set (n := match c with Some n => n | None => 1 end).
    assert (Hn : 0 <= n) by (subst n; destruct c; lia).
    destruct st as [x|].
    + rewrite (count_of_const is_valid _ _ true) by reflexivity.
      rewrite py_range_length. lia.
    + now rewrite (count_of_const is_valid _ _ false) by reflexivity.
Qed.

Lemma db_count_valid_spec (cd : class_data) (date : string) :
  forallb (day_in_model date) (students cd) = true ->
  DatabaseManager._count_valid_sessions_for_date cd date + 1 =
  spec_next_session_number cd date.
Proof.
  unfold DatabaseManager._count_valid_sessions_for_date,
    spec_next_session_number.
  intros Hwf. f_equal.
  assert (E : fold_left
                (fun m st => Z.max m (DatabaseManager.day_session_count
                                        (attendance_get (attendance st) date)))
                (students cd) 0 =
              fold_right Z.max 0
                (map (fun st => spec_valid_count
                                  (attendance_get (attendance st) date))
                     (students cd))).
  { rewrite (fold_max_left_right
               (fun st => DatabaseManager.day_session_count
                            (attendance_get (attendance st) date))) by lia.
    induction (students cd) as [|st sts IH]; [reflexivity|].
    simpl in Hwf. apply andb_prop in Hwf. destruct Hwf as [Hst Hsts].
    specialize (IH Hsts). simpl.
    rewrite day_session_count_spec.
    - lia.
    - unfold day_in_model in Hst.
      destruct (attendance_get (attendance st) date); [exact Hst | exact I]. }
  destruct (students cd); [reflexivity | exact E].
Qed.

(** The file backend numbers a freshly started session from the stored
    attendance alone. *)
Lemma db_start_session_number (cd : class_data)
    (existing : option qr_session) (class_id teacher_id date : string)
    (rotation_interval : Z) (now code : string) (s : qr_session) :
  forallb (day_in_model date) (students cd) = true ->
  DatabaseManager.start_qr_session (Some cd) existing class_id teacher_id date
    rotation_interval now code = Return s ->
  session_number s = spec_next_session_number cd date.
Proof.
  intros Hwf. unfold DatabaseManager.start_qr_session.
  destruct (negb (c_teacher_id cd =? teacher_id)%string); [discriminate|].
  destruct (negb _); [discriminate|].
  destruct (match existing with Some _ => _ | None => _ end); [discriminate|].
  intros [= <-]. simpl. now apply db_count_valid_spec.
Qed.

Lemma db_start_returns (cd : class_data) (existing : option qr_session)
    (class_id teacher_id date : string) (rotation_interval : Z)
    (now code : string) :
  c_teacher_id cd = teacher_id ->
  enrollment_mode cd = Some "enrollment_via_id" ->
  match existing with Some e => qr_status e <> "active" | None => True end ->
  exists s,
    DatabaseManager.start_qr_session (Some cd) existing class_id teacher_id date
      rotation_interval now code = Return s.
Proof.
  intros Ht Hm He. unfold DatabaseManager.start_qr_session.
  rewrite Ht, String.eqb_refl, Hm. simpl.
  destruct existing as [e|].
  - destruct (String.eqb_spec (qr_status e) "active"); [contradiction|].
    eexists; reflexivity.
  - eexists; reflexivity.
Qed.

(** C1. The file backend numbers the session 3 after two recorded
    sessions, as the numbering contract asks; the document-store backend
    numbers it from the QR session documents instead: 1 when there is
    none, whatever the attendance holds, and 2 after a stopped session
    that recorded nothing. *)
Theorem mongo_start_numbers_from_qr_documents :
  spec_next_session_number two_session_class "2024-03-04" = 3 /\
  (exists s,
     DatabaseManager.start_qr_session (Some two_session_class) None
       "c1" "t1" "2024-03-04" 5 "2024-03-04T10:00:00" "Q7XK2M9A" = Return s
     /\ session_number s = 3) /\
  (exists docs s,
     MongoDBManager.start_qr_session [] "c1" "t1" "2024-03-04" 5
       "2024-03-04T10:00:00" "Q7XK2M9A" = Return (docs, s)
     /\ session_number s = 1) /\
  spec_next_session_number blank_class "2024-03-04" = 1 /\
  (exists docs s,
     MongoDBManager.start_qr_session [stopped_session] "c1" "t1" "2024-03-04"
       5 "2024-03-04T10:00:00" "Q7XK2M9A" = Return (docs, s)
     /\ session_number s = 2).
Proof.
  split; [reflexivity|].
  split; [eexists; split; reflexivity|].
  split; [do 2 eexists; split; reflexivity|].
  split; [reflexivity|].
  do 2 eexists; split; reflexivity.
Qed.

(** ** Starting a QR session *)

(** The file backend rejects a start while a session is active and a
    start on a class that is not in enrollment mode. *)
Lemma db_start_rejects (cd : option class_data) (existing : option qr_session)
    (class_id teacher_id date : string) (rotation_interval : Z)
    (now code : string) :
  (exists e, existing = Some e /\ qr_status e = "active") \/
  (exists c, cd = Some c /\ enrollment_mode c <> Some "enrollment_via_id") ->
  exists msg,
    DatabaseManager.start_qr_session cd existing class_id teacher_id date
      rotation_interval now code = Raise msg.
Proof.
  intros H. unfold DatabaseManager.start_qr_session.
  destruct cd as [c|]; [|eexists; reflexivity].
  destruct (negb (c_teacher_id c =? teacher_id)%string);
    [eexists; reflexivity|].
  destruct (negb _) eqn:Emode; [eexists; reflexivity|].
  destruct H as [(e & -> & Ha) | (c' & [= <-] & Hm)].
  - rewrite Ha. simpl. eexists; reflexivity.
  - exfalso. apply Hm. apply negb_false_iff in Emode.
    destruct (enrollment_mode c) as [m|]; [|discriminate].
    apply String.eqb_eq in Emode. now subst.
Qed.

(** The document-store backend rejects a start while a session is
    active. *)
Lemma mongo_start_rejects_active (docs : list qr_session) (e : qr_session)
    (class_id teacher_id date : string) (rotation_interval : Z)
    (now code : string) :
  In e docs -> qr_status e = "active" ->
  MongoDBManager.start_qr_session docs class_id teacher_id date
    rotation_interval now code
  = Raise "An active QR session already exists for this date".
Proof.
  intros Hin Ha. unfold MongoDBManager.start_qr_session.
  destruct (find MongoDBManager.is_active docs) eqn:E; [reflexivity|].
  exfalso. pose proof (find_none _ _ E e Hin) as H.
  unfold MongoDBManager.is_active in H. rewrite Ha in H. discriminate.
Qed.

(** C8. On a class whose roster is typed in by the teacher the file
    backend rejects the start of a QR session; the document-store
    backend, which never reads the class, starts an active session. *)
Theorem mongo_start_skips_enrollment_mode :
  DatabaseManager.start_qr_session (Some manual_class) None "c2" "t1"
    "2024-03-04" 5 "2024-03-04T10:00:00" "Q7XK2M9A"
  = Raise "QR attendance is only available for classes with student enrollment via Class ID" /\
  exists docs s,
    MongoDBManager.start_qr_session [] "c2" "t1" "2024-03-04" 5
      "2024-03-04T10:00:00" "Q7XK2M9A" = Return (docs, s)
    /\ qr_status s = "active" /\ docs = [s].
Proof.
  split; [reflexivity|]. do 2 eexists. repeat split.
Qed.

(** ** Class statistics *)

Lemma class_tally_eq (att : attendance_map) (t : tally) :
  fold_left DatabaseManager.class_tally_step att t =
  fold_left DatabaseManager.student_tally_step att t.
Proof.
  revert t. induction att as [|[d c] att IH]; intros t; [reflexivity|].
  simpl fold_left. rewrite IH. destruct c; reflexivity.
Qed.

(** One student of the loop of the file backend: skipped without a
    marked entry, otherwise the percentage is added and classified. *)
Lemma class_student_step_spec (th : thresholds) (acc : DatabaseManager.class_acc)
    (st : student) :
  attendance_wf (attendance st) = true ->
  DatabaseManager.class_student_step th acc st =
  match spec_student_percentage st with
  | None => acc
  | Some p =>
      DatabaseManager.mk_class_acc
        (DatabaseManager.at_risk acc + (if is_at_risk th p then 1 else 0))
        (DatabaseManager.excellent_count acc
         + (if is_excellent th p then 1 else 0))
        (PyFloat.add (DatabaseManager.total_attendance acc) p)
        (DatabaseManager.students_with_attendance acc + 1)
  end.
Proof.
  intros Hwf.
  unfold DatabaseManager.class_student_step, spec_student_percentage.
  destruct (attendance st) as [|dc att] eqn:E.
  - reflexivity.
  - rewrite class_tally_eq, (student_tally_spec (dc :: att) tally0 Hwf).
    cbn [t_present t_absent t_late t_total tally0]. rewrite !Z.add_0_l.
    destruct (count_of is_marked (spec_entries (dc :: att)) >? 0);
      [|reflexivity].
    unfold is_at_risk, is_excellent.
    destruct (PyFloat.ge _ (get_or (excellent th) f95)); simpl.
    + f_equal; lia.
    + destruct (PyFloat.lt _ (get_or (atRisk th) f85)); f_equal; lia.
Qed.

Lemma class_fold_spec (th : thresholds) (sts : list student)
    (acc : DatabaseManager.class_acc) :
  forallb (fun st => attendance_wf (attendance st)) sts = true ->
  let pcts := spec_percentages sts in
  fold_left (DatabaseManager.class_student_step th) sts acc =
  DatabaseManager.mk_class_acc
    (DatabaseManager.at_risk acc + count_of (is_at_risk th) pcts)
    (DatabaseManager.excellent_count acc + count_of (is_excellent th) pcts)
    (float_sum pcts (DatabaseManager.total_attendance acc))
    (DatabaseManager.students_with_attendance acc
     + Z.of_nat (List.length pcts)).
Proof.
  revert acc. induction sts as [|st sts IH]; intros acc Hwf.
  - destruct acc; unfold count_of; simpl. f_equal; lia.
  - simpl in Hwf. apply andb_prop in Hwf. destruct Hwf as [Hst Hsts].
    simpl fold_left. rewrite (IH _ Hsts), (class_student_step_spec th acc st Hst).
    unfold spec_percentages. simpl flat_map.
    destruct (spec_student_percentage st) as [p|]; simpl app.
    + rewrite !count_of_cons. cbn [List.length]. unfold float_sum. simpl.
      f_equal; lia.
    + reflexivity.
Qed.

(** The file backend: Present and Late both count as attended, the
    average runs over the students with at least one marked entry, the
    two counters use the class cutoffs, and [totalStudents] is the size
    of the roster. *)
Lemma db_class_statistics_spec (cd : class_data) (now : string) :
  students cd <> [] ->
  forallb (fun st => attendance_wf (attendance st)) (students cd) = true ->
  let th := match class_thresholds cd with
            | Some t => t
            | None => default_thresholds
            end in
  let pcts := spec_percentages (students cd) in
  let n := Z.of_nat (List.length pcts) in
  DatabaseManager.calculate_class_statistics cd now =
  mk_class_statistics
    (Z.of_nat (List.length (students cd)))
    (Some (PyFloat.round
             (if n >? 0
              then PyFloat.div (float_sum pcts PyFloat.zero) (PyFloat.of_int n)
              else PyFloat.zero) 3))
    (Some (count_of (is_at_risk th) pcts))
    (Some (count_of (is_excellent th) pcts))
    (Some now) None None.
Proof.
  intros Hne Hwf. cbv zeta.
  unfold DatabaseManager.calculate_class_statistics.
  destruct (students cd) as [|st sts] eqn:E; [congruence|].
  rewrite (class_fold_spec _ (st :: sts) DatabaseManager.class_acc0 Hwf).
  cbn [DatabaseManager.at_risk DatabaseManager.excellent_count
       DatabaseManager.total_attendance DatabaseManager.students_with_attendance
       DatabaseManager.class_acc0].
  rewrite !Z.add_0_l. reflexivity.
Qed.

(** C6. A class whose only student was late on the one day recorded:
    the file backend counts the late mark as attended (average 100,
    one excellent student); the document-store backend counts only the
    days with a present mark (average 0) and reports neither an at-risk
    nor an excellent count. *)
Theorem mongo_class_statistics_ignores_late :
  DatabaseManager.calculate_class_statistics late_class "2024-03-02T00:00:00"
  = mk_class_statistics 1 (Some f100) (Some 0) (Some 1)
                        (Some "2024-03-02T00:00:00") None None /\
  MongoDBManager.calculate_class_statistics late_class
  = mk_class_statistics 1 None None None None (Some PyFloat.zero) (Some 1).
Proof. split; reflexivity. Qed.

(** ** A scan in the first session of the day *)

(** The file backend replaces a simple mark and overwrites only the
    status of the first entry of a sessions array. *)
Lemma db_scan_first_session (now : string) :
  (forall v, DatabaseManager.scan_cell 1 now (Some (Simple v))
             = Some (Simple "P")) /\
  (forall s0 rest u,
      DatabaseManager.scan_cell 1 now (Some (Sessions (s0 :: rest) u))
      = Some (Sessions (set_status s0 "P" :: rest) now)) /\
  DatabaseManager.scan_cell 1 now None = Some (Simple "P").
Proof. repeat split. Qed.

(** C3. A scan in session 1 on a day holding an absence and a late
    mark: the file backend overwrites the first status and keeps the
    second entry; the document-store backend replaces the whole value
    by ['P'], and the late mark of session 2 is lost. *)
Theorem mongo_first_session_scan_drops_sessions :
  DatabaseManager.scan_cell 1 "2024-03-04T10:00:00" (Some two_marks)
  = Some (Sessions
            [mk_session (Some "session_1") (Some "Session 1") (Some "P");
             mk_session (Some "session_2") (Some "Session 2") (Some "L")]
            "2024-03-04T10:00:00") /\
  MongoDBManager.scan_cell 1 "2024-03-04T10:00:00" (Some two_marks)
  = Some (Simple "P").
Proof. split; reflexivity. Qed.

(** ** Session ids *)

Lemma str_of_int_inj (i j : Z) : str_of_int i = str_of_int j -> i = j.
Proof.
  unfold str_of_int. intros H.
  assert (Hn : forall z, Z.to_int z <> Decimal.Pos Decimal.Nil
                         /\ Z.to_int z <> Decimal.Neg Decimal.Nil).
  { intros [|p|p]; simpl; split; try discriminate;
      intros [= E]; now apply DecimalPos.Unsigned.to_uint_nonnil in E. }
  apply DecimalZ.to_int_inj.
  destruct (Hn i) as [Hi1 Hi2], (Hn j) as [Hj1 Hj2].
  pose proof (NilZero.isi _ Hi1 Hi2) as Ei.
  pose proof (NilZero.isi _ Hj1 Hj2) as Ej.
  rewrite H in Ei. congruence.
Qed.

Lemma session_key_inj (i j : Z) : session_key i = session_key j -> i = j.
Proof.
  unfold session_key. simpl. intros [= H]. now apply str_of_int_inj.
Qed.

Lemma session_key_eqb (i j : Z) :
  (session_key i =? session_key j)%string = (i =? j).
Proof.
  destruct (Z.eqb_spec i j) as [->|Hne].
  - apply String.eqb_refl.
  - apply String.eqb_neq. intros H. now apply Hne, session_key_inj.
Qed.

Lemma py_range_In (lo hi i : Z) : In i (py_range lo hi) <-> lo <= i < hi.
Proof.
  unfold py_range. rewrite in_map_iff. split.
  - intros (k & <- & Hk). apply in_seq in Hk. lia.
  - intros H. exists (Z.to_nat (i - lo)). split; [lia|].
    apply in_seq. lia.
Qed.

Lemma py_range_NoDup (lo hi : Z) : NoDup (py_range lo hi).
Proof.
  unfold py_range. generalize (seq_NoDup (Z.to_nat (hi - lo)) 0).
  induction (seq 0 (Z.to_nat (hi - lo))) as [|k l IH]; intros Hnd; simpl.
  - constructor.
  - inversion Hnd as [|? ? Hk Hl]; subst. constructor; [|now apply IH].
    rewrite in_map_iff. intros (k' & E & Hin).
    assert (k' = k) by lia. now subst.
Qed.

Lemma py_range_snoc (lo hi : Z) :
  lo <= hi -> py_range lo (hi + 1) = (py_range lo hi ++ [hi])%list.
Proof.
  intros H. unfold py_range.
  replace (Z.to_nat (hi + 1 - lo)) with (Z.to_nat (hi - lo) + 1)%nat by lia.
  rewrite seq_app, map_app. simpl. do 2 f_equal. lia.
Qed.

(** ** Lists of sessions *)

Lemma key_in_find (k : string) (ss : list session) :
  key_in k (map session_id ss) =
  match find_session k ss with Some _ => true | None => false end.
Proof.
  unfold key_in, find_session. induction ss as [|s ss IH]; [reflexivity|].
  simpl. destruct (session_id s) as [k'|]; simpl.
  - destruct (k' =? k)%string; [reflexivity | exact IH].
  - exact IH.
Qed.

Lemma py_insert_length {A : Type} (l : list A) (i : nat) (x : A) :
  List.length (py_insert l i x) = S (List.length l).
Proof.
  revert i. induction l as [|y l IH]; intros [|i]; simpl; try reflexivity.
  now rewrite IH.
Qed.

Lemma find_insert_other (k : string) (l : list session) (i : nat) (x : session) :
  session_id x <> Some k ->
  find_session k (py_insert l i x) = find_session k l.
Proof.
  intros Hx.
  assert (Hf : match session_id x with
               | Some k' => (k' =? k)%string
               | None => false
               end = false).
  { destruct (session_id x) as [k'|]; [|reflexivity].
    apply String.eqb_neq. congruence. }
  unfold find_session. revert i.
  induction l as [|y l IH]; intros [|i]; simpl; rewrite ?Hf; try reflexivity.
  destruct (match session_id y with Some _ => _ | None => _ end);
    [reflexivity | apply IH].
Qed.

Lemma find_insert_new (k : string) (l : list session) (i : nat) (x : session) :
  session_id x = Some k ->
  find_session k l = None ->
  find_session k (py_insert l i x) = Some x.
Proof.
  intros Hx.
  assert (Hf : match session_id x with
               | Some k' => (k' =? k)%string
               | None => false
               end = true)
    by (rewrite Hx; apply String.eqb_refl).
  unfold find_session. revert i.
  induction l as [|y l IH]; intros [|i]; simpl; rewrite ?Hf; try reflexivity.
  destruct (match session_id y with Some _ => _ | None => _ end);
    [discriminate | apply IH].
Qed.

Lemma key_in_insert (k : string) (l : list session) (i : nat) (x : session) :
  key_in k (map session_id (py_insert l i x)) =
  match session_id x with
  | Some k' => (k' =? k)%string
  | None => false
  end || key_in k (map session_id l).
Proof.
  unfold key_in. revert i.
  induction l as [|y l IH]; intros [|i]; simpl; try reflexivity.
  rewrite IH.
  destruct (session_id x) as [kx|], (session_id y) as [ky|]; simpl;
    try reflexivity;
    destruct (kx =? k)%string; simpl; try reflexivity;
    destruct (ky =? k)%string; reflexivity.
Qed.

Lemma set_first_status_ids (k st : string) (ss : list session) :
  map session_id (set_first_status k st ss) = map session_id ss.
Proof.
  induction ss as [|[[k'|] nm st0] ss IH]; [reflexivity| |]; simpl.
  - destruct (k' =? k)%string; simpl; [reflexivity | now rewrite IH].
  - now rewrite IH.
Qed.

Lemma set_first_status_length (k st : string) (ss : list session) :
  List.length (set_first_status k st ss) = List.length ss.
Proof.
  rewrite <- (length_map session_id), set_first_status_ids.
  apply length_map.
Qed.

Lemma set_first_status_idem (k st : string) (ss : list session) :
  set_first_status k st (set_first_status k st ss) = set_first_status k st ss.
Proof.
  induction ss as [|[[k'|] nm st0] ss IH]; [reflexivity| |]; simpl.
  - destruct (k' =? k)%string eqn:Ek; simpl; rewrite Ek;
      [reflexivity | now rewrite IH].
  - now rewrite IH.
Qed.

Lemma find_set_first_same (k st : string) (ss : list session) :
  find_session k (set_first_status k st ss) =
  option_map (fun s => set_status s st) (find_session k ss).
Proof.
  unfold find_session.
  induction ss as [|[[k'|] nm st0] ss IH]; [reflexivity| |]; simpl.
  - destruct (k' =? k)%string eqn:Ek; simpl; rewrite Ek;
      [reflexivity | exact IH].
  - exact IH.
Qed.

Lemma find_set_first_other (k k' st : string) (ss : list session) :
  k' <> k ->
  find_session k' (set_first_status k st ss) = find_session k' ss.
Proof.
  intros Hne. unfold find_session.
  induction ss as [|[[k0|] nm st0] ss IH]; [reflexivity| |]; simpl.
  - destruct (k0 =? k)%string eqn:Ek; simpl.
    + apply String.eqb_eq in Ek. subst k0.
      destruct (String.eqb_spec k k'); [congruence | reflexivity].
    + destruct (k0 =? k')%string; [reflexivity | exact IH].
  - exact IH.
Qed.

(** A sessions array whose entry for the key already holds the status
    is left as it is. *)
Lemma set_first_status_fixed (k st : string) (ss : list session) :
  (forall s, find_session k ss = Some s -> session_status s = Some st) ->
  set_first_status k st ss = ss.
Proof.
  unfold find_session.
  induction ss as [|[[k'|] nm st0] ss IH]; intros H; [reflexivity| |];
    simpl in *.
  - destruct (k' =? k)%string.
    + f_equal. specialize (H _ eq_refl). simpl in H.
      unfold set_status; simpl. congruence.
    + f_equal. now apply IH.
  - f_equal. now apply IH.
Qed.

(** ** Filling the missing sessions *)

Section Fill.

Variables (existing : list (option string)) (n : Z) (last : string).

Let fill (idx : list Z) (acc : list session) : list session :=
  fold_left (fill_step existing n last) idx acc.

(** A key the loop does not insert is found as before. *)
Lemma fill_find_other (k : string) (idx : list Z) (acc : list session) :
  (forall i, In i idx -> session_key i = k -> key_in k existing = true) ->
  find_session k (fill idx acc) = find_session k acc.
Proof.
  unfold fill. revert acc. induction idx as [|j idx IH]; intros acc H;
    [reflexivity|].
  simpl fold_left. rewrite IH by (intros i Hi; apply H; now right).
  unfold fill_step. destruct (key_in (session_key j) existing) eqn:E;
    [reflexivity|].
  apply find_insert_other. simpl. intros [= Hk].
  pose proof (H j (or_introl eq_refl) Hk) as Hin. rewrite <- Hk in Hin.
  congruence.
Qed.

(** A missing key of the range is found afterwards with the new
    entry. *)
Lemma fill_find_new (i : Z) (idx : list Z) (acc : list session) :
  NoDup idx -> In i idx ->
  key_in (session_key i) existing = false ->
  find_session (session_key i) acc = None ->
  find_session (session_key i) (fill idx acc) = Some (new_session n last i).
Proof.
  unfold fill. revert acc. induction idx as [|j idx IH];
    intros acc Hnd Hin Hex Hacc; [contradiction|].
  inversion Hnd as [|? ? Hj Hnd']; subst. simpl fold_left.
  destruct Hin as [->|Hin].
  - fold (fill idx (fill_step existing n last acc i)).
    rewrite fill_find_other.
    + unfold fill_step. rewrite Hex. now apply find_insert_new.
    + intros i' Hi' Hk. apply session_key_inj in Hk. now subst.
  - apply IH; trivial.
    unfold fill_step. destruct (key_in (session_key j) existing);
      [exact Hacc|].
    rewrite find_insert_other; [exact Hacc|].
    simpl. intros Hk. assert (Hk' : session_key j = session_key i)
      by congruence.
    apply session_key_inj in Hk'. now subst.
Qed.

Lemma fill_length (idx : list Z) (acc : list session) :
  List.length (fill idx acc) =
  (List.length acc
   + List.length (filter (fun i => negb (key_in (session_key i) existing))
                         idx))%nat.
Proof.
  unfold fill. revert acc. induction idx as [|j idx IH]; intros acc; simpl.
  - lia.
  - rewrite IH. unfold fill_step.
    destruct (key_in (session_key j) existing); simpl;
      rewrite ?py_insert_length; lia.
Qed.

(** Nothing is removed: a key found before is found afterwards. *)
Lemma fill_keeps_keys (k : string) (idx : list Z) (acc : list session) :
  key_in k (map session_id acc) = true ->
  key_in k (map session_id (fill idx acc)) = true.
Proof.
  unfold fill. revert acc. induction idx as [|j idx IH]; intros acc H;
    [exact H|].
  simpl fold_left. apply IH. unfold fill_step.
  destruct (key_in (session_key j) existing); [exact H|].
  rewrite key_in_insert, H. apply orb_true_r.
Qed.

(** Every key of the loop is found afterwards. *)
Lemma fill_has_keys (i : Z) (idx : list Z) (acc : list session) :
  In i idx ->
  (key_in (session_key i) existing = true ->
   key_in (session_key i) (map session_id acc) = true) ->
  key_in (session_key i) (map session_id (fill idx acc)) = true.
Proof.
  unfold fill. revert acc. induction idx as [|j idx IH]; intros acc Hin Hex;
    [contradiction|].
  simpl fold_left. destruct Hin as [->|Hin].
  - apply fill_keeps_keys. unfold fill_step.
    destruct (key_in (session_key i) existing) eqn:E; [now apply Hex|].
    rewrite key_in_insert. simpl. now rewrite String.eqb_refl.
  - apply IH; trivial. intros E. specialize (Hex E).
    unfold fill_step. destruct (key_in (session_key j) existing);
      [exact Hex|].
    rewrite key_in_insert, Hex. apply orb_true_r.
Qed.

(** With every key present the loop changes nothing. *)
Lemma fill_nothing_missing (idx : list Z) (acc : list session) :
  (forall i, In i idx -> key_in (session_key i) existing = true) ->
  fill idx acc = acc.
Proof.
  unfold fill. revert acc. induction idx as [|j idx IH]; intros acc H;
    [reflexivity|].
  simpl fold_left. unfold fill_step at 2.
  rewrite (H j (or_introl eq_refl)). apply IH.
  intros i Hi. apply H. now right.
Qed.

End Fill.

(** ** The attendance mapping *)

Lemma attendance_get_set (att : attendance_map) (date : string) (c : cell) :
  c <> Null -> attendance_get (attendance_set att date c) date = Some c.
Proof.
  intros Hc. induction att as [|[d c0] att IH]; simpl.
  - rewrite String.eqb_refl. now destruct c.
  - destruct (d =? date)%string eqn:E; simpl; rewrite E; [now destruct c | exact IH].
Qed.

Lemma attendance_get_set_other (att : attendance_map) (date d' : string)
    (c : cell) :
  d' <> date ->
  attendance_get (attendance_set att date c) d' = attendance_get att d'.
Proof.
  intros Hd. induction att as [|[d c0] att IH]; simpl.
  - destruct (String.eqb_spec date d'); [congruence | reflexivity].
  - destruct (String.eqb_spec d date) as [->|]; simpl.
    + destruct (String.eqb_spec date d'); [congruence | reflexivity].
    + destruct (d =? d')%string; [reflexivity | exact IH].
Qed.

Lemma attendance_set_set (att : attendance_map) (date : string) (c c' : cell) :
  attendance_set (attendance_set att date c) date c' = attendance_set att date c'.
Proof.
  induction att as [|[d c0] att IH]; simpl.
  - now rewrite String.eqb_refl.
  - destruct (d =? date)%string eqn:E; simpl; rewrite E; [reflexivity|].
    now rewrite IH.
Qed.

(** ** Re-running a merge *)

Section Rerun.

Variable f : string -> option cell -> option cell.

(** The clock only stamps the value assigned. *)
Hypothesis f_stamp : forall now1 now2 v,
    f now2 v = option_map (restamp now2) (f now1 v).
(** On its own result the merge assigns that result again. *)
Hypothesis f_again : forall now1 now2 v,
    f now2 (value_after v (f now1 v)) = option_map (restamp now2) (f now1 v).
Hypothesis f_not_null : forall now v, f now v <> Some Null.

Lemma merge_at_again (now1 now2 date : string) (att : attendance_map) :
  merge_at f now2 date (merge_at f now1 date att) = merge_at f now2 date att.
Proof.
  unfold merge_at.
  pose proof (f_again now1 now2 (attendance_get att date)) as Ha.
  pose proof (f_stamp now1 now2 (attendance_get att date)) as Hs.
  pose proof (f_not_null now1 (attendance_get att date)) as Hn.
  destruct (f now1 (attendance_get att date)) as [c|] eqn:E1.
  - rewrite attendance_get_set by congruence.
    simpl in Ha, Hs. rewrite Ha, Hs. apply attendance_set_set.
  - simpl in Ha. now rewrite Ha.
Qed.

End Rerun.

Lemma keys_of_new_sessions (g : Z -> session) (idx : list Z) (i : Z) :
  (forall j, session_id (g j) = Some (session_key j)) ->
  In i idx ->
  key_in (session_key i) (map session_id (map g idx)) = true.
Proof.
  intros Hg Hin. unfold key_in. apply existsb_exists.
  exists (Some (session_key i)). split; [|apply String.eqb_refl].
  rewrite map_map. apply in_map_iff. exists i. now rewrite Hg.
Qed.

(** In a list built for the ids [idx], the entry found for a key is the
    one built for that id. *)
Lemma find_in_new_sessions (g : Z -> session) (idx : list Z) (i : Z)
    (s : session) :
  (forall j, session_id (g j) = Some (session_key j)) ->
  find_session (session_key i) (map g idx) = Some s ->
  In i idx /\ s = g i.
Proof.
  intros Hg Hf. unfold find_session in Hf. apply find_some in Hf.
  destruct Hf as [Hin Hk]. apply in_map_iff in Hin.
  destruct Hin as (j & <- & Hj). rewrite Hg in Hk.
  apply String.eqb_eq, session_key_inj in Hk. now subst.
Qed.

Lemma find_session_app (k : string) (l1 l2 : list session) :
  find_session k (l1 ++ l2) =
  match find_session k l1 with
  | Some s => Some s
  | None => find_session k l2
  end.
Proof.
  unfold find_session. induction l1 as [|x l1 IH]; [reflexivity|]. simpl.
  destruct (match session_id x with Some _ => _ | None => _ end);
    [reflexivity | exact IH].
Qed.

(** ** The merges on their own result *)

Lemma key_in_app (k : string) (l1 l2 : list session) :
  key_in k (map session_id (l1 ++ l2)) =
  key_in k (map session_id l1) || key_in k (map session_id l2).
Proof. unfold key_in. now rewrite map_app, existsb_app. Qed.

(** A sessions array that already holds every id of [1 .. n] is left
    as it is by the filling loop. *)
Lemma fill_missing_complete (n : Z) (last : string) (ss : list session) :
  (forall i, 1 <= i <= n -> key_in (session_key i) (map session_id ss) = true) ->
  fill_missing (map session_id ss) n last ss = ss.
Proof.
  intros H. unfold fill_missing. apply fill_nothing_missing.
  intros i Hi. apply py_range_In in Hi. apply H. lia.
Qed.

(** After the filling loop every id of [1 .. n] is there. *)
Lemma fill_missing_has_all (n : Z) (last : string) (ss : list session) (i : Z) :
  1 <= i <= n ->
  key_in (session_key i)
         (map session_id (fill_missing (map session_id ss) n last ss)) = true.
Proof.
  intros Hi. unfold fill_missing. apply fill_has_keys.
  - apply py_range_In. lia.
  - trivial.
Qed.

Lemma fill_missing_again (n : Z) (last : string) (ss : list session) :
  let ss1 := fill_missing (map session_id ss) n last ss in
  fill_missing (map session_id ss1) n last ss1 = ss1.
Proof.
  intros ss1. apply fill_missing_complete.
  intros i Hi. now apply fill_missing_has_all.
Qed.

(** The array a scan builds in the document-store backend, and a
    stop in both, for an empty or simple value: re-running the loop and
    the update on it changes nothing. *)
Lemma rerun_on_fresh_range (n : Z) (st : Z -> string) (last : string) :
  let l := map (fun i => mk_session (Some (session_key i))
                                    (Some (qr_session_name i)) (Some (st i)))
               (py_range 1 (n + 1)) in
  fill_missing (map session_id l) n last l = l /\
  (st n = last -> set_first_status (session_key n) last l = l).
Proof.
  intros l. split.
  - apply fill_missing_complete. intros i Hi.
    apply keys_of_new_sessions; [reflexivity|]. apply py_range_In. lia.
  - intros Hst. apply set_first_status_fixed. intros s Hf.
    apply find_in_new_sessions in Hf; [|reflexivity].
    destruct Hf as [_ ->]. simpl. now rewrite Hst.
Qed.

(** The array a scan builds in the file backend for an empty or simple
    value. *)
Lemma rerun_on_fresh_prefix (n : Z) (st : Z -> string) :
  let l := (map (fun i => mk_session (Some (session_key i))
                                     (Some (qr_session_name i)) (Some (st i)))
                (py_range 1 n)
            ++ [mk_session (Some (session_key n)) (Some (qr_session_name n))
                           (Some "P")])%list in
  set_first_status (session_key n) "P"
    (fill_missing (map session_id l) n "P" l) = l.
Proof.
  intros l.
  assert (Hfill : fill_missing (map session_id l) n "P" l = l).
  { apply fill_missing_complete. intros i Hi. subst l. rewrite key_in_app.
    destruct (Z.eq_dec i n) as [->|Hne].
    - simpl. rewrite String.eqb_refl. apply orb_true_r.
    - rewrite keys_of_new_sessions; [reflexivity | reflexivity |].
      apply py_range_In. lia. }
  rewrite Hfill. apply set_first_status_fixed. intros s Hf.
  subst l. rewrite find_session_app in Hf.
  destruct (find_session (session_key n) (map _ (py_range 1 n))) as [s'|] eqn:E.
  - apply find_in_new_sessions in E; [|reflexivity].
    destruct E as [Hin _]. apply py_range_In in Hin. lia.
  - simpl in Hf. rewrite String.eqb_refl in Hf. now inversion Hf.
Qed.

(** The array a merge leaves for a sessions value. *)
Lemma rerun_on_filled (n : Z) (ss : list session) :
  let ss1 := set_first_status (session_key n) "P"
               (fill_missing (map session_id ss) n "P" ss) in
  set_first_status (session_key n) "P"
    (fill_missing (map session_id ss1) n "P" ss1) = ss1.
Proof.
  intros ss1.
  assert (Hfill : fill_missing (map session_id ss1) n "P" ss1 = ss1).
  { apply fill_missing_complete. intros i Hi. subst ss1.
    rewrite set_first_status_ids. now apply fill_missing_has_all. }
  rewrite Hfill. subst ss1. apply set_first_status_idem.
Qed.

Lemma db_scan_stamp (n : Z) (now1 now2 : string) (v : option cell) :
  DatabaseManager.scan_cell n now2 v =
  option_map (restamp now2) (DatabaseManager.scan_cell n now1 v).
Proof.
  unfold DatabaseManager.scan_cell.
  destruct (n =? 1); destruct v as [[|s|st c|[|s0 rest] u|]|]; reflexivity.
Qed.

Lemma db_scan_again (n : Z) (now1 now2 : string) (v : option cell) :
  DatabaseManager.scan_cell n now2
    (value_after v (DatabaseManager.scan_cell n now1 v)) =
  option_map (restamp now2) (DatabaseManager.scan_cell n now1 v).
Proof.
  unfold DatabaseManager.scan_cell. destruct (n =? 1) eqn:En.
  - destruct v as [[|s|st c|[|s0 rest] u|]|]; reflexivity.
  - destruct v as [[|s|st c|ss u|]|]; simpl; try reflexivity.
    + do 2 f_equal. apply (rerun_on_fresh_prefix n (fun i => if i =? 1 then s else "A")).
    + do 2 f_equal. apply rerun_on_filled.
    + do 2 f_equal. apply (rerun_on_fresh_prefix n (fun _ => "A")).
Qed.

Lemma mongo_scan_stamp (n : Z) (now1 now2 : string) (v : option cell) :
  MongoDBManager.scan_cell n now2 v =
  option_map (restamp now2) (MongoDBManager.scan_cell n now1 v).
Proof.
  unfold MongoDBManager.scan_cell.
  destruct (n =? 1); destruct v as [[|s|st c|ss u|]|]; reflexivity.
Qed.

Lemma mongo_scan_again (n : Z) (now1 now2 : string) (v : option cell) :
  MongoDBManager.scan_cell n now2
    (value_after v (MongoDBManager.scan_cell n now1 v)) =
  option_map (restamp now2) (MongoDBManager.scan_cell n now1 v).
Proof.
  unfold MongoDBManager.scan_cell. destruct (n =? 1) eqn:En.
  - destruct v as [[|s|st c|ss u|]|]; reflexivity.
  - destruct v as [[|s|st c|ss u|]|]; simpl; try reflexivity.
    + do 2 f_equal.
      destruct (rerun_on_fresh_range n
                  (fun i => if i =? 1 then s else if i <? n then "A" else "P")
                  "P") as [Hfill Hset].
      rewrite Hfill. apply Hset. rewrite En, Z.ltb_irrefl. reflexivity.
    + do 2 f_equal. apply rerun_on_filled.
    + do 2 f_equal.
      destruct (rerun_on_fresh_range n
                  (fun i => if i <? n then "A" else "P") "P") as [Hfill Hset].
      rewrite Hfill. apply Hset. now rewrite Z.ltb_irrefl.
Qed.

Lemma absent_stamp (n : Z) (now1 now2 : string) (v : option cell) :
  DatabaseManager.absent_cell n now2 v =
  option_map (restamp now2) (DatabaseManager.absent_cell n now1 v).
Proof.
  unfold DatabaseManager.absent_cell.
  destruct (n =? 1); destruct v as [[|s|st c|ss u|]|]; reflexivity.
Qed.

Lemma absent_again (n : Z) (now1 now2 : string) (v : option cell) :
  DatabaseManager.absent_cell n now2
    (value_after v (DatabaseManager.absent_cell n now1 v)) =
  option_map (restamp now2) (DatabaseManager.absent_cell n now1 v).
Proof.
  unfold DatabaseManager.absent_cell. destruct (n =? 1) eqn:En.
  - destruct v as [[|s|st c|ss u|]|]; reflexivity.
  - destruct v as [[|s|st c|ss u|]|]; simpl; try reflexivity.
    + do 2 f_equal.
      apply (rerun_on_fresh_range n (fun i => if i =? 1 then s else "A") "A").
    + do 2 f_equal. apply fill_missing_again.
    + do 2 f_equal. apply (rerun_on_fresh_range n (fun _ => "A") "A").
Qed.

Lemma mongo_absent_cell_eq (n : Z) (now : string) (v : option cell) :
  MongoDBManager.absent_cell n now v = DatabaseManager.absent_cell n now v.
Proof. reflexivity. Qed.

Lemma scan_not_null (n : Z) (now : string) (v : option cell) :
  DatabaseManager.scan_cell n now v <> Some Null /\
  MongoDBManager.scan_cell n now v <> Some Null /\
  DatabaseManager.absent_cell n now v <> Some Null.
Proof.
  unfold DatabaseManager.scan_cell, MongoDBManager.scan_cell,
    DatabaseManager.absent_cell.
  destruct (n =? 1); destruct v as [[|s|st c|[|s0 rest] u|]|];
    repeat split; discriminate.
Qed.

(** C4. Re-running a merge: a scan (verdict P) or the marking of an
    absentee (verdict A) applied a second time for the same session
    number leaves the attendance mapping of the student as the first
    application left it, in both backends; no session entry is added
    twice.  Applied again at a later clock reading it gives what a
    single application at that reading gives, so only [updated_at] can
    move. *)
Theorem merge_rerun (n : Z) (now date : string) (att : attendance_map) :
  DatabaseManager.scan_attendance n now date
    (DatabaseManager.scan_attendance n now date att)
  = DatabaseManager.scan_attendance n now date att /\
  MongoDBManager.scan_attendance n now date
    (MongoDBManager.scan_attendance n now date att)
  = MongoDBManager.scan_attendance n now date att /\
  DatabaseManager.absent_attendance n now date
    (DatabaseManager.absent_attendance n now date att)
  = DatabaseManager.absent_attendance n now date att /\
  MongoDBManager.absent_attendance n now date
    (MongoDBManager.absent_attendance n now date att)
  = MongoDBManager.absent_attendance n now date att /\
  forall later : string,
    DatabaseManager.scan_attendance n later date
      (DatabaseManager.scan_attendance n now date att)
    = DatabaseManager.scan_attendance n later date att /\
    MongoDBManager.scan_attendance n later date
      (MongoDBManager.scan_attendance n now date att)
    = MongoDBManager.scan_attendance n later date att /\
    DatabaseManager.absent_attendance n later date
      (DatabaseManager.absent_attendance n now date att)
    = DatabaseManager.absent_attendance n later date att /\
    MongoDBManager.absent_attendance n later date
      (MongoDBManager.absent_attendance n now date att)
    = MongoDBManager.absent_attendance n later date att.
Proof.
  assert (Hdb : forall t1 t2,
             DatabaseManager.scan_attendance n t2 date
               (DatabaseManager.scan_attendance n t1 date att)
             = DatabaseManager.scan_attendance n t2 date att).
  { intros t1 t2.
    apply (merge_at_again (DatabaseManager.scan_cell n)).
    - intros; apply db_scan_stamp.
    - intros; apply db_scan_again.
    - intros; apply scan_not_null. }
  assert (Hmg : forall t1 t2,
             MongoDBManager.scan_attendance n t2 date
               (MongoDBManager.scan_attendance n t1 date att)
             = MongoDBManager.scan_attendance n t2 date att).
  { intros t1 t2.
    apply (merge_at_again (MongoDBManager.scan_cell n)).
    - intros; apply mongo_scan_stamp.
    - intros; apply mongo_scan_again.
    - intros; apply scan_not_null. }
  assert (Hab : forall t1 t2,
             DatabaseManager.absent_attendance n t2 date
               (DatabaseManager.absent_attendance n t1 date att)
             = DatabaseManager.absent_attendance n t2 date att).
  { intros t1 t2.
    apply (merge_at_again (DatabaseManager.absent_cell n)).
    - intros; apply absent_stamp.
    - intros; apply absent_again.
    - intros; apply scan_not_null. }
  repeat split; auto; apply Hab.
Qed.

(** ** Back-filling the sessions before a scan *)

(** The sessions array a scan of session [n] leaves for a sessions
    array: shared by the two backends. *)
Lemma scan_sessions_spec (n : Z) (ss : list session) :
  1 < n ->
  let ss' := set_first_status (session_key n) "P"
               (fill_missing (map session_id ss) n "P" ss) in
  (forall i, 1 <= i <= n -> find_session (session_key i) ss' <> None) /\
  (forall i, 1 <= i < n -> find_session (session_key i) ss = None ->
     find_session (session_key i) ss'
     = Some (mk_session (Some (session_key i)) (Some (qr_session_name i))
                        (Some "A"))) /\
  find_session (session_key n) ss'
  = Some (match find_session (session_key n) ss with
          | Some s => set_status s "P"
          | None => mk_session (Some (session_key n))
                               (Some (qr_session_name n)) (Some "P")
          end) /\
  (forall k s, k <> session_key n -> find_session k ss = Some s ->
     find_session k ss' = Some s) /\
  List.length ss' = (List.length ss + List.length (missing_ids n ss))%nat.
Proof.
  intros Hn ss'. subst ss'. repeat split.
  - intros i Hi Hnone.
    pose proof (fill_missing_has_all n "P" ss i Hi) as Hk.
    rewrite <- (set_first_status_ids (session_key n) "P"), key_in_find,
      Hnone in Hk. discriminate.
  - intros i Hi Hmiss.
    rewrite find_set_first_other
      by (intros Hk; apply session_key_inj in Hk; lia).
    unfold fill_missing. rewrite fill_find_new; trivial.
    + unfold new_session. now rewrite (proj2 (Z.eqb_neq i n)) by lia.
    + apply py_range_NoDup.
    + apply py_range_In. lia.
    + now rewrite key_in_find, Hmiss.
  - rewrite find_set_first_same. unfold fill_missing.
    destruct (find_session (session_key n) ss) as [s|] eqn:E.
    + rewrite fill_find_other, E; [reflexivity|].
      intros i _ _. now rewrite key_in_find, E.
    + rewrite fill_find_new; trivial.
      * apply py_range_NoDup.
      * apply py_range_In. lia.
      * now rewrite key_in_find, E.
  - intros k s Hk Hf. rewrite find_set_first_other by exact Hk.
    unfold fill_missing. rewrite fill_find_other; [exact Hf|].
    intros i _ _. now rewrite key_in_find, Hf.
  - rewrite set_first_status_length. unfold fill_missing.
    now rewrite fill_length.
Qed.

Lemma db_fresh_simple (n : Z) (v : string) :
  1 < n ->
  (map (fun i => mk_session (Some (session_key i)) (Some (qr_session_name i))
                   (Some (if i =? 1 then v else "A")))
       (py_range 1 n)
   ++ [mk_session (Some (session_key n)) (Some (qr_session_name n))
                  (Some "P")])%list
  = spec_backfill (Some v) n "P".
Proof.
  intros Hn. unfold spec_backfill.
  rewrite py_range_snoc, map_app by lia. simpl. rewrite Z.eqb_refl.
  f_equal. apply map_ext_in. intros i Hi. apply py_range_In in Hi.
  now rewrite (proj2 (Z.eqb_neq i n)) by lia.
Qed.

Lemma db_fresh_empty (n : Z) :
  1 < n ->
  (map (fun i => mk_session (Some (session_key i)) (Some (qr_session_name i))
                   (Some "A"))
       (py_range 1 n)
   ++ [mk_session (Some (session_key n)) (Some (qr_session_name n))
                  (Some "P")])%list
  = spec_backfill None n "P".
Proof.
  intros Hn. unfold spec_backfill.
  rewrite py_range_snoc, map_app by lia. simpl. rewrite Z.eqb_refl.
  f_equal. apply map_ext_in. intros i Hi. apply py_range_In in Hi.
  rewrite (proj2 (Z.eqb_neq i n)) by lia. now destruct (i =? 1).
Qed.

Lemma mongo_fresh_simple (n : Z) (v : string) :
  1 < n ->
  map (fun i => mk_session (Some (session_key i)) (Some (qr_session_name i))
                  (Some (if i =? 1 then v
                         else if i <? n then "A" else "P")))
      (py_range 1 (n + 1))
  = spec_backfill (Some v) n "P".
Proof.
  intros Hn. unfold spec_backfill. apply map_ext_in. intros i Hi.
  apply py_range_In in Hi. do 2 f_equal.
  destruct (Z.eqb_spec i n) as [->|Hne].
  - rewrite (proj2 (Z.eqb_neq n 1)) by lia. now rewrite Z.ltb_irrefl.
  - destruct (i =? 1); [reflexivity|].
    now rewrite (proj2 (Z.ltb_lt i n)) by lia.
Qed.

Lemma mongo_fresh_empty (n : Z) :
  1 < n ->
  map (fun i => mk_session (Some (session_key i)) (Some (qr_session_name i))
                  (Some (if i <? n then "A" else "P")))
      (py_range 1 (n + 1))
  = spec_backfill None n "P".
Proof.
  intros Hn. unfold spec_backfill. apply map_ext_in. intros i Hi.
  apply py_range_In in Hi. do 2 f_equal.
  destruct (Z.eqb_spec i n) as [->|Hne].
  - now rewrite Z.ltb_irrefl.
  - rewrite (proj2 (Z.ltb_lt i n)) by lia. now destruct (i =? 1).
Qed.

(** The scan does not record its session in every value: a scan in
    session 3 assigns nothing to a legacy-counted value. *)
Lemma counted_value_is_not_merged :
  ~ (forall (v : option cell) (n : Z) (now : string),
       1 < n ->
       records_session n "P"
         (value_after v (DatabaseManager.scan_cell n now v))).
Proof.
  intros H.
  destruct (H (Some (Counted (Some "P") (Some 2))) 3 "2024-03-04T10:00:00")
    as (ss & u & s & Hv & _); [lia|].
  discriminate.
Qed.

(** The branches of the scan, for a session number [n > 1] and in either
    backend.  An empty value gets the sessions [1 .. n] with the
    sessions before [n] absent and session [n] present; a simple mark,
    the same with the mark kept as session 1; a sessions array, every
    missing id of [1 .. n] inserted as absent, the entries it had left
    as they were, nothing added twice, and session [n] set to present.
    No branch takes a legacy-counted or an unrecognized value. *)
Theorem scan_backfill (n : Z) (now : string) :
  1 < n ->
  (forall v, MongoDBManager.scan_cell n now v
             = DatabaseManager.scan_cell n now v) /\
  DatabaseManager.scan_cell n now None
  = Some (Sessions (spec_backfill None n "P") now) /\
  (forall v, DatabaseManager.scan_cell n now (Some (Simple v))
             = Some (Sessions (spec_backfill (Some v) n "P") now)) /\
  (forall ss u, exists ss',
      DatabaseManager.scan_cell n now (Some (Sessions ss u))
      = Some (Sessions ss' now) /\
      (forall i, 1 <= i <= n -> find_session (session_key i) ss' <> None) /\
      (forall i, 1 <= i < n -> find_session (session_key i) ss = None ->
         find_session (session_key i) ss'
         = Some (mk_session (Some (session_key i)) (Some (qr_session_name i))
                            (Some "A"))) /\
      find_session (session_key n) ss'
      = Some (match find_session (session_key n) ss with
              | Some s => set_status s "P"
              | None => mk_session (Some (session_key n))
                                   (Some (qr_session_name n)) (Some "P")
              end) /\
      (forall k s, k <> session_key n -> find_session k ss = Some s ->
         find_session k ss' = Some s) /\
      List.length ss' = (List.length ss + List.length (missing_ids n ss))%nat) /\
  (forall st c, DatabaseManager.scan_cell n now (Some (Counted st c)) = None) /\
  DatabaseManager.scan_cell n now (Some Unrecognized) = None.
Proof.
  intros Hn.
  assert (En : (n =? 1) = false) by (apply Z.eqb_neq; lia).
  unfold MongoDBManager.scan_cell, DatabaseManager.scan_cell. rewrite En.
  repeat split.
  - intros [[|v|st c|ss u|]|]; try reflexivity.
    + now rewrite (db_fresh_simple n v Hn), (mongo_fresh_simple n v Hn).
    + now rewrite (db_fresh_empty n Hn), (mongo_fresh_empty n Hn).
  - now rewrite (db_fresh_empty n Hn).
  - intros v. now rewrite (db_fresh_simple n v Hn).
  - intros ss u. eexists. split; [reflexivity|].
    apply (scan_sessions_spec n ss Hn).
Qed.

Lemma scan_backfill_witness :
  1 < 3 /\
  exists ss,
    DatabaseManager.scan_cell 3 "2024-03-04T10:00:00" None
    = Some (Sessions ss "2024-03-04T10:00:00") /\
    map session_id ss
    = [Some "session_1"; Some "session_2"; Some "session_3"] /\
    map session_status ss = [Some "A"; Some "A"; Some "P"].
Proof.
  split; [lia|].
  destruct (scan_backfill 3 "2024-03-04T10:00:00") as (_ & H & _); [lia|].
  rewrite H. eexists. repeat split.
Defined.

(** C2. A scan in session 3 by a student whose day is stored in the
    legacy-counted shape [{status: 'P', count: 2}].  The file backend
    commits the scan: the call returns and the student joins the
    scanned set.  But no branch of the merge takes the value: it is
    stored back as it was, no session is synthesized and session 3 is
    not recorded as present, where the claim gives the sessions
    [session_1 .. session_3] with session 3 present.  The merge of the
    document-store backend leaves the value alone in the same way.  On
    an empty day the same scan stores the statuses A, A, P. *)
Theorem scan_skips_counted_value :
  (exists cd' sd',
     DatabaseManager.scan_qr_code (Some third_session) counted_enrollments
       (Some counted_class) "u-yuri" "Q7XK2M9A" "2024-03-04"
       "2024-03-04T14:10:00"
     = Return (cd', sd') /\
     scanned_students sd' = [IdInt 2] /\
     map attendance (students cd')
     = [[("2024-03-04", Counted (Some "P") (Some 2))]] /\
     forall s, In s (students cd') ->
       ~ records_session 3 "P"
           (attendance_get (attendance s) "2024-03-04")) /\
  MongoDBManager.scan_attendance 3 "2024-03-04T14:10:00" "2024-03-04"
    [("2024-03-04", Counted (Some "P") (Some 2))]
  = [("2024-03-04", Counted (Some "P") (Some 2))] /\
  map (fun v => match v with
                | (_, Sessions ss _) => map session_status ss
                | _ => []
                end)
      (DatabaseManager.scan_attendance 3 "2024-03-04T14:10:00" "2024-03-04" [])
  = [[Some "A"; Some "A"; Some "P"]].
Proof.
  split; [|split; reflexivity].
  do 2 eexists. split; [reflexivity|]. split; [reflexivity|].
  split; [reflexivity|].
  intros s [<-|[]] (ss & u & e & Hv & _). discriminate.
Qed.

(** ** Stopping a QR session *)

Lemma record_id_eqb_eq (a b : record_id) : record_id_eqb a b = true <-> a = b.
Proof.
  destruct a as [x|x], b as [y|y]; simpl; split; try discriminate.
  - intros H. apply Z.eqb_eq in H. now subst.
  - intros [= ->]. apply Z.eqb_refl.
  - intros H. apply String.eqb_eq in H. now subst.
  - intros [= ->]. apply String.eqb_refl.
Qed.

Lemma id_in_In (x : record_id) (ids : list record_id) :
  id_in x ids = true <-> In x ids.
Proof.
  unfold id_in. rewrite existsb_exists. split.
  - intros (y & Hy & E). apply record_id_eqb_eq in E. now subst.
  - intros H. exists x. split; [exact H | now apply record_id_eqb_eq].
Qed.

Lemma id_in_nodup (x : record_id) (ids : list record_id) :
  id_in x (nodup record_id_eq_dec ids) = id_in x ids.
Proof.
  destruct (id_in x ids) eqn:E.
  - apply id_in_In. apply nodup_In. now apply id_in_In.
  - destruct (id_in x (nodup record_id_eq_dec ids)) eqn:E'; [|reflexivity].
    apply id_in_In, nodup_In, id_in_In in E'. congruence.
Qed.

Lemma to_mark_nodup (active scanned : list record_id) (s : student) :
  DatabaseManager.to_mark active (nodup record_id_eq_dec scanned) s
  = DatabaseManager.to_mark active scanned s.
Proof. unfold DatabaseManager.to_mark. now rewrite id_in_nodup. Qed.

Lemma absent_fresh_simple (n : Z) (v : string) :
  1 < n ->
  map (fun i => mk_session (Some (session_key i)) (Some (qr_session_name i))
                  (Some (if i =? 1 then v else "A")))
      (py_range 1 (n + 1))
  = spec_backfill (Some v) n "A".
Proof.
  intros Hn. unfold spec_backfill. apply map_ext_in. intros i Hi.
  apply py_range_In in Hi. do 2 f_equal.
  destruct (Z.eqb_spec i n) as [->|Hne]; [|reflexivity].
  now rewrite (proj2 (Z.eqb_neq n 1)) by lia.
Qed.

Lemma absent_fresh_empty (n : Z) :
  1 < n ->
  map (fun i => mk_session (Some (session_key i)) (Some (qr_session_name i))
                  (Some "A"))
      (py_range 1 (n + 1))
  = spec_backfill None n "A".
Proof.
  intros Hn. unfold spec_backfill. apply map_ext_in. intros i Hi.
  do 2 f_equal. now destruct (i =? n), (i =? 1).
Qed.

(** The sessions array the marking of an absentee leaves for a sessions
    array: the missing ids are inserted as absent and every entry that
    was there, the one of session [n] included, is left as it was. *)
Lemma absent_sessions_spec (n : Z) (ss : list session) :
  let ss' := fill_missing (map session_id ss) n "A" ss in
  (forall i, 1 <= i <= n -> find_session (session_key i) ss' <> None) /\
  (forall i, 1 <= i <= n -> find_session (session_key i) ss = None ->
     find_session (session_key i) ss'
     = Some (mk_session (Some (session_key i)) (Some (qr_session_name i))
                        (Some "A"))) /\
  (forall k s, find_session k ss = Some s -> find_session k ss' = Some s) /\
  List.length ss' = (List.length ss + List.length (missing_ids n ss))%nat.
Proof.
  intros ss'. subst ss'. repeat split.
  - intros i Hi Hnone.
    pose proof (fill_missing_has_all n "A" ss i Hi) as Hk.
    rewrite key_in_find, Hnone in Hk. discriminate.
  - intros i Hi Hmiss. unfold fill_missing. rewrite fill_find_new; trivial.
    + unfold new_session. now destruct (i =? n).
    + apply py_range_NoDup.
    + apply py_range_In. lia.
    + now rewrite key_in_find, Hmiss.
  - intros k s Hf. unfold fill_missing. rewrite fill_find_other; [exact Hf|].
    intros i _ _. now rewrite key_in_find, Hf.
  - unfold fill_missing. now rewrite fill_length.
Qed.

(** What the marking of an absentee does to the value under the date. *)
Lemma absent_cell_spec (n : Z) (now : string) :
  (n = 1 -> forall v, DatabaseManager.absent_cell n now v = Some (Simple "A")) /\
  (1 < n ->
   DatabaseManager.absent_cell n now None
   = Some (Sessions (spec_backfill None n "A") now) /\
   (forall v, DatabaseManager.absent_cell n now (Some (Simple v))
              = Some (Sessions (spec_backfill (Some v) n "A") now)) /\
   (forall ss u, DatabaseManager.absent_cell n now (Some (Sessions ss u))
                 = Some (Sessions (fill_missing (map session_id ss) n "A" ss)
                                  now)) /\
   (forall st c, DatabaseManager.absent_cell n now (Some (Counted st c)) = None) /\
   DatabaseManager.absent_cell n now (Some Unrecognized) = None).
Proof.
  unfold DatabaseManager.absent_cell. split.
  - intros ->. reflexivity.
  - intros Hn. rewrite (proj2 (Z.eqb_neq n 1)) by lia. repeat split.
    + now rewrite (absent_fresh_empty n Hn).
    + intros v. now rewrite (absent_fresh_simple n v Hn).
Qed.

Lemma merge_at_other_dates (f : string -> option cell -> option cell)
    (now date d' : string) (att : attendance_map) :
  d' <> date ->
  attendance_get (merge_at f now date att) d' = attendance_get att d'.
Proof.
  intros Hd. unfold merge_at.
  destruct (f now (attendance_get att date)); [|reflexivity].
  now apply attendance_get_set_other.
Qed.

Lemma merge_at_this_date (f : string -> option cell -> option cell)
    (now date : string) (att : attendance_map) :
  (forall v, f now v <> Some Null) ->
  attendance_get (merge_at f now date att) date
  = value_after (attendance_get att date) (f now (attendance_get att date)).
Proof.
  intros Hn. unfold merge_at.
  destruct (f now (attendance_get att date)) as [c|] eqn:E; [|reflexivity].
  simpl. apply attendance_get_set. intros ->. now apply (Hn _ E).
Qed.

Lemma update_first_twice {A : Type} (p : A -> bool) (f g : A -> A) (l : list A) :
  (forall x, p x = true -> p (g x) = true) ->
  update_first p f (update_first p g l) = update_first p (fun x => f (g x)) l.
Proof.
  intros Hp. induction l as [|x l IH]; [reflexivity|]. simpl.
  destruct (p x) eqn:E; simpl.
  - now rewrite (Hp x E).
  - now rewrite E, IH.
Qed.

(** The managers store the cached statistics of the class as they
    were: [stop_qr_session] does not call [calculate_class_statistics]. *)
Lemma stop_keeps_cached_statistics (sd : option qr_session)
    (enr : list enrollment) (cd : class_data) (teacher_id date now : string)
    (cd' : class_data) (sd' : qr_session) (rep : stop_report) :
  DatabaseManager.stop_qr_session sd enr (Some cd) teacher_id date now
  = Return (cd', sd', rep) ->
  statistics cd' = statistics cd.
Proof.
  unfold DatabaseManager.stop_qr_session.
  destruct sd as [s|]; [|discriminate].
  destruct (negb (qr_status s =? "active")%string); [discriminate|].
  destruct (negb (qr_teacher_id s =? teacher_id)%string); [discriminate|].
  intros [= <- _ _]. reflexivity.
Qed.

(** After the stop of the scenario the class document still carries the
    statistics cached before the day, although one of its two students
    is now absent. *)
Lemma stop_statistics_example :
  exists cd' sd' rep,
    DatabaseManager.stop_qr_session (Some running_session) qr_enrollments
      (Some qr_class) "t1" "2024-03-04" "2024-03-04T10:30:00"
    = Return (cd', sd', rep) /\
    atRiskCount
      (DatabaseManager.calculate_class_statistics cd' "2024-03-04T10:30:00")
    = Some 1 /\
    option_map atRiskCount (statistics cd') = Some (Some 0).
Proof. do 3 eexists. repeat split. Qed.

(** Not every absence counted is recorded: in a third session of the
    day the student below, enrolled and not scanned, is counted as
    marked absent, but the legacy-counted value of the day is stored
    back as it was and holds no absence for session 3. *)
Lemma stop_counts_unrecorded_absence :
  ~ (forall (sd : qr_session) (enr : list enrollment) (cd : class_data)
            (teacher_id date now : string)
            (cd' : class_data) (sd' : qr_session) (rep : stop_report),
       DatabaseManager.stop_qr_session (Some sd) enr (Some cd) teacher_id date
                                       now
       = Return (cd', sd', rep) ->
       forall s', In s' (students cd') ->
         id_in (student_record_id s') (DatabaseManager.active_student_ids enr)
         = true ->
         id_in (student_record_id s') (scanned_students sd) = false ->
         marked_absent_at (session_number sd)
                          (attendance_get (attendance s') date)).
Proof.
  intros H.
  destruct (H third_session
              [mk_enrollment "u-yuri" (IdInt 2) "c1" "2" "active"
                             "2024-02-01T00:00:00" None None]
              counted_class "t1" "2024-03-04" "2024-03-04T14:30:00"
              _ _ _ eq_refl _ (or_introl eq_refl) eq_refl eq_refl)
    as [Hs | (ss & u & s & Hv & _)]; discriminate.
Qed.

(** The steps of [stop_qr_session], in both backends: the call is
    rejected when there is no active session for the class and date and
    when the caller is not the teacher of the session.  Otherwise every
    student of the roster who is actively enrolled and not in the
    scanned set goes through the absence merge for the session's number,
    the other students are left as they are, the session becomes stopped
    with the stop time, and the report counts the distinct scanned ids
    and the students that went through the merge; the document store
    writes the roster only to a class document of the caller.  The
    absence merge writes ['A'] for session 1; for a later session it
    back-fills an empty value or a simple mark as absent and inserts
    the missing ids of a sessions array as absent; no branch takes any
    other value. *)
Theorem stop_qr_session_spec (sd : qr_session) (enr : list enrollment)
    (cd : class_data) (teacher_id date now : string) :
  let n := session_number sd in
  let marked := fun s =>
    id_in (student_record_id s) (DatabaseManager.active_student_ids enr)
    && negb (id_in (student_record_id s) (scanned_students sd)) in
  let roster := map (fun s =>
    if marked s
    then update_student_attendance s
           (DatabaseManager.absent_attendance n now date (attendance s))
    else s) (students cd) in
  (* the file backend *)
  DatabaseManager.stop_qr_session None enr (Some cd) teacher_id date now
  = Raise "No active session" /\
  (qr_status sd <> "active" ->
   DatabaseManager.stop_qr_session (Some sd) enr (Some cd) teacher_id date now
   = Raise "No active session") /\
  (qr_status sd = "active" -> qr_teacher_id sd <> teacher_id ->
   DatabaseManager.stop_qr_session (Some sd) enr (Some cd) teacher_id date now
   = Raise "Unauthorized") /\
  (qr_status sd = "active" -> qr_teacher_id sd = teacher_id ->
   exists cd' sd' rep,
     DatabaseManager.stop_qr_session (Some sd) enr (Some cd) teacher_id date now
     = Return (cd', sd', rep) /\
     students cd' = roster /\
     qr_status sd' = "stopped" /\ stopped_at sd' = Some now /\
     session_number sd' = n /\ scanned_students sd' = scanned_students sd /\
     scanned_count rep
     = Z.of_nat (List.length (nodup record_id_eq_dec (scanned_students sd))) /\
     absent_count rep = count_of marked (students cd)) /\
  (* the document-store backend *)
  (forall docs expired new_code,
      find MongoDBManager.is_active docs = None ->
      MongoDBManager.stop_qr_session docs enr (Some cd) teacher_id date now
        expired new_code = Raise "No active session") /\
  (forall docs expired new_code,
      find MongoDBManager.is_active docs = Some sd ->
      qr_teacher_id sd <> teacher_id ->
      MongoDBManager.stop_qr_session docs enr (Some cd) teacher_id date now
        expired new_code = Raise "Unauthorized") /\
  (forall docs expired new_code,
      find MongoDBManager.is_active docs = Some sd ->
      qr_teacher_id sd = teacher_id ->
      c_teacher_id cd = teacher_id ->
      exists cd' rep,
        MongoDBManager.stop_qr_session docs enr (Some cd) teacher_id date now
          expired new_code
        = Return (cd',
                  update_first MongoDBManager.is_active
                    (fun s => MongoDBManager.stop_session now
                                (MongoDBManager._maybe_rotate_qr_session
                                   s expired now new_code))
                    docs,
                  rep) /\
        students cd' = roster /\
        scanned_count rep
        = Z.of_nat (List.length (nodup record_id_eq_dec (scanned_students sd))) /\
        absent_count rep = count_of marked (students cd)) /\
  (* the absence merge *)
  (forall att,
      attendance_get (DatabaseManager.absent_attendance n now date att) date
      = value_after (attendance_get att date)
          (DatabaseManager.absent_cell n now (attendance_get att date)) /\
      MongoDBManager.absent_attendance n now date att
      = DatabaseManager.absent_attendance n now date att /\
      forall d, d <> date ->
        attendance_get (DatabaseManager.absent_attendance n now date att) d
        = attendance_get att d) /\
  (n = 1 -> forall v, DatabaseManager.absent_cell n now v = Some (Simple "A")) /\
  (1 < n ->
   DatabaseManager.absent_cell n now None
   = Some (Sessions (spec_backfill None n "A") now) /\
   (forall v, DatabaseManager.absent_cell n now (Some (Simple v))
              = Some (Sessions (spec_backfill (Some v) n "A") now)) /\
   (forall ss u, exists ss',
       DatabaseManager.absent_cell n now (Some (Sessions ss u))
       = Some (Sessions ss' now) /\
       (forall i, 1 <= i <= n -> find_session (session_key i) ss' <> None) /\
       (forall i, 1 <= i <= n -> find_session (session_key i) ss = None ->
          find_session (session_key i) ss'
          = Some (mk_session (Some (session_key i))
                             (Some (qr_session_name i)) (Some "A"))) /\
       (forall k s, find_session k ss = Some s -> find_session k ss' = Some s) /\
       List.length ss'
       = (List.length ss + List.length (missing_ids n ss))%nat) /\
   (forall st c, DatabaseManager.absent_cell n now (Some (Counted st c)) = None) /\
   DatabaseManager.absent_cell n now (Some Unrecognized) = None).
Proof.
  cbv zeta.
  assert (Hroster :
            map (fun s =>
                   if DatabaseManager.to_mark
                        (DatabaseManager.active_student_ids enr)
                        (nodup record_id_eq_dec (scanned_students sd)) s
                   then update_student_attendance s
                          (DatabaseManager.absent_attendance
                             (session_number sd) now date (attendance s))
                   else s) (students cd)
            = map (fun s =>
                     if id_in (student_record_id s)
                              (DatabaseManager.active_student_ids enr)
                        && negb (id_in (student_record_id s)
                                       (scanned_students sd))
                     then update_student_attendance s
                            (DatabaseManager.absent_attendance
                               (session_number sd) now date (attendance s))
                     else s) (students cd)).
  { apply map_ext. intros s. now rewrite to_mark_nodup. }
  assert (Hcount :
            count_of (DatabaseManager.to_mark
                        (DatabaseManager.active_student_ids enr)
                        (nodup record_id_eq_dec (scanned_students sd)))
                     (students cd)
            = count_of (fun s =>
                          id_in (student_record_id s)
                                (DatabaseManager.active_student_ids enr)
                          && negb (id_in (student_record_id s)
                                         (scanned_students sd)))
                       (students cd)).
  { unfold count_of. do 2 f_equal. apply filter_ext. intros s.
    apply to_mark_nodup. }
  split; [reflexivity|].
  split.
  { intros Hs. unfold DatabaseManager.stop_qr_session.
    destruct (String.eqb_spec (qr_status sd) "active"); [contradiction|].
    reflexivity. }
  split.
  { intros Hs Ht. unfold DatabaseManager.stop_qr_session.
    rewrite Hs. simpl.
    destruct (String.eqb_spec (qr_teacher_id sd) teacher_id); [contradiction|].
    reflexivity. }
  split.
  { intros Hs Ht. unfold DatabaseManager.stop_qr_session.
    rewrite Hs, Ht, !String.eqb_refl. simpl.
    do 3 eexists. split; [reflexivity|]. simpl.
    repeat split; [exact Hroster | exact Hcount]. }
  split.
  { intros docs expired new_code Hf.
    unfold MongoDBManager.stop_qr_session, MongoDBManager.get_qr_session.
    now rewrite Hf. }
  split.
  { intros docs expired new_code Hf Ht.
    unfold MongoDBManager.stop_qr_session, MongoDBManager.get_qr_session.
    rewrite Hf.
    pose proof (find_some _ _ Hf) as [_ Ha].
    unfold MongoDBManager.is_active in Ha.
    assert (Hst : qr_status (MongoDBManager._maybe_rotate_qr_session
                               sd expired now new_code) = "active").
    { destruct expired; simpl; now apply String.eqb_eq. }
    assert (Hte : qr_teacher_id (MongoDBManager._maybe_rotate_qr_session
                                   sd expired now new_code) = qr_teacher_id sd)
      by (destruct expired; reflexivity).
    rewrite Hst, Hte. simpl.
    destruct (String.eqb_spec (qr_teacher_id sd) teacher_id); [contradiction|].
    reflexivity. }
  split.
  { intros docs expired new_code Hf Ht Hc.
    unfold MongoDBManager.stop_qr_session, MongoDBManager.get_qr_session.
    rewrite Hf.
    pose proof (find_some _ _ Hf) as [_ Ha].
    unfold MongoDBManager.is_active in Ha.
    assert (Hst : qr_status (MongoDBManager._maybe_rotate_qr_session
                               sd expired now new_code) = "active").
    { destruct expired; simpl; now apply String.eqb_eq. }
    assert (Hte : qr_teacher_id (MongoDBManager._maybe_rotate_qr_session
                                   sd expired now new_code) = qr_teacher_id sd)
      by (destruct expired; reflexivity).
    assert (Hnum : session_number (MongoDBManager._maybe_rotate_qr_session
                                     sd expired now new_code)
                   = session_number sd)
      by (destruct expired; reflexivity).
    assert (Hsc : scanned_students (MongoDBManager._maybe_rotate_qr_session
                                      sd expired now new_code)
                  = scanned_students sd)
      by (destruct expired; reflexivity).
    rewrite Hst, Hte, Hnum, Hsc, Ht, Hc, !String.eqb_refl. simpl.
    do 2 eexists. split.
    - rewrite update_first_twice; [reflexivity|].
      intros x Hx. unfold MongoDBManager.is_active in *.
      destruct expired; exact Hx.
    - simpl. repeat split; [exact Hroster | exact Hcount]. }
  split.
  { intros att. split; [|split].
    - apply (merge_at_this_date (DatabaseManager.absent_cell (session_number sd))).
      intros v. apply scan_not_null.
    - reflexivity.
    - intros d Hd.
      now apply (merge_at_other_dates
                   (DatabaseManager.absent_cell (session_number sd))). }
  destruct (absent_cell_spec (session_number sd) now) as [H1 Hn].
  split; [exact H1|].
  intros Hgt. destruct (Hn Hgt) as (He & Hs & Hss & Hc & Hu).
  repeat split; trivial.
  intros ss u. eexists. split; [apply Hss|].
  apply absent_sessions_spec.
Qed.

Lemma stop_qr_session_spec_witness :
  qr_status running_session = "active" /\
  qr_teacher_id running_session = "t1" /\
  exists cd' sd' rep,
    DatabaseManager.stop_qr_session (Some running_session) qr_enrollments
      (Some qr_class) "t1" "2024-03-04" "2024-03-04T10:30:00"
    = Return (cd', sd', rep) /\
    map attendance (students cd')
    = [[("2024-03-04", Simple "P")]; [("2024-03-04", Simple "A")]] /\
    qr_status sd' = "stopped" /\
    scanned_count rep = 1 /\ absent_count rep = 1.
Proof.
  split; [reflexivity|]. split; [reflexivity|].
  destruct (stop_qr_session_spec running_session qr_enrollments qr_class
              "t1" "2024-03-04" "2024-03-04T10:30:00")
    as (_ & _ & _ & H & _).
  destruct (H eq_refl eq_refl)
    as (cd' & sd' & rep & E & Hr & Hq & _ & _ & _ & Hc & Ha).
  exists cd', sd', rep. rewrite Hr, Hc, Ha.
  repeat split; trivial.
Defined.

(** C7. Stops that return their report without doing what the claim
    says.  (1) The stop of the scenario, in which one of the two
    students did not scan: both managers store the class with the
    statistics cached on 2024-03-01 ([atRiskCount] 0), although the
    roster as left has one student at risk; neither recomputes the
    class statistics.  (2) The stop of a third session on a student
    whose day is stored in the legacy-counted shape
    [{status: 'P', count: 2}]: both managers count the student as
    marked absent and store the value back as it was, so no absence is
    recorded for session 3.  (3) In the document store, the stop by
    [t1] of the session [t1] started on the class document of [t2]:
    the call returns the report of a success with one student marked
    absent, the session is stopped and the class document is not
    written; the file manager fails there. *)
Theorem stop_skips_statistics_and_counted_values :
  (* (1) the cached statistics are stored back *)
  (exists cd' sd' rep,
     DatabaseManager.stop_qr_session (Some running_session) qr_enrollments
       (Some qr_class) "t1" "2024-03-04" "2024-03-04T10:30:00"
     = Return (cd', sd', rep) /\
     map attendance (students cd')
     = [[("2024-03-04", Simple "P")]; [("2024-03-04", Simple "A")]] /\
     statistics cd' = statistics qr_class /\
     option_map atRiskCount (statistics cd') = Some (Some 0) /\
     atRiskCount
       (DatabaseManager.calculate_class_statistics cd' "2024-03-04T10:30:00")
     = Some 1) /\
  (exists cd' docs' rep,
     MongoDBManager.stop_qr_session [running_session] qr_enrollments
       (Some qr_class) "t1" "2024-03-04" "2024-03-04T10:30:00" false
       "Z3R8T1WQ"
     = Return (cd', docs', rep) /\
     map attendance (students cd')
     = [[("2024-03-04", Simple "P")]; [("2024-03-04", Simple "A")]] /\
     statistics cd' = statistics qr_class) /\
  (* (2) an absence counted and not recorded *)
  (exists cd' sd' rep,
     DatabaseManager.stop_qr_session (Some third_session) counted_enrollments
       (Some counted_class) "t1" "2024-03-04" "2024-03-04T14:30:00"
     = Return (cd', sd', rep) /\
     absent_count rep = 1 /\
     map attendance (students cd')
     = [[("2024-03-04", Counted (Some "P") (Some 2))]] /\
     forall s, In s (students cd') ->
       ~ marked_absent_at 3 (attendance_get (attendance s) "2024-03-04")) /\
  (exists cd' docs' rep,
     MongoDBManager.stop_qr_session [third_session] counted_enrollments
       (Some counted_class) "t1" "2024-03-04" "2024-03-04T14:30:00" false
       "Z3R8T1WQ"
     = Return (cd', docs', rep) /\
     absent_count rep = 1 /\
     map attendance (students cd')
     = [[("2024-03-04", Counted (Some "P") (Some 2))]]) /\
  (* (3) the class document of another teacher *)
  (exists docs' rep,
     MongoDBManager.stop_qr_session [running_session] qr_enrollments
       (Some colleague_class) "t1" "2024-03-04" "2024-03-04T10:30:00" false
       "Z3R8T1WQ"
     = Return (colleague_class, docs', rep) /\
     absent_count rep = 1 /\
     map qr_status docs' = ["stopped"]) /\
  DatabaseManager.stop_qr_session (Some running_session) qr_enrollments
    None "t1" "2024-03-04" "2024-03-04T10:30:00"
  = Raise "AttributeError".
Proof.
  split; [do 3 eexists; repeat split|].
  split; [do 3 eexists; repeat split|].
  split.
  { do 3 eexists. split; [reflexivity|]. split; [reflexivity|].
    split; [reflexivity|].
    intros s [<-|[]] [Hs | (ss & u & e & Hv & _)]; discriminate. }
  split; [do 3 eexists; repeat split|].
  split; [do 2 eexists; repeat split | reflexivity].
Qed.

(** ** Enrollment *)

Lemma split_unique {A B : Type} (key : A -> B) (l : list A) (e : A) :
  NoDup (map key l) -> In e l ->
  exists l1 l2,
    l = (l1 ++ e :: l2)%list /\
    (forall x, In x l1 -> key x <> key e) /\
    (forall x, In x l2 -> key x <> key e).
Proof.
  intros Hnd Hin. apply in_split in Hin. destruct Hin as (l1 & l2 & ->).
  exists l1, l2. split; [reflexivity|].
  rewrite map_app in Hnd. simpl in Hnd.
  pose proof (NoDup_remove_2 _ _ _ Hnd) as Hnot.
  split; intros x Hx E; apply Hnot, in_or_app; [left | right];
    rewrite <- E; now apply in_map.
Qed.

Lemma find_middle {A : Type} (p : A -> bool) (l1 l2 : list A) (e : A) :
  (forall x, In x l1 -> p x = false) -> p e = true ->
  find p (l1 ++ e :: l2) = Some e.
Proof.
  intros H1 He. induction l1 as [|x l1 IH]; simpl.
  - now rewrite He.
  - rewrite (H1 x (or_introl eq_refl)). apply IH.
    intros y Hy. apply H1. now right.
Qed.

Lemma update_first_middle {A : Type} (p : A -> bool) (f : A -> A)
    (l1 l2 : list A) (e : A) :
  (forall x, In x l1 -> p x = false) -> p e = true ->
  update_first p f (l1 ++ e :: l2) = (l1 ++ f e :: l2)%list.
Proof.
  intros H1 He. induction l1 as [|x l1 IH]; simpl.
  - now rewrite He.
  - rewrite (H1 x (or_introl eq_refl)). f_equal. apply IH.
    intros y Hy. apply H1. now right.
Qed.

Lemma map_update_first {A B : Type} (g : A -> B) (p : A -> bool) (f : A -> A)
    (l : list A) :
  (forall x, g (f x) = g x) -> map g (update_first p f l) = map g l.
Proof.
  intros H. induction l as [|x l IH]; [reflexivity|]. simpl.
  destruct (p x); simpl; [now rewrite H | now rewrite IH].
Qed.

Lemma refresh_keeps_roster (te : bool) (enr : list enrollment)
    (cd : class_data) (now : string) :
  students (DatabaseManager.refresh_statistics te enr cd now) = students cd /\
  c_teacher_id (DatabaseManager.refresh_statistics te enr cd now)
  = c_teacher_id cd.
Proof. destruct te; split; reflexivity. Qed.

Lemma find_on_roster (rid : record_id) (sts : list student) :
  (exists s, In s sts /\ student_record_id s = rid) ->
  exists s, find (fun s => record_id_eqb (student_record_id s) rid) sts = Some s.
Proof.
  intros (s & Hin & Hid).
  destruct (find (fun s => record_id_eqb (student_record_id s) rid) sts)
    as [s'|] eqn:E; [now exists s'|].
  pose proof (find_none _ _ E s Hin) as H. simpl in H.
  rewrite Hid in H. now rewrite (proj2 (record_id_eqb_eq rid rid) eq_refl) in H.
Qed.

(** C9. Unenrolling an actively enrolled student flips that enrollment
    to inactive (with the time of leaving) and leaves every enrollment's
    record id, every other enrollment, and the whole roster with its
    attendance as they were; enrolling the student again reactivates
    that enrollment with its original student record id: no enrollment
    and no student record is added, and every attendance mapping of the
    roster is as before. *)
Theorem unenroll_reenroll_keeps_history
    (enrollments : list enrollment) (cd : class_data) (e : enrollment)
    (student_id class_id : string) (info : DatabaseManager.student_info)
    (now1 now2 : string) (fresh_id : Z) (te1 te2 : bool) :
  NoDup (map e_student_id enrollments) ->
  In e enrollments ->
  e_student_id e = student_id ->
  e_status e = "active" ->
  c_teacher_id cd <> "" ->
  (exists s, In s (students cd)
             /\ student_record_id s = e_student_record_id e) ->
  exists l1 l2 cd1,
    enrollments = (l1 ++ e :: l2)%list /\
    DatabaseManager.unenroll_student enrollments (Some cd) student_id now1 te1
    = (true, (l1 ++ DatabaseManager.deactivate now1 e :: l2)%list, Some cd1) /\
    e_status (DatabaseManager.deactivate now1 e) = "inactive" /\
    e_student_record_id (DatabaseManager.deactivate now1 e)
    = e_student_record_id e /\
    students cd1 = students cd /\
    exists cd2 rep,
      DatabaseManager.enroll_student (Some cd1)
        (l1 ++ DatabaseManager.deactivate now1 e :: l2)%list
        student_id class_id info now2 fresh_id te2
      = Return ((l1 ++ DatabaseManager.reactivate info now2
                         (DatabaseManager.deactivate now1 e) :: l2)%list,
                cd2, rep) /\
      e_status (DatabaseManager.reactivate info now2
                  (DatabaseManager.deactivate now1 e)) = "active" /\
      e_student_record_id (DatabaseManager.reactivate info now2
                             (DatabaseManager.deactivate now1 e))
      = e_student_record_id e /\
      DatabaseManager.r_status rep = "re-enrolled" /\
      DatabaseManager.r_student_record_id rep = e_student_record_id e /\
      map student_record_id (students cd2) = map student_record_id (students cd) /\
      map attendance (students cd2) = map attendance (students cd).
Proof.
  intros Hnd Hin Hsid Hact Hteacher Hrec.
  destruct (split_unique e_student_id enrollments e Hnd Hin)
    as (l1 & l2 & -> & H1 & H2).
  rewrite Hsid in H1, H2.
  assert (Hl1 : forall p : enrollment -> bool, forall x, In x l1 ->
                  ((e_student_id x =? student_id)%string && p x) = false).
  { intros p x Hx. rewrite (proj2 (String.eqb_neq _ _) (H1 x Hx)).
    reflexivity. }
  assert (Hl2 : forall p : enrollment -> bool, forall x, In x l2 ->
                  ((e_student_id x =? student_id)%string && p x) = false).
  { intros p x Hx. rewrite (proj2 (String.eqb_neq _ _) (H2 x Hx)).
    reflexivity. }
  set (e1 := DatabaseManager.deactivate now1 e).
  set (cd1 := DatabaseManager.refresh_statistics te1 (l1 ++ e1 :: l2) cd now1).
  exists l1, l2, cd1. split; [reflexivity|].
  assert (Hne : (c_teacher_id cd =? "")%string = false)
    by now apply String.eqb_neq.
  split.
  { unfold DatabaseManager.unenroll_student.
    rewrite (find_middle _ l1 l2 e);
      [| intros x Hx; apply (Hl1 (fun x => (e_status x =? "active")%string) x Hx)
       | now rewrite Hsid, Hact, !String.eqb_refl ].
    rewrite (update_first_middle _ _ l1 l2 e);
      [| intros x Hx; apply (Hl1 (fun x => (e_status x =? "active")%string) x Hx)
       | now rewrite Hsid, Hact, !String.eqb_refl ].
    now rewrite Hne. }
  split; [reflexivity|]. split; [reflexivity|].
  destruct (refresh_keeps_roster te1 (l1 ++ e1 :: l2) cd now1) as [Hst1 Ht1].
  fold cd1 in Hst1, Ht1. split; [exact Hst1|].
  unfold DatabaseManager.enroll_student. rewrite Ht1, Hne.
  assert (Hnone : existsb (fun x => (e_student_id x =? student_id)%string
                                    && (e_status x =? "active")%string)
                          (l1 ++ e1 :: l2) = false).
  { rewrite existsb_app. simpl.
    assert (Hf : forall l,
               (forall x, In x l ->
                  ((e_student_id x =? student_id)%string
                   && (e_status x =? "active")%string) = false) ->
               existsb (fun x => (e_student_id x =? student_id)%string
                                 && (e_status x =? "active")%string) l = false).
    { induction l as [|x l IH]; intros H; [reflexivity|]. simpl.
      rewrite (H x (or_introl eq_refl)). apply IH.
      intros y Hy. apply H. now right. }
    rewrite (Hf l1), (Hf l2), andb_false_r; [reflexivity | |].
    - intros x Hx. apply (Hl2 (fun x => (e_status x =? "active")%string) x Hx).
    - intros x Hx. apply (Hl1 (fun x => (e_status x =? "active")%string) x Hx). }
  rewrite Hnone.
  assert (Hfind : find (fun x => (e_student_id x =? student_id)%string)
                       (l1 ++ e1 :: l2) = Some e1).
  { apply find_middle.
    - intros x Hx. apply String.eqb_neq. now apply H1.
    - simpl. rewrite Hsid. apply String.eqb_refl. }
  rewrite Hfind.
  rewrite (update_first_middle _ _ l1 l2 e1);
    [| intros x Hx; apply String.eqb_neq; now apply H1
     | simpl; rewrite Hsid; apply String.eqb_refl ].
  rewrite Hst1.
  destruct (find_on_roster (e_student_record_id e) (students cd) Hrec)
    as [s0 Hs0].
  change (e_student_record_id e1) with (e_student_record_id e).
  rewrite Hs0.
  do 2 eexists. split; [reflexivity|].
  split; [reflexivity|]. split; [reflexivity|].
  split; [reflexivity|]. split; [reflexivity|].
  destruct (refresh_keeps_roster te2
              (l1 ++ DatabaseManager.reactivate info now2 e1 :: l2)
              (DatabaseManager.set_students cd1
                 (update_first
                    (fun s => record_id_eqb (student_record_id s)
                                            (e_student_record_id e))
                    (DatabaseManager.rename_student info) (students cd)))
              now2) as [Hst2 _].
  rewrite Hst2. simpl.
  split; apply map_update_first; reflexivity.
Qed.

Lemma unenroll_reenroll_keeps_history_witness :
  NoDup (map e_student_id history_enrollments) /\
  In asha_enrollment history_enrollments /\
  c_teacher_id history_class <> "" /\
  exists enr1 cd1 enr2 cd2 rep,
    DatabaseManager.unenroll_student history_enrollments (Some history_class)
      "u-asha" "2024-03-06T09:00:00" true = (true, enr1, Some cd1) /\
    DatabaseManager.enroll_student (Some cd1) enr1 "u-asha" "c1"
      (DatabaseManager.mk_student_info "Asha" "7" "asha@example.org")
      "2024-03-08T09:00:00" 1709888400000 true = Return (enr2, cd2, rep) /\
    DatabaseManager.r_student_record_id rep = IdInt 42 /\
    map attendance (students cd2) = map attendance (students history_class).
Proof.
  assert (Hnd : NoDup (map e_student_id history_enrollments)).
  { simpl. repeat constructor; simpl; intuition discriminate. }
  assert (Hin : In asha_enrollment history_enrollments)
    by (right; left; reflexivity).
  assert (Ht : c_teacher_id history_class <> "") by discriminate.
  split; [exact Hnd|]. split; [exact Hin|]. split; [exact Ht|].
  destruct (unenroll_reenroll_keeps_history history_enrollments history_class
              asha_enrollment "u-asha" "c1"
              (DatabaseManager.mk_student_info "Asha" "7" "asha@example.org")
              "2024-03-06T09:00:00" "2024-03-08T09:00:00" 1709888400000
              true true Hnd Hin eq_refl eq_refl Ht)
    as (l1 & l2 & cd1 & _ & Hu & _ & _ & _ & cd2 & rep & He & _ & _ & _ & Hr
        & _ & Ha).
  { eexists. split; [right; left; reflexivity | reflexivity]. }
  do 5 eexists. split; [exact Hu|]. split; [exact He|].
  split; [exact Hr | exact Ha].
Defined.

(** ** The scan as a whole *)

(** X24. [scan_qr_code] of the file backend rejects a scan without an
    active session with "No active QR session", a scan with a code that
    is not the current one with "Invalid or expired QR code", and a scan
    by a student who is not actively enrolled with "Student not
    actively enrolled in this class", in this order; otherwise, the
    record of the enrollment being on the roster, it runs the scan
    merge on that record and adds the record id to the scanned set of
    the session, which stays active under its number. *)
Lemma db_scan_qr_code_spec (sd : qr_session) (enr : list enrollment)
    (cd : class_data) (student_id qr_code_value date now : string) :
  DatabaseManager.scan_qr_code None enr (Some cd) student_id qr_code_value
                               date now
  = Raise "No active QR session" /\
  (qr_status sd <> "active" ->
   DatabaseManager.scan_qr_code (Some sd) enr (Some cd) student_id
                                qr_code_value date now
   = Raise "No active QR session") /\
  (qr_status sd = "active" -> current_code sd <> qr_code_value ->
   DatabaseManager.scan_qr_code (Some sd) enr (Some cd) student_id
                                qr_code_value date now
   = Raise "Invalid or expired QR code") /\
  (qr_status sd = "active" -> current_code sd = qr_code_value ->
   DatabaseManager.find_active_enrollment enr student_id = None ->
   DatabaseManager.scan_qr_code (Some sd) enr (Some cd) student_id
                                qr_code_value date now
   = Raise "Student not actively enrolled in this class") /\
  (forall e,
      qr_status sd = "active" -> current_code sd = qr_code_value ->
      DatabaseManager.find_active_enrollment enr student_id = Some e ->
      (exists s, In s (students cd)
                 /\ student_record_id s = e_student_record_id e) ->
      exists cd' sd',
        DatabaseManager.scan_qr_code (Some sd) enr (Some cd) student_id
                                     qr_code_value date now
        = Return (cd', sd') /\
        students cd'
        = update_first
            (fun s => record_id_eqb (student_record_id s)
                                    (e_student_record_id e))
            (fun s => update_student_attendance s
                        (DatabaseManager.scan_attendance (session_number sd)
                           now date (attendance s)))
            (students cd) /\
        id_in (e_student_record_id e) (scanned_students sd') = true /\
        qr_status sd' = "active" /\ session_number sd' = session_number sd).
Proof.
  unfold DatabaseManager.scan_qr_code.
  split; [reflexivity|]. split.
  { intros Hs. destruct (String.eqb_spec (qr_status sd) "active");
      [contradiction | reflexivity]. }
  split.
  { intros Hs Hc. rewrite Hs. simpl.
    destruct (String.eqb_spec (current_code sd) qr_code_value);
      [contradiction | reflexivity]. }
  split.
  { intros Hs Hc He. rewrite Hs, Hc, !String.eqb_refl, He. reflexivity. }
  intros e Hs Hc He Hrec.
  rewrite Hs, Hc, !String.eqb_refl, He. simpl.
  assert (Hex : existsb (fun s => record_id_eqb (student_record_id s)
                                                (e_student_record_id e))
                        (students cd) = true).
  { apply existsb_exists. destruct Hrec as (s & Hin & Hid).
    exists s. split; [exact Hin | now apply record_id_eqb_eq]. }
  rewrite Hex. simpl. do 2 eexists. split; [reflexivity|]. simpl.
  repeat split.
  destruct (id_in (e_student_record_id e) (scanned_students sd)) eqn:E;
    [exact E|].
  unfold id_in. rewrite existsb_app. simpl.
  rewrite (proj2 (record_id_eqb_eq _ _) eq_refl). now rewrite orb_true_r.
Qed.

(** ** Scenarios of the specification *)

(** A second QR session on a day that holds a simple ['P']: the scan
    keeps the mark as session 1 and records session 2 as present. *)
Lemma second_session_keeps_first_mark :
  DatabaseManager.scan_attendance 2 "2024-03-04T14:00:00" "2024-03-04"
    [("2024-03-04", Simple "P")]
  = [("2024-03-04",
      Sessions [mk_session (Some "session_1") (Some "QR Session 1") (Some "P");
                mk_session (Some "session_2") (Some "QR Session 2") (Some "P")]
               "2024-03-04T14:00:00")] /\
  MongoDBManager.scan_attendance 2 "2024-03-04T14:00:00" "2024-03-04"
    [("2024-03-04", Simple "P")]
  = DatabaseManager.scan_attendance 2 "2024-03-04T14:00:00" "2024-03-04"
      [("2024-03-04", Simple "P")].
Proof. split; reflexivity. Qed.

(** The three stored shapes of one present mark decode to the same
    valid entries. *)
Lemma one_present_three_shapes :
  map session_status (spec_decode (Some (Simple "P"))) = [Some "P"] /\
  map session_status (spec_decode (Some (Counted (Some "P") (Some 1))))
  = [Some "P"] /\
  map session_status
      (spec_decode
         (Some (Sessions [mk_session (Some "session_1") (Some "Session 1")
                                     (Some "P")] "")))
  = [Some "P"].
Proof. repeat split. Qed.

(** * The other operations of the managers and the endpoints *)

(** ** Lists *)

Lemma existsb_find {A : Type} (p : A -> bool) (l : list A) :
  existsb p l = match find p l with Some _ => true | None => false end.
Proof.
  induction l as [|x l IH]; simpl; [reflexivity|].
  destruct (p x); [reflexivity | exact IH].
Qed.

Lemma find_split {A : Type} (p : A -> bool) (l : list A) (x : A) :
  find p l = Some x ->
  exists l1 l2,
    l = (l1 ++ x :: l2)%list /\ (forall y, In y l1 -> p y = false)
    /\ p x = true.
Proof.
  induction l as [|y l IH]; simpl; [discriminate|].
  destruct (p y) eqn:E.
  - intros [= ->]. exists [], l. repeat split; [intros ? []| exact E].
  - intros H. destruct (IH H) as (l1 & l2 & -> & H1 & Hx).
    exists (y :: l1), l2. repeat split; [|exact Hx].
    intros z [<-|Hz]; [exact E | now apply H1].
Qed.

Lemma find_app_none {A : Type} (p : A -> bool) (l1 l2 : list A) :
  find p l1 = None -> find p (l1 ++ l2) = find p l2.
Proof.
  induction l1 as [|x l1 IH]; simpl; [reflexivity|].
  destruct (p x); [discriminate | exact IH].
Qed.

Lemma find_app_some {A : Type} (p : A -> bool) (l1 l2 : list A) (x : A) :
  find p l1 = Some x -> find p (l1 ++ l2) = Some x.
Proof.
  induction l1 as [|y l1 IH]; simpl; [discriminate|].
  destruct (p y); [trivial | exact IH].
Qed.

(** The first element satisfying [p] after [update_first], when the
    rewriting keeps [p]. *)
Lemma find_update_first {A : Type} (p : A -> bool) (f : A -> A) (l : list A) :
  (forall x, p x = true -> p (f x) = true) ->
  find p (update_first p f l) = option_map f (find p l).
Proof.
  intros H. induction l as [|x l IH]; simpl; [reflexivity|].
  destruct (p x) eqn:E; simpl.
  - now rewrite (H x E).
  - now rewrite E.
Qed.

(** A search for something else is not disturbed by [update_first]. *)
Lemma find_update_first_other {A : Type} (p q : A -> bool) (f : A -> A)
    (l : list A) :
  (forall x, p x = true -> q x = false /\ q (f x) = false) ->
  find q (update_first p f l) = find q l.
Proof.
  intros H. induction l as [|x l IH]; simpl; [reflexivity|].
  destruct (p x) eqn:E; simpl.
  - destruct (H x E) as [-> ->]. reflexivity.
  - destruct (q x); [reflexivity | exact IH].
Qed.

Lemma find_filter_none {A : Type} (p : A -> bool) (l : list A) :
  find p (filter (fun x => negb (p x)) l) = None.
Proof.
  induction l as [|x l IH]; simpl; [reflexivity|].
  destruct (p x) eqn:E; simpl; [exact IH | now rewrite E].
Qed.

Lemma find_filter_other {A : Type} (p q : A -> bool) (l : list A) :
  (forall x, q x = true -> p x = true) ->
  find q (filter p l) = find q l.
Proof.
  intros H. induction l as [|x l IH]; simpl; [reflexivity|].
  destruct (p x) eqn:E; simpl.
  - destruct (q x); [reflexivity | exact IH].
  - destruct (q x) eqn:Eq; [|exact IH].
    rewrite (H x Eq) in E. discriminate.
Qed.

Lemma filter_out_length_lt {A : Type} (p : A -> bool) (l : list A) :
  (List.length (filter (fun x => negb (p x)) l) <? List.length l)%nat
  = existsb p l.
Proof.
  induction l as [|x l IH]; [reflexivity|].
  cbn [filter existsb].
  pose proof (filter_length_le (fun x => negb (p x)) l) as Hle.
  destruct (p x); cbn [List.length negb orb].
  - apply Nat.ltb_lt. lia.
  - rewrite <- IH.
    destruct (Nat.ltb_spec (List.length (filter (fun x => negb (p x)) l))
                           (List.length l));
      [apply Nat.ltb_lt | apply Nat.ltb_ge]; lia.
Qed.

Lemma filter_twice {A : Type} (p q : A -> bool) (l : list A) :
  filter p (filter q l) = filter (fun x => q x && p x) l.
Proof.
  induction l as [|x l IH]; simpl; [reflexivity|].
  destruct (q x); simpl; [destruct (p x); now rewrite IH | exact IH].
Qed.

Lemma filter_true {A : Type} (p : A -> bool) (l : list A) :
  forallb p l = true -> filter p l = l.
Proof.
  induction l as [|x l IH]; simpl; [reflexivity|].
  intros H. apply andb_prop in H. destruct H as [-> H]. now rewrite IH.
Qed.

Lemma fold_left_pointwise {A B : Type} (f g : A -> B -> A) (l : list B) (a : A) :
  (forall x y, f x y = g x y) -> fold_left f l a = fold_left g l a.
Proof.
  intros H. revert a. induction l as [|y l IH]; intros a; [reflexivity|].
  simpl. now rewrite H, IH.
Qed.

Lemma Forall2_update_first {A : Type} (R : A -> A -> Prop) (p : A -> bool)
    (f : A -> A) (l : list A) :
  (forall x, R x x) -> (forall x, p x = true -> R x (f x)) ->
  Forall2 R l (update_first p f l).
Proof.
  intros Hr Hf. induction l as [|x l IH]; simpl; [constructor|].
  destruct (p x) eqn:E.
  - constructor; [now apply Hf|]. clear IH. induction l; constructor; auto.
  - constructor; [apply Hr | exact IH].
Qed.

Lemma Forall2_map_if {A : Type} (R : A -> A -> Prop) (p : A -> bool)
    (f : A -> A) (l : list A) :
  (forall x, p x = false -> R x x) -> (forall x, p x = true -> R x (f x)) ->
  Forall2 R l (map (fun x => if p x then f x else x) l).
Proof.
  intros Hr Hf. induction l as [|x l IH]; simpl; constructor; [|exact IH].
  destruct (p x) eqn:E; [now apply Hf | now apply Hr].
Qed.

Lemma update_first_same {A : Type} (p : A -> bool) (l : list A) :
  update_first p (fun x => x) l = l.
Proof.
  induction l as [|x l IH]; [reflexivity|].
  simpl. destruct (p x); [reflexivity | now rewrite IH].
Qed.

Lemma map_id_ext {A : Type} (f : A -> A) (l : list A) :
  (forall x, In x l -> f x = x) -> map f l = l.
Proof.
  intros H. induction l as [|x l IH]; [reflexivity|].
  simpl. rewrite (H x (or_introl eq_refl)), IH; [reflexivity|].
  intros y Hy. apply H. now right.
Qed.

Lemma unique_by_key {A B : Type} (key : A -> B) (l : list A) (x y : A) :
  NoDup (map key l) -> In x l -> In y l -> key x = key y -> x = y.
Proof.
  intros Hnd Hx Hy E.
  destruct (split_unique key l x Hnd Hx) as (l1 & l2 & -> & H1 & H2).
  apply in_app_or in Hy. destruct Hy as [Hy|[Hy|Hy]].
  - exfalso. now apply (H1 y Hy).
  - now symmetry.
  - exfalso. now apply (H2 y Hy).
Qed.

Lemma NoDup_map_injective {A B : Type} (f : A -> B) (l : list A) :
  (forall x y, f x = f y -> x = y) -> NoDup l -> NoDup (map f l).
Proof.
  intros Hf Hl. induction Hl as [|x l Hx Hl IH]; simpl; constructor.
  - intros Hin. apply in_map_iff in Hin. destruct Hin as (y & E & Hy).
    apply Hf in E. now subst.
  - exact IH.
Qed.

Lemma tuple4_eq {A B C D : Type} (a a' : A) (b b' : B) (c c' : C) (d d' : D) :
  a = a' -> b = b' -> c = c' -> d = d' -> (a, b, c, d) = (a', b', c', d').
Proof. congruence. Qed.

Lemma fold_max_nonneg (l : list Z) : 0 <= fold_right Z.max 0 l.
Proof. induction l; simpl; lia. Qed.

Lemma fold_max_app (l1 l2 : list Z) :
  fold_right Z.max 0 (l1 ++ l2)
  = Z.max (fold_right Z.max 0 l1) (fold_right Z.max 0 l2).
Proof.
  induction l1 as [|x l1 IH]; simpl.
  - pose proof (fold_max_nonneg l2). lia.
  - rewrite IH. lia.
Qed.

Lemma fold_max_ge (l : list Z) (x : Z) : In x l -> x <= fold_right Z.max 0 l.
Proof.
  induction l as [|y l IH]; simpl; [contradiction|].
  intros [->|H]; [lia | specialize (IH H); lia].
Qed.

Lemma fold_max_zero {A : Type} (f : A -> Z) (l : list A) :
  (forall x, In x l -> f x = 0) -> fold_right Z.max 0 (map f l) = 0.
Proof.
  induction l as [|x l IH]; intros H; [reflexivity|].
  cbn [map fold_right]. rewrite (H x (or_introl eq_refl)).
  rewrite IH; [reflexivity|]. intros y Hy. apply H. now right.
Qed.

Lemma fold_max_left_ge (l : list Z) (a : Z) :
  a <= fold_left Z.max l a /\ forall x, In x l -> x <= fold_left Z.max l a.
Proof.
  revert a. induction l as [|y l IH]; intros a; simpl.
  - split; [lia | contradiction].
  - destruct (IH (Z.max a y)) as [H1 H2]. split; [lia|].
    intros x [->|Hx]; [lia | now apply H2].
Qed.


Lemma count_of_all {A : Type} (p : A -> bool) (l : list A) :
  forallb p l = true -> count_of p l = Z.of_nat (List.length l).
Proof.
  intros H. unfold count_of. f_equal. f_equal.
  induction l as [|x l IH]; simpl in *; [reflexivity|].
  apply andb_prop in H. destruct H as [-> H]. simpl. now rewrite IH.
Qed.

Lemma count_of_filter_same {A : Type} (p : A -> bool) (l : list A) :
  count_of p (filter p l) = count_of p l.
Proof.
  unfold count_of. f_equal. f_equal.
  induction l as [|x l IH]; simpl; [reflexivity|].
  destruct (p x) eqn:E; simpl; [rewrite E; now f_equal | exact IH].
Qed.

Lemma count_of_none {A : Type} (p : A -> bool) (l : list A) :
  find p l = None -> count_of p l = 0.
Proof.
  intros H. induction l as [|x l IH]; [reflexivity|].
  simpl in H. rewrite count_of_cons.
  destruct (p x); [discriminate | now rewrite IH].
Qed.

Lemma count_zero_find {A : Type} (p : A -> bool) (l : list A) :
  count_of p l = 0 -> find p l = None.
Proof.
  induction l as [|x l IH]; [reflexivity|].
  rewrite count_of_cons. simpl. pose proof (count_of_nonneg p l).
  destruct (p x); [lia | exact IH].
Qed.

Lemma count_of_update_first_off {A : Type} (p : A -> bool) (f : A -> A)
    (l : list A) :
  (forall x, p x = true -> p (f x) = false) ->
  count_of p (update_first p f l)
  = count_of p l - (if existsb p l then 1 else 0).
Proof.
  intros H. induction l as [|x l IH]; [reflexivity|].
  cbn [update_first existsb]. destruct (p x) eqn:E.
  - rewrite !count_of_cons, E, (H x E). cbn [orb]. lia.
  - rewrite !count_of_cons, E, IH. cbn [orb]. lia.
Qed.

Lemma id_in_app (x : record_id) (l1 l2 : list record_id) :
  id_in x (l1 ++ l2) = id_in x l1 || id_in x l2.
Proof. unfold id_in. apply existsb_app. Qed.

(** ** The life of a QR session in the file backend *)

Ltac qr_fields :=
  cbn [qr_class_id qr_teacher_id qr_date session_number started_at
       qr_rotation_interval current_code code_generated_at last_rotation
       scanned_students qr_status last_scan_at stopped_at].

Lemma scan_attendance_other (n : Z) (now date d : string)
    (att : attendance_map) :
  d <> date ->
  attendance_get (DatabaseManager.scan_attendance n now date att) d
  = attendance_get att d.
Proof.
  intros Hd. unfold DatabaseManager.scan_attendance.
  destruct (DatabaseManager.scan_cell n now _); [|reflexivity].
  now apply attendance_get_set_other.
Qed.

(** What a committed scan is made of. *)
Lemma scan_returns (sd sd' : qr_session) (enr : list enrollment)
    (cd : option class_data) (cd' : class_data)
    (student_id qr_code_value date now : string) :
  DatabaseManager.scan_qr_code (Some sd) enr cd student_id qr_code_value date
    now = Return (cd', sd') ->
  exists e cd0,
    cd = Some cd0 /\
    qr_status sd = "active" /\ current_code sd = qr_code_value /\
    DatabaseManager.find_active_enrollment enr student_id = Some e /\
    students cd'
    = update_first (has_id (e_student_record_id e))
        (fun s => update_student_attendance s
                    (DatabaseManager.scan_attendance (session_number sd) now
                       date (attendance s)))
        (students cd0) /\
    cd' = DatabaseManager.set_students cd0 (students cd') /\
    scanned_students sd'
    = (if id_in (e_student_record_id e) (scanned_students sd)
       then scanned_students sd
       else (scanned_students sd ++ [e_student_record_id e])%list) /\
    sd' = mk_qr_session (qr_class_id sd) (qr_teacher_id sd) (qr_date sd)
            (session_number sd) (started_at sd) (qr_rotation_interval sd)
            (current_code sd) (code_generated_at sd) (last_rotation sd)
            (scanned_students sd') (qr_status sd) (Some now) (stopped_at sd).
Proof.
  unfold DatabaseManager.scan_qr_code.
  destruct (String.eqb_spec (qr_status sd) "active") as [Ha|]; [|discriminate].
  destruct (String.eqb_spec (current_code sd) qr_code_value) as [Hc|];
    [|discriminate].
  destruct (DatabaseManager.find_active_enrollment enr student_id) as [e|];
    [|discriminate].
  destruct cd as [cd0|]; [|discriminate].
  destruct (existsb _ (students cd0)); [|discriminate].
  cbn [negb]. intros [= <- <-].
  exists e, cd0. repeat split; assumption.
Qed.

(** X1. A committed scan of the file backend changes one value: of the
    roster, only the record of the scanning student's enrollment, and
    of that record only the value of the date; ids, roll numbers, names,
    e-mails and every other date are as before, and so are the cached
    statistics and the time stamp of the class.  The session keeps its
    number, code and status and notes the time of the scan; its scanned
    list gains the record id and nothing else, without a repeat. *)
Theorem scan_touches_one_record (sd sd' : qr_session)
    (enr : list enrollment) (cd cd' : class_data)
    (student_id qr_code_value date now : string) :
  DatabaseManager.scan_qr_code (Some sd) enr (Some cd) student_id
    qr_code_value date now = Return (cd', sd') ->
  exists e,
    DatabaseManager.find_active_enrollment enr student_id = Some e /\
    Forall2
      (fun s s' =>
         student_record_id s' = student_record_id s /\
         rollNo s' = rollNo s /\ student_name s' = student_name s /\
         student_email s' = student_email s /\
         (forall d, d <> date ->
            attendance_get (attendance s') d = attendance_get (attendance s) d) /\
         (student_record_id s <> e_student_record_id e -> s' = s))
      (students cd) (students cd') /\
    statistics cd' = statistics cd /\ updated_at cd' = updated_at cd /\
    session_number sd' = session_number sd /\
    current_code sd' = current_code sd /\
    qr_status sd' = "active" /\ last_scan_at sd' = Some now /\
    (forall x, In x (scanned_students sd')
               <-> x = e_student_record_id e \/ In x (scanned_students sd)) /\
    (NoDup (scanned_students sd) -> NoDup (scanned_students sd')).
Proof.
  intros H.
  destruct (scan_returns _ _ _ _ _ _ _ _ _ H)
    as (e & cd0 & [= <-] & Ha & Hc & He & Hst & Hcd & Hsc & Hsd).
  exists e. split; [exact He|].
  split.
  { rewrite Hst. apply Forall2_update_first.
    - intros x. repeat split; reflexivity.
    - intros x Hx. cbn [update_student_attendance student_record_id rollNo
                         student_name student_email attendance].
      repeat split; try reflexivity.
      + intros d Hd. now apply scan_attendance_other.
      + intros Hne. exfalso. apply Hne. now apply record_id_eqb_eq. }
  rewrite Hcd, Hsd. cbn.
  split; [reflexivity|]. split; [reflexivity|]. split; [reflexivity|].
  split; [reflexivity|]. split; [exact Ha|]. split; [reflexivity|].
  rewrite Hsc.
  destruct (id_in (e_student_record_id e) (scanned_students sd)) eqn:Ein.
  - split; [|trivial].
    intros x. split; [now right|].
    intros [->|Hx]; [now apply id_in_In | exact Hx].
  - split.
    + intros x. rewrite in_app_iff. cbn [In]. intuition.
    + intros Hnd. apply NoDup_app; [exact Hnd | repeat constructor; intros [] |].
      intros x Hx [<-|[]].
      apply id_in_In in Hx. congruence.
Qed.

Lemma scan_touches_one_record_witness :
  exists cd' sd',
    DatabaseManager.scan_qr_code (Some running_session) qr_enrollments
      (Some qr_class) "u-yuri" "Q7XK2M9A" "2024-03-04" "2024-03-04T10:02:00"
    = Return (cd', sd') /\
    statistics cd' = statistics qr_class /\
    session_number sd' = 1 /\
    (NoDup (scanned_students running_session) ->
     NoDup (scanned_students sd')).
Proof.
  do 2 eexists. split; [reflexivity|].
  destruct (scan_touches_one_record running_session _ qr_enrollments qr_class
              _ "u-yuri" "Q7XK2M9A" "2024-03-04" "2024-03-04T10:02:00"
              eq_refl)
    as (e & _ & _ & Hs & _ & Hn & _ & _ & _ & _ & Hnd).
  split; [exact Hs|]. split; [exact Hn | exact Hnd].
Defined.

(** What a committed stop is made of. *)
Lemma stop_returns (sd sd' : qr_session) (enr : list enrollment)
    (cd : option class_data) (cd' : class_data) (rep : stop_report)
    (teacher_id date now : string) :
  DatabaseManager.stop_qr_session (Some sd) enr cd teacher_id date now
  = Return (cd', sd', rep) ->
  exists cd0,
    cd = Some cd0 /\
    qr_status sd = "active" /\ qr_teacher_id sd = teacher_id /\
    students cd'
    = map (fun s =>
             if DatabaseManager.to_mark
                  (DatabaseManager.active_student_ids enr)
                  (nodup record_id_eq_dec (scanned_students sd)) s
             then update_student_attendance s
                    (DatabaseManager.absent_attendance (session_number sd) now
                       date (attendance s))
             else s)
          (students cd0) /\
    sd' = mk_qr_session (qr_class_id sd) (qr_teacher_id sd) (qr_date sd)
            (session_number sd) (started_at sd) (qr_rotation_interval sd)
            (current_code sd) (code_generated_at sd) (last_rotation sd)
            (scanned_students sd) "stopped" (last_scan_at sd) (Some now) /\
    scanned_count rep
    = Z.of_nat (List.length (nodup record_id_eq_dec (scanned_students sd))).
Proof.
  unfold DatabaseManager.stop_qr_session.
  destruct (String.eqb_spec (qr_status sd) "active") as [Ha|]; [|discriminate].
  destruct (String.eqb_spec (qr_teacher_id sd) teacher_id) as [Ht|];
    [|discriminate].
  destruct cd as [cd0|]; [|discriminate].
  cbn [negb]. intros [= <- <- <-].
  exists cd0. repeat split; assumption.
Qed.

(** X2. A student whose scan was committed is not marked by the stop of
    the session: stopping the session the scan returned, on the class
    the scan returned, leaves every record with the record id of the
    scanning student's enrollment as the scan left it, and the report
    counts at least one scanned student. *)
Theorem scanned_student_is_not_marked_absent (sd sd1 sd2 : qr_session)
    (enr : list enrollment) (cd cd1 cd2 : class_data) (rep : stop_report)
    (student_id qr_code_value teacher_id date now1 now2 : string) :
  DatabaseManager.scan_qr_code (Some sd) enr (Some cd) student_id
    qr_code_value date now1 = Return (cd1, sd1) ->
  DatabaseManager.stop_qr_session (Some sd1) enr (Some cd1) teacher_id date
    now2 = Return (cd2, sd2, rep) ->
  exists e,
    DatabaseManager.find_active_enrollment enr student_id = Some e /\
    Forall2 (fun s1 s2 =>
               student_record_id s1 = e_student_record_id e -> s2 = s1)
            (students cd1) (students cd2) /\
    1 <= scanned_count rep.
Proof.
  intros Hscan Hstop.
  destruct (scan_returns _ _ _ _ _ _ _ _ _ Hscan)
    as (e & cd0 & _ & _ & _ & He & _ & _ & Hsc & _).
  destruct (stop_returns _ _ _ _ _ _ _ _ _ Hstop)
    as (cd0' & [= <-] & _ & _ & Hst & _ & Hcount).
  assert (Hin : id_in (e_student_record_id e) (scanned_students sd1) = true).
  { rewrite Hsc.
    destruct (id_in (e_student_record_id e) (scanned_students sd)) eqn:E;
      [exact E|].
    unfold id_in. rewrite existsb_app. cbn [existsb].
    rewrite (proj2 (record_id_eqb_eq _ _) eq_refl). now rewrite orb_true_r. }
  exists e. split; [exact He|]. split.
  - rewrite Hst. apply Forall2_map_if.
    + reflexivity.
    + intros s Hmark Hid. exfalso.
      unfold DatabaseManager.to_mark in Hmark.
      rewrite id_in_nodup, Hid, Hin in Hmark.
      now rewrite andb_false_r in Hmark.
  - rewrite Hcount.
    assert (Hn : In (e_student_record_id e)
                    (nodup record_id_eq_dec (scanned_students sd1))).
    { apply nodup_In. now apply id_in_In. }
    destruct (nodup record_id_eq_dec (scanned_students sd1));
      [contradiction | cbn [List.length]; lia].
Qed.

Lemma scanned_student_is_not_marked_absent_witness :
  exists cd1 sd1 cd2 sd2 rep,
    DatabaseManager.scan_qr_code (Some running_session) qr_enrollments
      (Some qr_class) "u-yuri" "Q7XK2M9A" "2024-03-04" "2024-03-04T10:02:00"
    = Return (cd1, sd1) /\
    DatabaseManager.stop_qr_session (Some sd1) qr_enrollments (Some cd1) "t1"
      "2024-03-04" "2024-03-04T10:05:00" = Return (cd2, sd2, rep) /\
    1 <= scanned_count rep.
Proof.
  do 5 eexists. split; [reflexivity|]. split; [reflexivity|].
  destruct (scanned_student_is_not_marked_absent running_session _ _
              qr_enrollments qr_class _ _ _ "u-yuri" "Q7XK2M9A" "t1"
              "2024-03-04" "2024-03-04T10:02:00" "2024-03-04T10:05:00"
              eq_refl eq_refl)
    as (e & _ & _ & Hc).
  exact Hc.
Defined.

(** X3. A stopped session is final in the file backend: after a committed
    stop the session is stopped, with the time of the stop, its number
    and its scanned list kept; every later scan on it is rejected with
    "No active QR session" and every later stop with "No active
    session", reading it gives no session, and a start for the date
    behaves as if there were no session file. *)
Theorem stop_is_final (sd sd' : qr_session) (enr : list enrollment)
    (cd cd' : class_data) (rep : stop_report) (teacher_id date now : string) :
  DatabaseManager.stop_qr_session (Some sd) enr (Some cd) teacher_id date now
  = Return (cd', sd', rep) ->
  qr_status sd' = "stopped" /\ stopped_at sd' = Some now /\
  session_number sd' = session_number sd /\
  scanned_students sd' = scanned_students sd /\
  (forall enr2 cd2 student_id code d now2,
     DatabaseManager.scan_qr_code (Some sd') enr2 cd2 student_id code d now2
     = Raise "No active QR session") /\
  (forall enr2 cd2 t d now2,
     DatabaseManager.stop_qr_session (Some sd') enr2 cd2 t d now2
     = Raise "No active session") /\
  (forall expired now2 code,
     DatabaseManager.get_qr_session (Some sd') expired now2 code = None) /\
  (forall c class_id t d interval now2 code,
     DatabaseManager.start_qr_session c (Some sd') class_id t d interval now2
       code
     = DatabaseManager.start_qr_session c None class_id t d interval now2
         code).
Proof.
  intros H.
  destruct (stop_returns _ _ _ _ _ _ _ _ _ H) as (cd0 & _ & _ & _ & _ & -> & _).
  repeat split.
Qed.

Lemma stop_is_final_witness :
  exists cd' sd' rep,
    DatabaseManager.stop_qr_session (Some running_session) qr_enrollments
      (Some qr_class) "t1" "2024-03-04" "2024-03-04T10:05:00"
    = Return (cd', sd', rep) /\
    qr_status sd' = "stopped" /\
    DatabaseManager.scan_qr_code (Some sd') qr_enrollments (Some cd') "u-yuri"
      "Q7XK2M9A" "2024-03-04" "2024-03-04T10:06:00"
    = Raise "No active QR session".
Proof.
  do 3 eexists. split; [reflexivity|].
  destruct (stop_is_final running_session _ qr_enrollments qr_class _ _ "t1"
              "2024-03-04" "2024-03-04T10:05:00" eq_refl)
    as (Hs & _ & _ & _ & Hscan & _).
  split; [exact Hs | apply Hscan].
Defined.

(** X4. Reading an active session with [get_qr_session] of the file
    backend: before the rotation interval has elapsed the session is
    returned as it is; once it has, the session is returned with the
    fresh code and its time, while the number, the scanned list, the
    teacher and the status are as before.  A scan presenting the old
    code is then rejected with "Invalid or expired QR code" when the
    fresh code differs, and a scan presenting the fresh code has the
    outcome the same scan had before the rotation with the old code. *)
Theorem rotation_replaces_the_code (sd : qr_session) (now code : string) :
  qr_status sd = "active" ->
  DatabaseManager.get_qr_session (Some sd) false now code = Some sd /\
  exists sd',
    DatabaseManager.get_qr_session (Some sd) true now code = Some sd' /\
    current_code sd' = code /\ code_generated_at sd' = now /\
    session_number sd' = session_number sd /\
    scanned_students sd' = scanned_students sd /\
    qr_teacher_id sd' = qr_teacher_id sd /\
    qr_status sd' = "active" /\
    (current_code sd <> code ->
     forall enr cd student_id d now2,
       DatabaseManager.scan_qr_code (Some sd') enr cd student_id
         (current_code sd) d now2 = Raise "Invalid or expired QR code") /\
    (forall enr cd student_id d now2,
       DatabaseManager.scan_qr_code (Some sd') enr cd student_id code d now2
       = match DatabaseManager.scan_qr_code (Some sd) enr cd student_id
                 (current_code sd) d now2 with
         | Return (cd', sd1) =>
             Return (cd', mk_qr_session (qr_class_id sd1) (qr_teacher_id sd1)
                            (qr_date sd1) (session_number sd1) (started_at sd1)
                            (qr_rotation_interval sd1) code now
                            (last_rotation sd1) (scanned_students sd1)
                            (qr_status sd1) (last_scan_at sd1) (stopped_at sd1))
         | Raise msg => Raise msg
         end).
Proof.
  intros Ha. unfold DatabaseManager.get_qr_session.
  rewrite Ha. change ("active" =? "active")%string with true. cbn [negb].
  split; [reflexivity|].
  eexists. split; [reflexivity|]. qr_fields.
  split; [reflexivity|]. split; [reflexivity|]. split; [reflexivity|].
  split; [reflexivity|]. split; [reflexivity|]. split; [reflexivity|].
  split.
  - intros Hne enr cd student_id d now2.
    unfold DatabaseManager.scan_qr_code. qr_fields. rewrite ?Ha.
    change ("active" =? "active")%string with true. cbn [negb].
    destruct (String.eqb_spec code (current_code sd)); [congruence|].
    reflexivity.
  - intros enr cd student_id d now2.
    unfold DatabaseManager.scan_qr_code. qr_fields. rewrite ?Ha.
    change ("active" =? "active")%string with true. cbn [negb].
    rewrite !String.eqb_refl. cbn [negb].
    destruct (DatabaseManager.find_active_enrollment enr student_id);
      [|reflexivity].
    destruct cd as [cd0|]; [|reflexivity].
    destruct (existsb _ (students cd0)); reflexivity.
Qed.

Lemma rotation_replaces_the_code_witness :
  qr_status running_session = "active" /\
  exists sd',
    DatabaseManager.get_qr_session (Some running_session) true
      "2024-03-04T10:00:05" "Z3R8T1WQ" = Some sd' /\
    current_code sd' = "Z3R8T1WQ" /\
    scanned_students sd' = scanned_students running_session.
Proof.
  split; [reflexivity|].
  destruct (rotation_replaces_the_code running_session "2024-03-04T10:00:05"
              "Z3R8T1WQ" eq_refl)
    as (_ & sd' & Hg & Hc & _ & _ & Hsc & _).
  exists sd'. split; [exact Hg|]. split; [exact Hc | exact Hsc].
Defined.

(** ** Session numbers *)

(** The count of the file manager is the largest contribution of a
    student, and 0 on an empty roster. *)
Lemma db_count_valid_max (cd : class_data) (date : string) :
  DatabaseManager._count_valid_sessions_for_date cd date
  = fold_right Z.max 0 (day_counts date (students cd)).
Proof.
  unfold DatabaseManager._count_valid_sessions_for_date, day_counts.
  destruct (students cd) as [|s sts] eqn:E; [reflexivity|].
  rewrite (fold_max_left_right
             (fun st => DatabaseManager.day_session_count
                          (attendance_get (attendance st) date))) by lia.
  assert (H : forall l, 0 <= fold_right Z.max 0 l)
    by (induction l; simpl; lia).
  specialize (H (map (fun st => DatabaseManager.day_session_count
                                  (attendance_get (attendance st) date))
                     (s :: sts))).
  lia.
Qed.

Lemma forallb_py_insert {A : Type} (p : A -> bool) (l : list A) (i : nat)
    (x : A) :
  forallb p l = true -> p x = true -> forallb p (py_insert l i x) = true.
Proof.
  revert i. induction l as [|y l IH]; intros i Hl Hx.
  - destruct i; simpl; now rewrite Hx.
  - simpl in Hl. apply andb_prop in Hl. destruct Hl as [Hy Hl].
    destruct i; simpl.
    + now rewrite Hx, Hy, Hl.
    + rewrite Hy. now apply IH.
Qed.

Lemma fill_missing_valid (ids : list (option string)) (n : Z) (last : string)
    (ss : list session) :
  forallb is_valid ss = true ->
  forallb is_valid (fill_missing ids n last ss) = true.
Proof.
  unfold fill_missing. generalize (py_range 1 (n + 1)).
  intros idx. revert ss. induction idx as [|i idx IH]; intros ss H;
    [exact H|].
  cbn [fold_left]. apply IH. unfold fill_step.
  destruct (key_in _ ids); [exact H|].
  now apply forallb_py_insert.
Qed.

Lemma set_first_status_valid (k st : string) (ss : list session) :
  forallb is_valid ss = true ->
  forallb is_valid (set_first_status k st ss) = true.
Proof.
  induction ss as [|s ss IH]; intros H; [reflexivity|].
  simpl in H. apply andb_prop in H. destruct H as [Hs Hss].
  simpl. destruct (session_id s) as [k'|].
  - destruct (k' =? k)%string; simpl; [exact Hss | now rewrite Hs, IH].
  - simpl. now rewrite Hs, IH.
Qed.

Lemma key_in_In (k : string) (ids : list (option string)) :
  key_in k ids = true -> In (Some k) ids.
Proof.
  unfold key_in. intros H. apply existsb_exists in H.
  destruct H as ([k'|] & Hin & Hk); [|discriminate].
  apply String.eqb_eq in Hk. now subst.
Qed.

(** A sessions array that holds the ids [session_1 .. session_n] has at
    least [n] entries. *)
Lemma all_keys_length (n : Z) (ss : list session) :
  (forall i, 1 <= i <= n -> key_in (session_key i) (map session_id ss) = true) ->
  n <= Z.of_nat (List.length ss).
Proof.
  intros H.
  assert (Hnd : NoDup (map (fun i => Some (session_key i)) (py_range 1 (n + 1)))).
  { apply NoDup_map_injective.
    - intros i j E. apply session_key_inj.
      exact (f_equal (fun o => match o with Some k => k | None => "" end) E).
    - apply py_range_NoDup. }
  assert (Hincl : incl (map (fun i => Some (session_key i)) (py_range 1 (n + 1)))
                       (map session_id ss)).
  { intros x Hx. apply in_map_iff in Hx. destruct Hx as (i & <- & Hi).
    apply key_in_In, H. apply py_range_In in Hi. lia. }
  pose proof (NoDup_incl_length Hnd Hincl) as Hlen.
  rewrite !length_map, py_range_length in Hlen. lia.
Qed.

(** The scan of session [n] leaves at least [n] valid entries. *)
Lemma scan_count (n : Z) (now : string) (v : option cell) :
  1 <= n -> mergeable v = true ->
  exists c, DatabaseManager.scan_cell n now v = Some c /\
            n <= DatabaseManager.day_session_count (Some c).
Proof.
  intros Hn Hm. unfold DatabaseManager.scan_cell.
  destruct (Z.eqb_spec n 1) as [->|Hne].
  - destruct v as [[|s|st c|ss u|]|]; try discriminate.
    + eexists. split; [reflexivity | vm_compute; discriminate].
    + eexists. split; [reflexivity|].
      cbn [DatabaseManager.day_session_count truthy].
      destruct ss as [|s0 rest].
      * vm_compute; discriminate.
      * rewrite count_of_cons. cbn [is_valid set_status session_status].
        pose proof (count_of_nonneg is_valid rest). lia.
    + eexists. split; [reflexivity | vm_compute; discriminate].
  - destruct v as [[|s|st c|ss u|]|]; try discriminate.
    + eexists. split; [reflexivity|]. simpl.
      rewrite count_of_all.
      * rewrite length_app, length_map, py_range_length. simpl. lia.
      * rewrite forallb_app. simpl. rewrite andb_true_r.
        apply forallb_forall. intros x Hx. apply in_map_iff in Hx.
        now destruct Hx as (i & <- & _).
    + simpl in Hm. eexists. split; [reflexivity|]. simpl.
      rewrite count_of_all.
      * rewrite set_first_status_length.
        apply all_keys_length. intros i Hi. now apply fill_missing_has_all.
      * now apply set_first_status_valid, fill_missing_valid.
    + eexists. split; [reflexivity|]. simpl.
      rewrite count_of_all.
      * rewrite length_app, length_map, py_range_length. simpl. lia.
      * rewrite forallb_app. simpl. rewrite andb_true_r.
        apply forallb_forall. intros x Hx. apply in_map_iff in Hx.
        now destruct Hx as (i & <- & _).
Qed.

(** X5. After a committed scan in session [n >= 1] the file backend
    counts at least [n] valid sessions for the date, so that the next
    session started gets a number above [n]; this holds when no value
    of the date is legacy-counted or unrecognized and no session entry
    of the date lacks a status. *)
Theorem scan_advances_numbering (sd sd' : qr_session)
    (enr : list enrollment) (cd cd' : class_data)
    (student_id qr_code_value date now : string) :
  DatabaseManager.scan_qr_code (Some sd) enr (Some cd) student_id
    qr_code_value date now = Return (cd', sd') ->
  1 <= session_number sd ->
  forallb (fun s => mergeable (attendance_get (attendance s) date))
          (students cd) = true ->
  session_number sd
  <= DatabaseManager._count_valid_sessions_for_date cd' date.
Proof.
  unfold DatabaseManager.scan_qr_code.
  destruct (negb (qr_status sd =? "active")%string); [discriminate|].
  destruct (negb (current_code sd =? qr_code_value)%string); [discriminate|].
  destruct (DatabaseManager.find_active_enrollment enr student_id) as [e|];
    [|discriminate].
  change (fun s => record_id_eqb (student_record_id s) (e_student_record_id e))
    with (has_id (e_student_record_id e)).
  rewrite existsb_find.
  destruct (find (has_id (e_student_record_id e)) (students cd)) as [s|] eqn:Ef;
    [|discriminate].
  cbn [negb]. intros [= <- _] Hn Hall.
  destruct (find_split _ _ _ Ef) as (l1 & l2 & E & H1 & Hp).
  assert (Hs : mergeable (attendance_get (attendance s) date) = true).
  { rewrite forallb_forall in Hall. apply Hall. rewrite E.
    apply in_or_app. right. now left. }
  destruct (scan_count (session_number sd) now _ Hn Hs) as (c & Hc & Hle).
  rewrite db_count_valid_max.
  cbn [students DatabaseManager.set_students].
  rewrite E, (update_first_middle _ _ l1 l2 s H1 Hp).
  etransitivity; [exact Hle|].
  apply fold_max_ge. unfold day_counts. rewrite map_app. cbn [map].
  apply in_or_app. right. left.
  cbn [update_student_attendance attendance].
  unfold DatabaseManager.scan_attendance. rewrite Hc.
  rewrite attendance_get_set; [reflexivity|].
  intros ->. destruct (scan_not_null (session_number sd) now
                         (attendance_get (attendance s) date)) as [Hnn _].
  now apply Hnn.
Qed.

Lemma scan_advances_numbering_witness :
  exists cd' sd',
    DatabaseManager.scan_qr_code (Some third_session) qr_enrollments
      (Some qr_class) "u-yuri" "Q7XK2M9A" "2024-03-04" "2024-03-04T14:01:00"
    = Return (cd', sd') /\
    1 <= session_number third_session /\
    forallb (fun s => mergeable (attendance_get (attendance s) "2024-03-04"))
            (students qr_class) = true /\
    3 <= DatabaseManager._count_valid_sessions_for_date cd' "2024-03-04".
Proof.
  do 2 eexists. split; [reflexivity|].
  assert (Hn : 1 <= session_number third_session) by (simpl; lia).
  split; [exact Hn|]. split; [reflexivity|].
  exact (scan_advances_numbering third_session _ qr_enrollments qr_class _
           "u-yuri" "Q7XK2M9A" "2024-03-04" "2024-03-04T14:01:00" eq_refl Hn
           eq_refl).
Defined.





(** ** The teacher's edit of one day *)

Lemma attendance_get_del (att : attendance_map) (date : string) :
  attendance_get (DatabaseManager.attendance_del att date) date = None.
Proof.
  induction att as [|[d c] att IH]; simpl; [reflexivity|].
  destruct (d =? date)%string eqn:E; simpl; [exact IH | now rewrite E].
Qed.

Lemma attendance_get_del_other (att : attendance_map) (date d' : string) :
  d' <> date ->
  attendance_get (DatabaseManager.attendance_del att date) d'
  = attendance_get att d'.
Proof.
  intros Hne. induction att as [|[d c] att IH]; simpl; [reflexivity|].
  destruct (String.eqb_spec d date) as [->|Hd]; simpl.
  - destruct (String.eqb_spec date d'); [congruence | exact IH].
  - destruct (d =? d')%string; [reflexivity | exact IH].
Qed.

Lemma filter_is_valid_all (sessions : list session) :
  forallb is_valid (filter is_valid sessions) = true.
Proof.
  induction sessions as [|s ss IH]; simpl; [reflexivity|].
  destruct (is_valid s) eqn:E; simpl; [now rewrite E | exact IH].
Qed.

(** What a committed edit of a day is made of. *)
Lemma day_edit_shape (cd : class_data) (student_id : record_id)
    (date : string) (sessions : list session) (now : string) (s : student) :
  find (has_id student_id) (students cd) = Some s ->
  exists cd' l1 l2 s',
    DatabaseManager.update_multi_session_attendance (Some cd) student_id
      date sessions now = (true, Some cd') /\
    students cd = (l1 ++ s :: l2)%list /\
    students cd' = (l1 ++ s' :: l2)%list /\
    (forall y, In y l1 -> has_id student_id y = false) /\
    student_record_id s' = student_record_id s /\
    attendance_get (attendance s') date
    = (match filter is_valid sessions with
       | [] => None
       | valid_sessions => Some (Sessions valid_sessions now)
       end) /\
    (forall d, d <> date ->
       attendance_get (attendance s') d = attendance_get (attendance s) d) /\
    statistics cd'
    = Some (DatabaseManager.calculate_class_statistics cd' now).
Proof.
  unfold DatabaseManager.update_multi_session_attendance.
  change (fun s => record_id_eqb (student_record_id s) student_id)
    with (has_id student_id).
  rewrite existsb_find.
  intros Hs. rewrite Hs.
  destruct (find_split _ _ _ Hs) as (l1 & l2 & E & H1 & Hp).
  do 4 eexists. split; [reflexivity|].
  split; [exact E|].
  cbn [students DatabaseManager.set_statistics DatabaseManager.set_students].
  split. { rewrite E at 1. now apply update_first_middle. }
  split; [exact H1|].
  cbn [update_student_attendance student_record_id attendance].
  split; [reflexivity|].
  split.
  { destruct (filter is_valid sessions) eqn:Ef.
    - apply attendance_get_del.
    - now apply attendance_get_set. }
  split; [|reflexivity].
  intros d Hd. destruct (filter is_valid sessions).
  - now apply attendance_get_del_other.
  - now apply attendance_get_set_other.
Qed.

(** X7. [update_multi_session_attendance]: for an id that is not on the
    roster it returns [False] and leaves the class as it is; otherwise
    it returns [True] and, in the first record with the id, the date
    holds the entered sessions that have a status, in their order and
    stamped with the time of the call, or nothing at all when no entered
    session has a status.  Every other record and every other date is
    unchanged, and the cached statistics are those of the class as it
    is left. *)
Theorem day_edit_spec (cd : class_data) (student_id : record_id)
    (date : string) (sessions : list session) (now : string) :
  (find (has_id student_id) (students cd) = None ->
   DatabaseManager.update_multi_session_attendance (Some cd) student_id date
     sessions now = (false, Some cd)) /\
  (forall s,
     find (has_id student_id) (students cd) = Some s ->
     exists cd' l1 l2 s',
       DatabaseManager.update_multi_session_attendance (Some cd) student_id
         date sessions now = (true, Some cd') /\
       students cd = (l1 ++ s :: l2)%list /\
       students cd' = (l1 ++ s' :: l2)%list /\
       student_record_id s' = student_record_id s /\
       attendance_get (attendance s') date
       = (match filter is_valid sessions with
          | [] => None
          | valid_sessions => Some (Sessions valid_sessions now)
          end) /\
       forallb is_valid (filter is_valid sessions) = true /\
       (forall d, d <> date ->
          attendance_get (attendance s') d = attendance_get (attendance s) d) /\
       statistics cd'
       = Some (DatabaseManager.calculate_class_statistics cd' now)).
Proof.
  split.
  - unfold DatabaseManager.update_multi_session_attendance.
    change (fun s => record_id_eqb (student_record_id s) student_id)
      with (has_id student_id).
    rewrite existsb_find. now intros ->.
  - intros s Hs.
    destruct (day_edit_shape cd student_id date sessions now s Hs)
      as (cd' & l1 & l2 & s' & Hu & E & E' & _ & Hid & Hget & Hother & Hst).
    exists cd', l1, l2, s'.
    split; [exact Hu|]. split; [exact E|]. split; [exact E'|].
    split; [exact Hid|]. split; [exact Hget|].
    split; [apply filter_is_valid_all|]. split; assumption.
Qed.

Lemma day_edit_spec_witness :
  DatabaseManager.update_multi_session_attendance (Some history_class)
    (IdInt 7) "2024-03-06" entered_sessions "2024-03-06T12:00:00"
  = (false, Some history_class) /\
  exists cd' l1 l2 s',
    DatabaseManager.update_multi_session_attendance (Some history_class)
      (IdInt 42) "2024-03-06" entered_sessions "2024-03-06T12:00:00"
    = (true, Some cd') /\
    students cd' = (l1 ++ s' :: l2)%list /\
    attendance_get (attendance s') "2024-03-06"
    = Some (Sessions [mk_session (Some "session_1") (Some "Session 1")
                                 (Some "P")] "2024-03-06T12:00:00").
Proof.
  split.
  - exact (proj1 (day_edit_spec history_class (IdInt 7) "2024-03-06"
                    entered_sessions "2024-03-06T12:00:00") eq_refl).
  - destruct (proj2 (day_edit_spec history_class (IdInt 42) "2024-03-06"
                       entered_sessions "2024-03-06T12:00:00") _ eq_refl)
      as (cd' & l1 & l2 & s' & Hu & _ & Hs & _ & Hget & _).
    exists cd', l1, l2, s'. split; [exact Hu|]. split; [exact Hs | exact Hget].
Defined.

Lemma day_count_of_edit (sessions : list session) (now : string) :
  DatabaseManager.day_session_count
    (match filter is_valid sessions with
     | [] => None
     | valid_sessions => Some (Sessions valid_sessions now)
     end)
  = count_of is_valid sessions.
Proof.
  rewrite <- (count_of_filter_same is_valid sessions).
  destruct (filter is_valid sessions); reflexivity.
Qed.

Lemma edit_returns_true (cd cd' : class_data) (student_id : record_id)
    (date : string) (sessions : list session) (now : string) :
  DatabaseManager.update_multi_session_attendance (Some cd) student_id date
    sessions now = (true, Some cd') ->
  exists s, find (has_id student_id) (students cd) = Some s.
Proof.
  unfold DatabaseManager.update_multi_session_attendance.
  change (fun s => record_id_eqb (student_record_id s) student_id)
    with (has_id student_id).
  rewrite existsb_find.
  destruct (find (has_id student_id) (students cd)) as [s|];
    [now exists s | discriminate].
Qed.

(** X8. After the teacher's edit of a day the count of valid sessions of
    the date (the number of the next QR session minus one) is at least
    the number of entered sessions with a status, and at most the larger
    of that number and the count before.  When the record ids are
    distinct and no other student has a value for the date it is that
    number: clearing every status of the day brings the numbering back
    to session 1. *)
Theorem day_edit_numbering (cd cd' : class_data) (student_id : record_id)
    (date : string) (sessions : list session) (now : string) :
  DatabaseManager.update_multi_session_attendance (Some cd) student_id date
    sessions now = (true, Some cd') ->
  count_of is_valid sessions
  <= DatabaseManager._count_valid_sessions_for_date cd' date /\
  DatabaseManager._count_valid_sessions_for_date cd' date
  <= Z.max (DatabaseManager._count_valid_sessions_for_date cd date)
           (count_of is_valid sessions) /\
  ((forall s, In s (students cd) -> student_record_id s <> student_id ->
              attendance_get (attendance s) date = None) ->
   NoDup (map student_record_id (students cd)) ->
   DatabaseManager._count_valid_sessions_for_date cd' date
   = count_of is_valid sessions).
Proof.
  intros H.
  destruct (edit_returns_true _ _ _ _ _ _ H) as [s Ef].
  destruct (day_edit_shape cd student_id date sessions now s Ef)
    as (cd1 & l1 & l2 & s' & Hu & E & E' & Hl1 & _ & Hget & _ & _).
  rewrite Hu in H. injection H as <-.
  rewrite !db_count_valid_max. rewrite E, E'. unfold day_counts.
  rewrite !map_app. cbn [map]. rewrite !fold_max_app. cbn [fold_right].
  rewrite Hget, day_count_of_edit.
  set (f := fun st => DatabaseManager.day_session_count
                        (attendance_get (attendance st) date)).
  pose proof (count_of_nonneg is_valid sessions) as Hc.
  pose proof (fold_max_nonneg (map f l1)).
  pose proof (fold_max_nonneg (map f l2)).
  split; [lia|]. split; [lia|].
  intros Hothers Hnd.
  assert (Hs : student_record_id s = student_id).
  { apply find_some in Ef. apply record_id_eqb_eq, Ef. }
  assert (Hall : forall x, In x (l1 ++ l2) -> f x = 0).
  { intros x Hx. unfold f. rewrite Hothers; [reflexivity | |].
    - apply in_app_or in Hx. apply in_or_app.
      destruct Hx; [now left | right; now right].
    - intros Hid.
      assert (Hin : In student_id (map student_record_id (l1 ++ l2))).
      { rewrite <- Hid. now apply in_map. }
      apply NoDup_remove_2 in Hnd. apply Hnd.
      rewrite <- map_app, Hs. exact Hin. }
  rewrite (fold_max_zero f l1), (fold_max_zero f l2); [lia | |];
    intros x Hx; apply Hall, in_or_app; [now right | now left].
Qed.

Lemma day_edit_numbering_witness :
  exists cd',
    DatabaseManager.update_multi_session_attendance (Some history_class)
      (IdInt 42) "2024-03-06" entered_sessions "2024-03-06T12:00:00"
    = (true, Some cd') /\
    count_of is_valid entered_sessions
    <= DatabaseManager._count_valid_sessions_for_date cd' "2024-03-06" /\
    DatabaseManager._count_valid_sessions_for_date cd' "2024-03-06" <= 1.
Proof.
  eexists. split; [reflexivity|].
  destruct (day_edit_numbering history_class _ (IdInt 42) "2024-03-06"
              entered_sessions "2024-03-06T12:00:00" eq_refl)
    as (Hlo & Hhi & _).
  split; [exact Hlo | exact Hhi].
Defined.

(** ** Attendance sessions *)

Lemma marks_get_set (m : DatabaseManager.marks) (k v : string) :
  DatabaseManager.marks_get (DatabaseManager.marks_set m k v) k = Some v.
Proof.
  induction m as [|[k0 v0] m IH]; simpl.
  - now rewrite String.eqb_refl.
  - destruct (k0 =? k)%string eqn:E; simpl; rewrite E; [reflexivity | exact IH].
Qed.

Lemma marks_get_set_other (m : DatabaseManager.marks) (k k' v : string) :
  k' <> k ->
  DatabaseManager.marks_get (DatabaseManager.marks_set m k v) k'
  = DatabaseManager.marks_get m k'.
Proof.
  intros Hne. induction m as [|[k0 v0] m IH]; simpl.
  - destruct (String.eqb_spec k k'); [congruence | reflexivity].
  - destruct (String.eqb_spec k0 k) as [->|Hk]; simpl.
    + destruct (String.eqb_spec k k'); [congruence | reflexivity].
    + destruct (k0 =? k')%string; [reflexivity | exact IH].
Qed.

(** X9. [create_attendance_session] succeeds only on an existing class;
    the new session has the id [session_<millis>], the date of the
    request and no marks, and is appended to the sessions of the class.
    Every session found by its id before is found unchanged, a lookup
    by any other id is as before, and the new session is found by its
    id when that id was not in use. *)
Theorem created_session_is_found (cd : option class_data)
    (enr : list enrollment) (all all' : list DatabaseManager.attendance_session)
    (user_id class_id : string) (req : DatabaseManager.session_request)
    (now : string) (millis : Z) (s : DatabaseManager.attendance_session) :
  DatabaseManager.create_attendance_session cd enr all user_id class_id req
    now millis = Return (all', s) ->
  cd <> None /\
  DatabaseManager.as_id s = session_key millis /\
  DatabaseManager.as_date s = DatabaseManager.req_date req /\
  DatabaseManager.as_attendance s = [] /\
  DatabaseManager.get_class_sessions all' None = (all ++ [s])%list /\
  (forall id old, DatabaseManager.get_session_by_id all id = Some old ->
                  DatabaseManager.get_session_by_id all' id = Some old) /\
  (DatabaseManager.get_session_by_id all (session_key millis) = None ->
   DatabaseManager.get_session_by_id all' (session_key millis) = Some s) /\
  (forall id, id <> session_key millis ->
              DatabaseManager.get_session_by_id all' id
              = DatabaseManager.get_session_by_id all id).
Proof.
  unfold DatabaseManager.create_attendance_session.
  destruct (DatabaseManager.get_class cd enr now) eqn:Eg; [|discriminate].
  intros [= <- <-].
  split. { intros ->. discriminate. }
  split; [reflexivity|]. split; [reflexivity|]. split; [reflexivity|].
  split; [reflexivity|].
  unfold DatabaseManager.get_session_by_id, DatabaseManager.get_class_sessions.
  split. { intros id old H. now apply find_app_some. }
  split.
  { intros H. rewrite (find_app_none _ _ _ H).
    cbn [find DatabaseManager.as_id]. now rewrite String.eqb_refl. }
  intros id Hne.
  destruct (find (fun s => (DatabaseManager.as_id s =? id)%string) all) eqn:E.
  - now apply find_app_some.
  - rewrite (find_app_none _ _ _ E). cbn [find DatabaseManager.as_id].
    destruct (String.eqb_spec (session_key millis) id);
      [congruence | reflexivity].
Qed.

Lemma created_session_is_found_witness :
  exists all' s,
    DatabaseManager.create_attendance_session (Some history_class)
      history_enrollments sample_sessions "t1" "c1" lab_request
      "2024-03-06T10:00:00" 1709719200000 = Return (all', s) /\
    DatabaseManager.as_id s = "session_1709719200000" /\
    DatabaseManager.get_session_by_id all' "session_1709719200000" = Some s /\
    DatabaseManager.get_session_by_id all' "session_1709542800000"
    = Some morning_session.
Proof.
  do 2 eexists. split; [reflexivity|].
  destruct (created_session_is_found (Some history_class) history_enrollments
              sample_sessions _ "t1" "c1" lab_request "2024-03-06T10:00:00"
              1709719200000 _ eq_refl)
    as (_ & Hid & _ & _ & _ & Hold & Hnew & _).
  split; [exact Hid|]. split; [exact (Hnew eq_refl)|].
  exact (Hold "session_1709542800000" morning_session eq_refl).
Defined.

(** X10. [update_session_attendance] returns [False] and changes nothing
    for a status other than P, A, L and for an unknown session id;
    otherwise it returns [True] and the first session with the id holds
    the status for the student, with the marks of the other students,
    the date of the session, the ids of the sessions and every other
    session as before; the session is stamped with the time of the
    call. *)
Theorem session_mark_update (all : list DatabaseManager.attendance_session)
    (session_id student_id status now : string) :
  (in_PAL status = false ->
   DatabaseManager.update_session_attendance all session_id student_id status
     now = (false, all)) /\
  (DatabaseManager.get_session_by_id all session_id = None ->
   DatabaseManager.update_session_attendance all session_id student_id status
     now = (false, all)) /\
  (forall s,
     in_PAL status = true ->
     DatabaseManager.get_session_by_id all session_id = Some s ->
     exists all' s',
       DatabaseManager.update_session_attendance all session_id student_id
         status now = (true, all') /\
       DatabaseManager.get_session_by_id all' session_id = Some s' /\
       DatabaseManager.marks_get (DatabaseManager.as_attendance s') student_id
       = Some status /\
       (forall other, other <> student_id ->
          DatabaseManager.marks_get (DatabaseManager.as_attendance s') other
          = DatabaseManager.marks_get (DatabaseManager.as_attendance s) other) /\
       DatabaseManager.as_date s' = DatabaseManager.as_date s /\
       DatabaseManager.as_updated_at s' = now /\
       map DatabaseManager.as_id all' = map DatabaseManager.as_id all /\
       (forall id, id <> session_id ->
          DatabaseManager.get_session_by_id all' id
          = DatabaseManager.get_session_by_id all id)).
Proof.
  unfold DatabaseManager.update_session_attendance,
    DatabaseManager.get_session_by_id, DatabaseManager.get_class_sessions.
  split; [intros H; now rewrite H|].
  split.
  { intros H. rewrite existsb_find, H. now destruct (negb (in_PAL status)). }
  intros s Hst Hs.
  rewrite Hst. cbn [negb].
  rewrite existsb_find, Hs.
  do 2 eexists. split; [reflexivity|].
  split.
  { rewrite find_update_first; [rewrite Hs; reflexivity|].
    intros x Hx. exact Hx. }
  cbn [DatabaseManager.set_marks DatabaseManager.as_attendance
       DatabaseManager.as_date DatabaseManager.as_updated_at].
  split; [apply marks_get_set|].
  split; [intros other Hne; now apply marks_get_set_other|].
  split; [reflexivity|]. split; [reflexivity|].
  split; [apply map_update_first; reflexivity|].
  intros id Hne. apply find_update_first_other.
  intros x Hx. cbn [DatabaseManager.set_marks DatabaseManager.as_id].
  apply String.eqb_eq in Hx. rewrite Hx.
  destruct (String.eqb_spec session_id id); [congruence | now split].
Qed.

Lemma session_mark_update_witness :
  DatabaseManager.update_session_attendance sample_sessions
    "session_1709560800000" "41" "X" "2024-03-04T15:00:00"
  = (false, sample_sessions) /\
  exists all' s',
    DatabaseManager.update_session_attendance sample_sessions
      "session_1709560800000" "41" "A" "2024-03-04T15:00:00" = (true, all') /\
    DatabaseManager.get_session_by_id all' "session_1709560800000" = Some s' /\
    DatabaseManager.marks_get (DatabaseManager.as_attendance s') "41"
    = Some "A" /\
    DatabaseManager.marks_get (DatabaseManager.as_attendance s') "42"
    = Some "L".
Proof.
  destruct (session_mark_update sample_sessions "session_1709560800000" "41"
              "X" "2024-03-04T15:00:00") as (Hbad & _ & _).
  split; [exact (Hbad eq_refl)|].
  destruct (session_mark_update sample_sessions "session_1709560800000" "41"
              "A" "2024-03-04T15:00:00") as (_ & _ & Hok).
  destruct (Hok afternoon_session eq_refl eq_refl)
    as (all' & s' & Hu & Hg & Hm & Hother & _).
  exists all', s'. split; [exact Hu|]. split; [exact Hg|].
  split; [exact Hm|]. rewrite (Hother "42"); [reflexivity | discriminate].
Defined.

(** The marks after the loop of a bulk update. *)
Lemma bulk_marks_other (data m : DatabaseManager.marks) (k : string) :
  (forall v, In (k, v) data -> in_PAL v = false) ->
  DatabaseManager.marks_get (DatabaseManager.bulk_marks data m) k
  = DatabaseManager.marks_get m k.
Proof.
  unfold DatabaseManager.bulk_marks.
  revert m. induction data as [|[k0 v0] data IH]; intros m H;
    [reflexivity|].
  cbn [fold_left fst snd]. rewrite IH.
  - destruct (in_PAL v0) eqn:E; [|reflexivity].
    apply marks_get_set_other. intros ->.
    rewrite (H v0 (or_introl eq_refl)) in E. discriminate.
  - intros v Hv. apply H. now right.
Qed.

Lemma bulk_marks_In (data m : DatabaseManager.marks) (k v : string) :
  NoDup (map fst data) -> In (k, v) data -> in_PAL v = true ->
  DatabaseManager.marks_get (DatabaseManager.bulk_marks data m) k = Some v.
Proof.
  unfold DatabaseManager.bulk_marks.
  revert m. induction data as [|[k0 v0] data IH]; intros m Hnd Hin Hv;
    [contradiction|].
  cbn [fold_left fst snd]. cbn [map fst] in Hnd.
  apply NoDup_cons_iff in Hnd. destruct Hnd as [Hnot Hnd].
  destruct Hin as [[= -> ->]|Hin].
  - rewrite Hv.
    change (fold_left _ data ?m0) with (DatabaseManager.bulk_marks data m0).
    rewrite bulk_marks_other; [apply marks_get_set|].
    intros v' Hv'. exfalso. apply Hnot.
    change k with (fst (k, v')). now apply in_map.
  - now apply IH.
Qed.

(** X11. [bulk_update_session_attendance] on a known session applies
    the entries whose status is P, A or L and skips the others: a
    student with a valid entry has that status afterwards, a student
    without one keeps the mark held before; the other sessions are
    unchanged. *)
Theorem bulk_update_applies_valid_marks
    (all : list DatabaseManager.attendance_session) (session_id : string)
    (data : DatabaseManager.marks) (now : string)
    (s : DatabaseManager.attendance_session) :
  NoDup (map fst data) ->
  DatabaseManager.get_session_by_id all session_id = Some s ->
  exists all' s',
    DatabaseManager.bulk_update_session_attendance all session_id data now
    = (true, all') /\
    DatabaseManager.get_session_by_id all' session_id = Some s' /\
    (forall k v, In (k, v) data -> in_PAL v = true ->
       DatabaseManager.marks_get (DatabaseManager.as_attendance s') k
       = Some v) /\
    (forall k, (forall v, In (k, v) data -> in_PAL v = false) ->
       DatabaseManager.marks_get (DatabaseManager.as_attendance s') k
       = DatabaseManager.marks_get (DatabaseManager.as_attendance s) k) /\
    map DatabaseManager.as_id all' = map DatabaseManager.as_id all /\
    (forall id, id <> session_id ->
       DatabaseManager.get_session_by_id all' id
       = DatabaseManager.get_session_by_id all id).
Proof.
  intros Hnd Hs.
  unfold DatabaseManager.bulk_update_session_attendance,
    DatabaseManager.get_session_by_id, DatabaseManager.get_class_sessions in *.
  rewrite existsb_find, Hs.
  do 2 eexists. split; [reflexivity|].
  split.
  { rewrite find_update_first; [rewrite Hs; reflexivity|].
    intros x Hx. exact Hx. }
  cbn [DatabaseManager.set_marks DatabaseManager.as_attendance].
  split; [intros k v Hin Hv; now apply bulk_marks_In|].
  split; [intros k H; now apply bulk_marks_other|].
  split; [apply map_update_first; reflexivity|].
  intros id Hne. apply find_update_first_other.
  intros x Hx. cbn [DatabaseManager.set_marks DatabaseManager.as_id].
  apply String.eqb_eq in Hx. rewrite Hx.
  destruct (String.eqb_spec session_id id); [congruence | now split].
Qed.

Lemma bulk_update_applies_valid_marks_witness :
  NoDup (map fst [("41", "L"); ("42", "late")]) /\
  exists all' s',
    DatabaseManager.bulk_update_session_attendance sample_sessions
      "session_1709542800000" [("41", "L"); ("42", "late")]
      "2024-03-04T15:00:00" = (true, all') /\
    DatabaseManager.get_session_by_id all' "session_1709542800000" = Some s' /\
    DatabaseManager.marks_get (DatabaseManager.as_attendance s') "41"
    = Some "L" /\
    DatabaseManager.marks_get (DatabaseManager.as_attendance s') "42"
    = Some "P".
Proof.
  assert (Hnd : NoDup (map fst [("41", "L"); ("42", "late")])).
  { simpl. repeat constructor; simpl; intuition discriminate. }
  split; [exact Hnd|].
  destruct (bulk_update_applies_valid_marks sample_sessions
              "session_1709542800000" [("41", "L"); ("42", "late")]
              "2024-03-04T15:00:00" morning_session Hnd eq_refl)
    as (all' & s' & Hu & Hg & Hvalid & Hskip & _).
  exists all', s'. split; [exact Hu|]. split; [exact Hg|].
  split.
  - apply Hvalid; [left; reflexivity | reflexivity].
  - rewrite Hskip; [reflexivity|].
    intros v [[= ]|[[= <-]|[]]]. reflexivity.
Defined.

(** X12. [delete_attendance_session] returns [True] exactly when a
    session with the id exists; afterwards no session has the id, every
    other session is found as before, and deleting again returns
    [False] and changes nothing. *)
Theorem delete_session_spec (all : list DatabaseManager.attendance_session)
    (session_id : string) :
  let '(deleted, all') :=
    DatabaseManager.delete_attendance_session all session_id in
  deleted = (match DatabaseManager.get_session_by_id all session_id with
             | Some _ => true
             | None => false
             end) /\
  DatabaseManager.get_session_by_id all' session_id = None /\
  (forall id, id <> session_id ->
     DatabaseManager.get_session_by_id all' id
     = DatabaseManager.get_session_by_id all id) /\
  DatabaseManager.delete_attendance_session all' session_id = (false, all').
Proof.
  unfold DatabaseManager.delete_attendance_session,
    DatabaseManager.get_session_by_id, DatabaseManager.get_class_sessions.
  set (p := fun s => (DatabaseManager.as_id s =? session_id)%string).
  rewrite (filter_out_length_lt p), existsb_find.
  assert (Hother : forall id, id <> session_id ->
            find (fun s => (DatabaseManager.as_id s =? id)%string)
                 (filter (fun s => negb (p s)) all)
            = find (fun s => (DatabaseManager.as_id s =? id)%string) all).
  { intros id Hne. apply find_filter_other. intros x Hx. unfold p.
    apply String.eqb_eq in Hx. rewrite Hx.
    destruct (String.eqb_spec id session_id); [congruence | reflexivity]. }
  destruct (find p all) eqn:E.
  - split; [reflexivity|]. split; [apply find_filter_none|].
    split; [exact Hother|].
    rewrite (filter_out_length_lt p), existsb_find, find_filter_none.
    reflexivity.
  - split; [reflexivity|]. split; [exact E|].
    split; [reflexivity|].
    rewrite (filter_out_length_lt p), existsb_find, E. reflexivity.
Qed.

Lemma delete_session_spec_witness :
  exists all',
    DatabaseManager.delete_attendance_session sample_sessions
      "session_1709560800000" = (true, all') /\
    DatabaseManager.get_session_by_id all' "session_1709560800000" = None /\
    DatabaseManager.get_session_by_id all' "session_1709629200000"
    = Some next_day_session.
Proof.
  pose proof (delete_session_spec sample_sessions "session_1709560800000")
    as H.
  destruct (DatabaseManager.delete_attendance_session sample_sessions
              "session_1709560800000") as [deleted all'] eqn:E.
  destruct H as (Hd & Hnone & Hother & _).
  exists all'. split; [now rewrite Hd|]. split; [exact Hnone|].
  rewrite Hother; [reflexivity | discriminate].
Defined.

Lemma day_fold_spec (student_id : string)
    (l : list DatabaseManager.attendance_session) (a p b t : Z) :
  fold_left (DatabaseManager.day_step student_id) l (a, p, b, t)
  = (a + count_of (marked_with student_id "P") l
       + count_of (marked_with student_id "L") l,
     p + count_of (marked_with student_id "P") l,
     b + count_of (marked_with student_id "A") l,
     t + count_of (marked_with student_id "L") l).
Proof.
  revert a p b t. induction l as [|s l IH]; intros a p b t.
  - unfold count_of; simpl. rewrite !Z.add_0_r. reflexivity.
  - cbn [fold_left]. rewrite !count_of_cons.
    unfold DatabaseManager.day_step at 2. unfold marked_with at 1 3 5 7 9.
    destruct (DatabaseManager.marks_get _ student_id) as [v|].
    + destruct (String.eqb_spec v "P") as [->|HP].
      { rewrite IH.
        change ("P" =? "L")%string with false.
        change ("P" =? "A")%string with false.
        apply tuple4_eq; lia. }
      destruct (String.eqb_spec v "L") as [->|HL].
      { rewrite IH.
        change ("L" =? "A")%string with false.
        apply tuple4_eq; lia. }
      destruct (String.eqb_spec v "A") as [->|HA].
      { rewrite IH. apply tuple4_eq; lia. }
      rewrite IH. apply tuple4_eq; lia.
    + rewrite IH. apply tuple4_eq; lia.
Qed.

Lemma count_three_marks (student_id : string)
    (l : list DatabaseManager.attendance_session) :
  count_of (marked_with student_id "P") l
  + count_of (marked_with student_id "L") l
  + count_of (marked_with student_id "A") l
  <= Z.of_nat (List.length l).
Proof.
  induction l as [|s l IH]; [unfold count_of; simpl; lia|].
  rewrite !count_of_cons. cbn [List.length]. unfold marked_with at 1 3 5.
  destruct (DatabaseManager.marks_get _ student_id) as [v|]; [|lia].
  destruct (String.eqb_spec v "P") as [->|HP].
  { change ("P" =? "L")%string with false.
    change ("P" =? "A")%string with false. lia. }
  destruct (String.eqb_spec v "L") as [->|HL].
  { change ("L" =? "A")%string with false. lia. }
  destruct (v =? "A")%string; lia.
Qed.

(** X13. [get_student_day_attendance] for a date that is not empty:
    [total_sessions] is the number of sessions of the date; [present],
    [late] and [absent] count the sessions of the date in which the
    student is marked P, L and A; [attended] is [present + late]; the
    three counters together never exceed [total_sessions] (a session
    without a mark for the student is in none of them); without a
    session of the date the percentage is 0. *)
Theorem day_attendance_counts
    (all : list DatabaseManager.attendance_session)
    (student_id date : string) :
  date <> "" ->
  let r := DatabaseManager.get_student_day_attendance all student_id date in
  let of_day :=
    filter (fun s => (DatabaseManager.as_date s =? date)%string) all in
  DatabaseManager.ds_total_sessions r = Z.of_nat (List.length of_day) /\
  DatabaseManager.ds_present r = count_of (marked_with student_id "P") of_day /\
  DatabaseManager.ds_late r = count_of (marked_with student_id "L") of_day /\
  DatabaseManager.ds_absent r = count_of (marked_with student_id "A") of_day /\
  DatabaseManager.ds_attended r
  = DatabaseManager.ds_present r + DatabaseManager.ds_late r /\
  DatabaseManager.ds_present r + DatabaseManager.ds_late r
  + DatabaseManager.ds_absent r <= DatabaseManager.ds_total_sessions r /\
  (of_day = [] -> DatabaseManager.ds_percentage r = PyFloat.zero).
Proof.
  intros Hd r of_day. subst r.
  unfold DatabaseManager.get_student_day_attendance,
    DatabaseManager.get_class_sessions.
  rewrite (proj2 (String.eqb_neq date "") Hd). cbn [negb].
  fold of_day. rewrite day_fold_spec.
  cbn [DatabaseManager.ds_total_sessions DatabaseManager.ds_present
       DatabaseManager.ds_late DatabaseManager.ds_absent
       DatabaseManager.ds_attended DatabaseManager.ds_percentage].
  rewrite !Z.add_0_l.
  split; [reflexivity|]. split; [reflexivity|]. split; [reflexivity|].
  split; [reflexivity|]. split; [reflexivity|].
  split; [pose proof (count_three_marks student_id of_day); lia|].
  intros ->. reflexivity.
Qed.

Lemma day_attendance_counts_witness :
  "2024-03-04" <> "" /\
  DatabaseManager.ds_total_sessions
    (DatabaseManager.get_student_day_attendance sample_sessions "42"
       "2024-03-04") = 2 /\
  DatabaseManager.ds_attended
    (DatabaseManager.get_student_day_attendance sample_sessions "42"
       "2024-03-04")
  = DatabaseManager.ds_present
      (DatabaseManager.get_student_day_attendance sample_sessions "42"
         "2024-03-04")
    + DatabaseManager.ds_late
        (DatabaseManager.get_student_day_attendance sample_sessions "42"
           "2024-03-04").
Proof.
  assert (Hd : "2024-03-04" <> "") by discriminate.
  split; [exact Hd|].
  destruct (day_attendance_counts sample_sessions "42" "2024-03-04" Hd)
    as (Ht & _ & _ & _ & Ha & _).
  split; [exact Ht | exact Ha].
Defined.

(** ** Copying a session into the monthly attendance *)

Lemma final_status_best (seen : list string) (m : string) :
  DatabaseManager.final_status (Some (best_status seen)) m
  = best_status (seen ++ [m]).
Proof.
  unfold DatabaseManager.final_status, best_status.
  rewrite !existsb_app. cbn [existsb]. rewrite !orb_false_r.
  destruct (existsb (String.eqb "P") seen) eqn:EP.
  - reflexivity.
  - destruct (existsb (String.eqb "L") seen) eqn:EL.
    + change ("L" =? "P")%string with false.
      rewrite (String.eqb_sym "P" m).
      destruct (m =? "P")%string; reflexivity.
    + change ("A" =? "P")%string with false.
      change ("A" =? "L")%string with false.
      rewrite (String.eqb_sym "P" m), (String.eqb_sym "L" m).
      reflexivity.
Qed.

Lemma sync_all_counted (rest : list string) (seen : list string) :
  sync_all rest (Some (Counted (Some (best_status seen))
                               (Some (Z.of_nat (List.length seen)))))
  = Some (Counted (Some (best_status (seen ++ rest)))
                  (Some (Z.of_nat (List.length (seen ++ rest))))).
Proof.
  revert seen. induction rest as [|m rest IH]; intros seen.
  - now rewrite app_nil_r.
  - cbn [sync_all DatabaseManager.sync_cell].
    rewrite final_status_best.
    replace (Z.of_nat (List.length seen) + 1)
      with (Z.of_nat (List.length (seen ++ [m])))
      by (rewrite length_app; cbn [List.length]; lia).
    rewrite IH. now rewrite <- app_assoc.
Qed.

Lemma final_status_pair (old m : string) :
  DatabaseManager.final_status (Some old) m = best_status [old; m].
Proof.
  unfold DatabaseManager.final_status, best_status. cbn [existsb].
  rewrite !orb_false_r.
  rewrite (String.eqb_sym "P" old), (String.eqb_sym "P" m),
          (String.eqb_sym "L" old), (String.eqb_sym "L" m).
  reflexivity.
Qed.

Lemma final_status_alone (m : string) :
  DatabaseManager.final_status None m = best_status [m].
Proof.
  unfold DatabaseManager.final_status, best_status. cbn [existsb orb].
  rewrite !orb_false_r.
  rewrite (String.eqb_sym "P" m), (String.eqb_sym "L" m).
  reflexivity.
Qed.

(** X14. Copying the marks of [k >= 1] attendance sessions of a day into
    an empty day of the monthly attendance, one session after the other
    ([sync_session_to_monthly_attendance] on the value of one student),
    leaves the mark itself for [k = 1] and, for [k >= 2], the counted
    value with the count [k] and the best status: P if any mark is P,
    else L if any is L, else A.  The marks are not kept one by one. *)
Theorem repeated_sync_collapses_day (m : string) (rest : list string) :
  m <> "" ->
  sync_all (m :: rest) None
  = Some (match rest with
          | [] => Simple m
          | _ => Counted (Some (best_status (m :: rest)))
                         (Some (Z.of_nat (List.length (m :: rest))))
          end).
Proof.
  intros Hne. apply String.eqb_neq in Hne.
  cbn [sync_all DatabaseManager.sync_cell].
  destruct rest as [|m2 rest]; [reflexivity|].
  cbn [sync_all DatabaseManager.sync_cell truthy]. rewrite Hne. cbn [negb].
  rewrite final_status_pair.
  change 2 with (Z.of_nat (List.length [m; m2])).
  now rewrite sync_all_counted.
Qed.

Lemma repeated_sync_collapses_day_witness :
  "A" <> "" /\
  sync_all ["A"; "L"; "A"] None = Some (Counted (Some "L") (Some 3)) /\
  sync_all ["A"] None = Some (Simple "A").
Proof.
  assert (Hne : "A" <> "") by discriminate.
  split; [exact Hne|].
  split.
  - exact (repeated_sync_collapses_day "A" ["L"; "A"] Hne).
  - exact (repeated_sync_collapses_day "A" [] Hne).
Defined.

Lemma attendance_get_not_null (att : attendance_map) (date : string) :
  attendance_get att date <> Some Null.
Proof.
  induction att as [|[d c] att IH]; [discriminate|]. simpl.
  destruct (d =? date)%string; [now destruct c | exact IH].
Qed.

Lemma sync_cell_not_null (current : option cell) (m : string) :
  DatabaseManager.sync_cell current m <> Some Null.
Proof.
  unfold DatabaseManager.sync_cell.
  destruct current as [[| s | | |]|]; try discriminate.
  destruct (truthy (Simple s)); discriminate.
Qed.

(** What the copy of one mark leaves in the record of a student, said
    from the value found under the date. *)
Lemma sync_student_spec (attendance_map : DatabaseManager.marks)
    (date : string) (s : student) :
  match DatabaseManager.marks_get attendance_map
          (DatabaseManager.str_of_id (student_record_id s)),
        attendance_get (attendance s) date with
  | Some _, Some Unrecognized => False
  | _, _ => True
  end ->
  exists s',
    DatabaseManager.sync_student attendance_map date s = Some s' /\
    student_record_id s' = student_record_id s /\
    (forall d, d <> date ->
       attendance_get (attendance s') d = attendance_get (attendance s) d) /\
    match DatabaseManager.marks_get attendance_map
            (DatabaseManager.str_of_id (student_record_id s)) with
    | Some new_status =>
        let found := attendance_get (attendance s) date in
        let stored := attendance_get (attendance s') date in
        (found = None -> stored = Some (Simple new_status)) /\
        (forall old, found = Some (Simple old) ->
           stored
           = Some (if (old =? "")%string then Simple new_status
                   else Counted (Some (best_status [old; new_status]))
                                (Some 2))) /\
        (forall old count, found = Some (Counted old count) ->
           stored
           = Some (Counted
                     (Some (best_status
                              (match old with
                               | Some o => [o; new_status]
                               | None => [new_status]
                               end)))
                     (Some (match count with
                            | Some k => k + 1
                            | None => 2
                            end)))) /\
        (forall sessions u, found = Some (Sessions sessions u) ->
           stored = Some (Counted (Some (best_status [new_status])) (Some 2)))
    | None => s' = s
    end.
Proof.
  unfold DatabaseManager.sync_student.
  destruct (DatabaseManager.marks_get _ _) as [m|];
    [|intros _; exists s; repeat split].
  intros Hshape.
  pose proof (sync_cell_not_null (attendance_get (attendance s) date) m)
    as Hnn.
  pose proof (attendance_get_not_null (attendance s) date) as Hfound.
  destruct (DatabaseManager.sync_cell (attendance_get (attendance s) date) m)
    as [c|] eqn:Ec.
  - eexists. split; [reflexivity|].
    cbn [update_student_attendance student_record_id attendance].
    split; [reflexivity|]. split.
    { intros d Hd. now apply attendance_get_set_other. }
    cbv zeta.
    rewrite attendance_get_set by (intros ->; now apply Hnn).
    revert Ec. unfold DatabaseManager.sync_cell.
    destruct (attendance_get (attendance s) date) as [[|old|old count|ss u|]|];
      try contradiction; try (exfalso; now apply Hfound).
    + cbn [truthy]. intros Ec. repeat split; try discriminate.
      intros old' [= <-]. rewrite <- Ec.
      destruct (old =? "")%string; cbn [negb];
        [reflexivity | now rewrite final_status_pair].
    + intros [= <-]. repeat split; try discriminate.
      intros old' count' [= <- <-]. do 2 f_equal.
      * f_equal. destruct old as [o|];
          [apply final_status_pair | apply final_status_alone].
      * now destruct count.
    + intros [= <-]. repeat split; try discriminate.
      intros _ _ _. now rewrite final_status_alone.
    + intros [= <-]. repeat split; try discriminate.
  - exfalso. revert Ec. unfold DatabaseManager.sync_cell.
    destruct (attendance_get (attendance s) date) as [[|old| | |]|];
      try discriminate; try contradiction.
    destruct (truthy (Simple old)); discriminate.
Qed.

(** X15. [sync_session_to_monthly_attendance] returns [False] and leaves
    the class as it is for an unknown session id.  For a known one,
    when the values it reads under the date of the session are marks,
    counted values or sessions arrays, it returns [True] and, record by
    record: the id is kept, every date other than the date of the
    session is unchanged, a student without a mark in the session
    (looked up by [str(id)]) is unchanged, and a student with the mark
    [m] has under the date of the session: [m] itself when there was no
    value or an empty string; the counted value with the best of the
    old mark and [m] and the count 2 when there was a mark; the counted
    value with the best of its status and [m] and its count plus one (2
    without the key [count]) when there was a counted value; the counted
    value with the status P if [m] is P, L if [m] is L, else A, and the
    count 2 when there was a sessions array.  The cached statistics are
    those of the class as it is left. *)
Theorem sync_touches_marked_students
    (all : list DatabaseManager.attendance_session) (cd : class_data)
    (session_id now : string) :
  (DatabaseManager.get_session_by_id all session_id = None ->
   DatabaseManager.sync_session_to_monthly_attendance all (Some cd)
     session_id now = Some (false, Some cd)) /\
  (forall session,
     DatabaseManager.get_session_by_id all session_id = Some session ->
     stored_shapes_at session (students cd) = true ->
     exists cd',
       DatabaseManager.sync_session_to_monthly_attendance all (Some cd)
         session_id now = Some (true, Some cd') /\
       Forall2
         (fun s s' =>
            student_record_id s' = student_record_id s /\
            (forall d, d <> DatabaseManager.as_date session ->
               attendance_get (attendance s') d
               = attendance_get (attendance s) d) /\
            match DatabaseManager.marks_get
                    (DatabaseManager.as_attendance session)
                    (DatabaseManager.str_of_id (student_record_id s)) with
            | Some new_status =>
                let found :=
                  attendance_get (attendance s)
                                 (DatabaseManager.as_date session) in
                let stored :=
                  attendance_get (attendance s')
                                 (DatabaseManager.as_date session) in
                (found = None -> stored = Some (Simple new_status)) /\
                (forall old, found = Some (Simple old) ->
                   stored
                   = Some (if (old =? "")%string then Simple new_status
                           else Counted
                                  (Some (best_status [old; new_status]))
                                  (Some 2))) /\
                (forall old count, found = Some (Counted old count) ->
                   stored
                   = Some (Counted
                             (Some (best_status
                                      (match old with
                                       | Some o => [o; new_status]
                                       | None => [new_status]
                                       end)))
                             (Some (match count with
                                    | Some k => k + 1
                                    | None => 2
                                    end)))) /\
                (forall sessions u, found = Some (Sessions sessions u) ->
                   stored
                   = Some (Counted (Some (best_status [new_status]))
                                   (Some 2)))
            | None => s' = s
            end)
         (students cd) (students cd') /\
       statistics cd'
       = Some (DatabaseManager.calculate_class_statistics cd' now)).
Proof.
  unfold DatabaseManager.sync_session_to_monthly_attendance,
    DatabaseManager.get_session_by_id, DatabaseManager.get_class_sessions.
  split; [now intros ->|].
  intros session -> Hshapes. cbv zeta.
  assert (Hloop : exists sts,
            DatabaseManager.sync_students
              (DatabaseManager.as_attendance session)
              (DatabaseManager.as_date session) (students cd) = Some sts /\
            Forall2
              (fun s s' =>
                 student_record_id s' = student_record_id s /\
                 (forall d, d <> DatabaseManager.as_date session ->
                    attendance_get (attendance s') d
                    = attendance_get (attendance s) d) /\
                 match DatabaseManager.marks_get
                         (DatabaseManager.as_attendance session)
                         (DatabaseManager.str_of_id (student_record_id s)) with
                 | Some new_status =>
                     let found :=
                       attendance_get (attendance s)
                                      (DatabaseManager.as_date session) in
                     let stored :=
                       attendance_get (attendance s')
                                      (DatabaseManager.as_date session) in
                     (found = None -> stored = Some (Simple new_status)) /\
                     (forall old, found = Some (Simple old) ->
                        stored
                        = Some (if (old =? "")%string then Simple new_status
                                else Counted
                                       (Some (best_status [old; new_status]))
                                       (Some 2))) /\
                     (forall old count, found = Some (Counted old count) ->
                        stored
                        = Some (Counted
                                  (Some (best_status
                                           (match old with
                                            | Some o => [o; new_status]
                                            | None => [new_status]
                                            end)))
                                  (Some (match count with
                                         | Some k => k + 1
                                         | None => 2
                                         end)))) /\
                     (forall sessions u, found = Some (Sessions sessions u) ->
                        stored
                        = Some (Counted (Some (best_status [new_status]))
                                        (Some 2)))
                 | None => s' = s
                 end)
              (students cd) sts).
  { unfold stored_shapes_at in Hshapes.
    induction (students cd) as [|s sts IH].
    - exists []. split; [reflexivity | constructor].
    - cbn [forallb] in Hshapes. apply andb_prop in Hshapes.
      destruct Hshapes as [Hs Hrest].
      destruct (IH Hrest) as (sts' & Eloop & Hall).
      destruct (sync_student_spec (DatabaseManager.as_attendance session)
                  (DatabaseManager.as_date session) s)
        as (s' & Es & Hid & Hdates & Hmark).
      { destruct (DatabaseManager.marks_get _ _); [|exact I].
        destruct (attendance_get _ _) as [[| | | |]|];
          try exact I; discriminate. }
      exists (s' :: sts'). split.
      + cbn [DatabaseManager.sync_students]. now rewrite Es, Eloop.
      + constructor; [|exact Hall]. repeat split; assumption. }
  destruct Hloop as (sts & -> & Hall).
  eexists. split; [reflexivity|].
  split; [exact Hall | reflexivity].
Qed.

Lemma sync_touches_marked_students_witness :
  DatabaseManager.sync_session_to_monthly_attendance sample_sessions
    (Some history_class) "session_0" "2024-03-04T16:00:00"
  = Some (false, Some history_class) /\
  stored_shapes_at afternoon_session (students history_class) = true /\
  exists cd',
    DatabaseManager.sync_session_to_monthly_attendance sample_sessions
      (Some history_class) "session_1709560800000" "2024-03-04T16:00:00"
    = Some (true, Some cd') /\
    map (fun s => attendance_get (attendance s) "2024-03-04") (students cd')
    = [None; Some (Counted (Some "P") (Some 2))] /\
    statistics cd'
    = Some (DatabaseManager.calculate_class_statistics cd'
              "2024-03-04T16:00:00").
Proof.
  destruct (sync_touches_marked_students sample_sessions history_class
              "session_0" "2024-03-04T16:00:00") as [Hno _].
  split; [exact (Hno eq_refl)|].
  split; [reflexivity|].
  destruct (sync_touches_marked_students sample_sessions history_class
              "session_1709560800000" "2024-03-04T16:00:00") as [_ Hyes].
  destruct (Hyes afternoon_session eq_refl eq_refl) as (cd' & Hs & _ & Hst).
  exists cd'. split; [exact Hs|]. split; [|exact Hst].
  vm_compute in Hs. injection Hs as <-. reflexivity.
Defined.

(** ** The roster shown and the roster stored *)

Lemma active_ids_In (enr : list enrollment) (rid : record_id) :
  id_in rid (DatabaseManager.active_student_ids enr) = true <->
  exists e, In e enr /\ e_status e = "active" /\ e_student_record_id e = rid.
Proof.
  rewrite id_in_In. unfold DatabaseManager.active_student_ids.
  rewrite in_map_iff. split.
  - intros (e & Hid & He). apply filter_In in He. destruct He as [He Ha].
    exists e. repeat split; [exact He | now apply String.eqb_eq | exact Hid].
  - intros (e & He & Ha & Hid). exists e. split; [exact Hid|].
    apply filter_In. split; [exact He | now apply String.eqb_eq].
Qed.

Lemma active_ids_app (l1 l2 : list enrollment) :
  DatabaseManager.active_student_ids (l1 ++ l2)
  = (DatabaseManager.active_student_ids l1
     ++ DatabaseManager.active_student_ids l2)%list.
Proof.
  unfold DatabaseManager.active_student_ids. now rewrite filter_app, map_app.
Qed.

Lemma active_ids_incl (l : list enrollment) (rid : record_id) :
  In rid (DatabaseManager.active_student_ids l) ->
  In rid (map e_student_record_id l).
Proof.
  unfold DatabaseManager.active_student_ids. intros H.
  apply in_map_iff in H. destruct H as (e & <- & He).
  apply filter_In in He. now apply in_map.
Qed.

(** What a committed [unenroll_student] is made of. *)
Lemma unenroll_shape (enr enr1 : list enrollment) (cd : class_data)
    (cd1 : option class_data) (student_id now : string) (te : bool) :
  DatabaseManager.unenroll_student enr (Some cd) student_id now te
  = (true, enr1, cd1) ->
  exists e l1 l2 c1,
    DatabaseManager.find_active_enrollment enr student_id = Some e /\
    enr = (l1 ++ e :: l2)%list /\
    (forall x, In x l1 -> is_active_of student_id x = false) /\
    e_student_id e = student_id /\ e_status e = "active" /\
    enr1 = (l1 ++ DatabaseManager.deactivate now e :: l2)%list /\
    cd1 = Some c1 /\ students c1 = students cd /\
    enrollment_mode c1 = enrollment_mode cd.
Proof.
  unfold DatabaseManager.unenroll_student,
    DatabaseManager.find_active_enrollment.
  change (fun e => (e_student_id e =? student_id)%string
                   && (e_status e =? "active")%string)
    with (is_active_of student_id).
  destruct (find (is_active_of student_id) enr) as [e|] eqn:Ef;
    [|discriminate].
  destruct (find_split _ _ _ Ef) as (l1 & l2 & E & H1 & He).
  intros [= <- <-].
  exists e, l1, l2.
  unfold is_active_of in He. apply andb_prop in He. destruct He as [Hs Ha].
  apply String.eqb_eq in Hs, Ha.
  assert (Hu : update_first (is_active_of student_id)
                 (DatabaseManager.deactivate now) enr
               = (l1 ++ DatabaseManager.deactivate now e :: l2)%list).
  { rewrite E. apply update_first_middle; [exact H1|].
    unfold is_active_of. now rewrite Hs, Ha, !String.eqb_refl. }
  destruct (c_teacher_id cd =? "")%string.
  - exists cd. repeat split; try assumption; reflexivity.
  - eexists. split; [reflexivity|]. split; [exact E|]. split; [exact H1|].
    split; [exact Hs|]. split; [exact Ha|]. split; [exact Hu|].
    split; [reflexivity|].
    destruct te; split; reflexivity.
Qed.

(** X16. Unenrolling hides a record and does not delete it: after a
    committed [unenroll_student] on a class in enrollment mode, whose
    enrollments carry distinct record ids, the class file has the
    roster it had, while [get_class] shows the roster it showed before
    without the record of the student's enrollment, with statistics
    computed over the students shown. *)
Theorem unenrolled_student_is_hidden (enr enr1 : list enrollment)
    (cd cd1 view0 view1 : class_data)
    (student_id now now0 now1 : string) (te : bool) :
  enrollment_mode cd = Some "enrollment_via_id" ->
  NoDup (map e_student_record_id enr) ->
  DatabaseManager.unenroll_student enr (Some cd) student_id now te
  = (true, enr1, Some cd1) ->
  DatabaseManager.get_class (Some cd) enr now0 = Some view0 ->
  DatabaseManager.get_class (Some cd1) enr1 now1 = Some view1 ->
  exists e,
    DatabaseManager.find_active_enrollment enr student_id = Some e /\
    students cd1 = students cd /\
    students view1
    = filter (fun s => negb (has_id (e_student_record_id e) s))
             (students view0) /\
    (forall s, In s (students view1) ->
               student_record_id s <> e_student_record_id e) /\
    statistics view1
    = Some (DatabaseManager.calculate_class_statistics view1 now1).
Proof.
  intros Hm Hnd Hu Hv0 Hv1.
  destruct (unenroll_shape _ _ _ _ _ _ _ Hu)
    as (e & l1 & l2 & c1 & He & E & _ & _ & Ha & E1 & [= <-] & Hst & Hmode).
  exists e. split; [exact He|]. split; [exact Hst|].
  unfold DatabaseManager.get_class in Hv0, Hv1.
  rewrite Hmode in Hv1. rewrite Hm in Hv0, Hv1.
  change ("enrollment_via_id" =? "enrollment_via_id")%string with true
    in Hv0, Hv1.
  cbv iota in Hv0, Hv1. injection Hv0 as <-. injection Hv1 as <-.
  cbn [students DatabaseManager.set_statistics DatabaseManager.set_students
       statistics].
  change (map e_student_record_id (DatabaseManager.get_class_enrollments ?l))
    with (DatabaseManager.active_student_ids l).
  rewrite Hst.
  assert (Hfilter :
    filter (fun s => id_in (student_record_id s)
                           (DatabaseManager.active_student_ids enr1))
           (students cd)
    = filter (fun s => negb (has_id (e_student_record_id e) s))
        (filter (fun s => id_in (student_record_id s)
                                (DatabaseManager.active_student_ids enr))
                (students cd))).
  { rewrite filter_twice. apply filter_ext. intros s.
    rewrite E1, E, !active_ids_app.
    change (l1 ++ e :: l2)%list with (l1 ++ [e] ++ l2)%list in Hnd.
    unfold DatabaseManager.active_student_ids at 2 4.
    cbn [filter map DatabaseManager.deactivate e_status].
    change ("inactive" =? "active")%string with false.
    rewrite Ha. change ("active" =? "active")%string with true.
    cbn [map]. rewrite !id_in_app. cbn [id_in existsb].
    fold (id_in (student_record_id s)
                (map e_student_record_id
                     (filter (fun e0 => (e_status e0 =? "active")%string) l2))).
    change (map e_student_record_id
              (filter (fun e0 => (e_status e0 =? "active")%string) l2))
      with (DatabaseManager.active_student_ids l2).
    unfold has_id.
    destruct (record_id_eqb (student_record_id s) (e_student_record_id e))
      eqn:Eid; cbn [negb orb].
    - apply record_id_eqb_eq in Eid. rewrite andb_false_r.
      rewrite E, map_app in Hnd. cbn [map] in Hnd.
      apply NoDup_remove_2 in Hnd.
      destruct (id_in (student_record_id s)
                      (DatabaseManager.active_student_ids l1)) eqn:A1.
      { exfalso. apply Hnd, in_or_app. left. rewrite <- Eid.
        now apply active_ids_incl, id_in_In. }
      destruct (id_in (student_record_id s)
                      (DatabaseManager.active_student_ids l2)) eqn:A2;
        [|reflexivity].
      exfalso. apply Hnd, in_or_app. right. rewrite <- Eid.
      now apply active_ids_incl, id_in_In.
    - now rewrite andb_true_r. }
  rewrite Hfilter. split; [reflexivity|]. split; [|reflexivity].
  intros s Hs. apply filter_In in Hs. destruct Hs as [_ Hs].
  intros Hid. unfold has_id in Hs.
  now rewrite (proj2 (record_id_eqb_eq _ _) Hid) in Hs.
Qed.

Lemma unenrolled_student_is_hidden_witness :
  NoDup (map e_student_record_id history_enrollments) /\
  exists enr1 cd1 view0 view1,
    DatabaseManager.unenroll_student history_enrollments (Some history_class)
      "u-asha" "2024-03-06T09:00:00" true = (true, enr1, Some cd1) /\
    DatabaseManager.get_class (Some history_class) history_enrollments
      "2024-03-06T08:00:00" = Some view0 /\
    DatabaseManager.get_class (Some cd1) enr1 "2024-03-06T10:00:00"
    = Some view1 /\
    students cd1 = students history_class /\
    map student_record_id (students view0) = [IdInt 41; IdInt 42] /\
    map student_record_id (students view1) = [IdInt 41].
Proof.
  assert (Hnd : NoDup (map e_student_record_id history_enrollments)).
  { simpl. repeat constructor; simpl; intuition discriminate. }
  split; [exact Hnd|].
  do 4 eexists. split; [reflexivity|]. split; [reflexivity|].
  split; [reflexivity|].
  destruct (unenrolled_student_is_hidden history_enrollments _ history_class
              _ _ _ "u-asha" "2024-03-06T09:00:00" "2024-03-06T08:00:00"
              "2024-03-06T10:00:00" true eq_refl Hnd eq_refl eq_refl eq_refl)
    as (e & _ & Hst & _).
  split; [exact Hst|]. split; reflexivity.
Defined.

Lemma updated_student_in (incoming : list student) (rid : record_id)
    (x : student) :
  DatabaseManager.updated_student incoming rid = Some x ->
  In x incoming /\ student_record_id x = rid.
Proof.
  unfold DatabaseManager.updated_student. intros H.
  apply find_some in H. destruct H as [Hin Hid].
  split; [now apply in_rev | now apply record_id_eqb_eq].
Qed.

Lemma updated_student_none (incoming : list student) (rid : record_id) :
  DatabaseManager.updated_student incoming rid = None ->
  id_in rid (map student_record_id incoming) = false.
Proof.
  unfold DatabaseManager.updated_student. intros H.
  destruct (id_in rid (map student_record_id incoming)) eqn:E; [|reflexivity].
  apply id_in_In, in_map_iff in E. destruct E as (x & Hid & Hx).
  apply in_rev in Hx. pose proof (find_none _ _ H x Hx) as Hn.
  cbn beta in Hn. rewrite Hid in Hn.
  now rewrite (proj2 (record_id_eqb_eq rid rid) eq_refl) in Hn.
Qed.

(** What [update_class] returns on a class in enrollment mode. *)
Lemma update_class_enrollment_mode (cd : class_data)
    (enr : list enrollment) (class_id : string)
    (payload : DatabaseManager.class_update) (now : string) (te : bool) :
  enrollment_mode cd = Some "enrollment_via_id" ->
  let incoming := match DatabaseManager.u_students payload with
                  | Some l => l
                  | None => []
                  end in
  let final_students :=
    map (fun student =>
           match DatabaseManager.updated_student incoming
                   (student_record_id student) with
           | Some s => s
           | None => student
           end) (students cd) in
  let enr' :=
    map (fun e =>
           if (id_in (e_student_record_id e)
                     (map student_record_id (students cd))
               && negb (id_in (e_student_record_id e)
                              (map student_record_id incoming)))
              && (e_status e =? "active")%string
           then DatabaseManager.remove_by_teacher e
           else e) enr in
  exists returned file,
    DatabaseManager.update_class (Some cd) enr class_id payload now te
    = Return (returned, file, enr') /\
    students returned = final_students /\
    students file = final_students /\
    updated_at returned = now /\
    statistics returned
    = Some (DatabaseManager.calculate_class_statistics returned now).
Proof.
  intros Hm incoming final_students enr'.
  unfold DatabaseManager.update_class. rewrite Hm.
  change ("enrollment_via_id" =? "enrollment_via_id")%string with true.
  cbv iota. do 2 eexists. split; [reflexivity|].
  split; [reflexivity|].
  split; [apply refresh_keeps_roster|].
  split; reflexivity.
Qed.

(** X17. Saving the roster as it was shown changes nothing: on a class in
    enrollment mode whose record ids are distinct, [update_class] with
    the students [get_class] returned leaves the roster of the class
    file (the records of students who are not enrolled included) and
    the enrollment file as they were. *)
Theorem shown_roster_saved_back (cd view returned file : class_data)
    (enr enr' : list enrollment) (class_id : string)
    (payload : DatabaseManager.class_update) (now1 now2 : string) (te : bool) :
  enrollment_mode cd = Some "enrollment_via_id" ->
  NoDup (map student_record_id (students cd)) ->
  DatabaseManager.get_class (Some cd) enr now1 = Some view ->
  DatabaseManager.u_students payload = Some (students view) ->
  DatabaseManager.update_class (Some cd) enr class_id payload now2 te
  = Return (returned, file, enr') ->
  students file = students cd /\ students returned = students cd /\
  enr' = enr.
Proof.
  intros Hm Hnd Hview Hin.
  destruct (update_class_enrollment_mode cd enr class_id payload now2 te Hm)
    as (returned0 & file0 & Hu & Hr & Hf & _).
  rewrite Hu. intros [= <- <- <-]. rewrite Hin in *.
  unfold DatabaseManager.get_class in Hview. rewrite Hm in Hview.
  change ("enrollment_via_id" =? "enrollment_via_id")%string with true in Hview.
  cbv iota in Hview. injection Hview as <-.
  cbn [students DatabaseManager.set_statistics DatabaseManager.set_students]
    in *.
  set (shown := filter _ (students cd)) in *.
  assert (Hshown : forall x, In x shown -> In x (students cd))
    by (intros x Hx; now apply filter_In in Hx).
  assert (Hsts : map (fun student =>
                        match DatabaseManager.updated_student shown
                                (student_record_id student) with
                        | Some s => s
                        | None => student
                        end) (students cd) = students cd).
  { apply map_id_ext. intros s Hs.
    destruct (DatabaseManager.updated_student shown (student_record_id s))
      as [x|] eqn:E; [|reflexivity].
    destruct (updated_student_in _ _ _ E) as [Hx Hid].
    apply (unique_by_key student_record_id (students cd));
      [exact Hnd | now apply Hshown | exact Hs | exact Hid]. }
  split; [now rewrite Hf|]. split; [now rewrite Hr|].
  apply map_id_ext. intros e He.
  destruct (String.eqb_spec (e_status e) "active") as [Ha|Ha];
    [|now rewrite andb_false_r].
  destruct (id_in (e_student_record_id e)
                  (map student_record_id (students cd))) eqn:E1;
    [|reflexivity].
  assert (E2 : id_in (e_student_record_id e) (map student_record_id shown)
               = true).
  { apply id_in_In, in_map_iff in E1. destruct E1 as (s & Hid & Hs).
    apply id_in_In, in_map_iff. exists s. split; [exact Hid|].
    apply filter_In. split; [exact Hs|].
    apply active_ids_In. exists e. repeat split; [exact He | exact Ha |].
    now symmetry. }
  now rewrite E2.
Qed.

Lemma shown_roster_saved_back_witness :
  NoDup (map student_record_id (students history_class)) /\
  exists view returned file enr',
    DatabaseManager.get_class (Some history_class) left_enrollments
      "2024-03-07T08:00:00" = Some view /\
    map student_record_id (students view) = [IdInt 41] /\
    DatabaseManager.update_class (Some history_class) left_enrollments "c1"
      (DatabaseManager.mk_class_update None None None (Some (students view))
                                       None)
      "2024-03-07T08:05:00" true = Return (returned, file, enr') /\
    students file = students history_class /\ enr' = left_enrollments.
Proof.
  assert (Hnd : NoDup (map student_record_id (students history_class))).
  { simpl. repeat constructor; simpl; intuition discriminate. }
  split; [exact Hnd|].
  do 4 eexists. split; [reflexivity|]. split; [reflexivity|].
  split; [reflexivity|].
  destruct (shown_roster_saved_back history_class _ _ _ left_enrollments _
              "c1"
              (DatabaseManager.mk_class_update None None None
                 (Some (students _)) None)
              "2024-03-07T08:00:00" "2024-03-07T08:05:00" true eq_refl
              Hnd eq_refl eq_refl eq_refl)
    as (Hf & _ & He).
  split; [exact Hf | exact He].
Defined.

(** X18. [update_class] on a class in enrollment mode keeps the roster of
    the file in place: the same ids in the same order, a record whose
    id is not among the incoming students kept as it is, a record whose
    id is among them replaced by an incoming record with that id, and
    no record added.  An active enrollment whose record is on the
    roster and not among the incoming students becomes inactive; every
    other enrollment is unchanged. *)
Theorem teacher_removal_keeps_records (cd returned file : class_data)
    (enr enr' : list enrollment) (class_id : string)
    (payload : DatabaseManager.class_update) (incoming : list student)
    (now : string) (te : bool) :
  enrollment_mode cd = Some "enrollment_via_id" ->
  DatabaseManager.u_students payload = Some incoming ->
  DatabaseManager.update_class (Some cd) enr class_id payload now te
  = Return (returned, file, enr') ->
  students returned = students file /\
  Forall2
    (fun s s' =>
       student_record_id s' = student_record_id s /\
       (id_in (student_record_id s) (map student_record_id incoming) = false ->
        s' = s) /\
       (id_in (student_record_id s) (map student_record_id incoming) = true ->
        In s' incoming))
    (students cd) (students file) /\
  Forall2
    (fun e e' =>
       e_student_id e' = e_student_id e /\
       e_student_record_id e' = e_student_record_id e /\
       (e_status e = "active" ->
        id_in (e_student_record_id e) (map student_record_id (students cd))
        = true ->
        id_in (e_student_record_id e) (map student_record_id incoming)
        = false ->
        e_status e' = "inactive") /\
       (e_status e <> "active"
        \/ id_in (e_student_record_id e) (map student_record_id (students cd))
           = false
        \/ id_in (e_student_record_id e) (map student_record_id incoming)
           = true ->
        e' = e))
    enr enr'.
Proof.
  intros Hm Hin.
  destruct (update_class_enrollment_mode cd enr class_id payload now te Hm)
    as (returned0 & file0 & Hu & Hr & Hf & _).
  rewrite Hu. intros [= <- <- <-]. rewrite Hin in *.
  split; [now rewrite Hr, Hf|].
  split.
  - rewrite Hf. clear. induction (students cd) as [|s sts IH];
      [constructor|].
    cbn [map]. constructor; [|exact IH].
    destruct (DatabaseManager.updated_student incoming (student_record_id s))
      as [x|] eqn:E.
    + destruct (updated_student_in _ _ _ E) as [Hx Hid].
      split; [exact Hid|]. split; [|now intros _].
      intros Hno. exfalso.
      assert (Hyes : id_in (student_record_id s)
                           (map student_record_id incoming) = true).
      { apply id_in_In. rewrite <- Hid. now apply in_map. }
      congruence.
    + pose proof (updated_student_none _ _ E) as Hno.
      split; [reflexivity|]. split; [reflexivity|]. congruence.
  - clear. induction enr as [|e enr IH]; [constructor|].
    cbn [map]. constructor; [|exact IH].
    destruct (id_in (e_student_record_id e)
                    (map student_record_id (students cd))) eqn:E1;
      destruct (id_in (e_student_record_id e)
                      (map student_record_id incoming)) eqn:E2;
      destruct (String.eqb_spec (e_status e) "active") as [Ha|Ha];
      cbn [andb negb];
      (split; [reflexivity|]); (split; [reflexivity|]);
      (split; [congruence || reflexivity|]);
      try reflexivity;
      intros [H|[H|H]]; congruence.
Qed.

Lemma teacher_removal_keeps_records_witness :
  exists returned file enr',
    DatabaseManager.update_class (Some history_class) history_enrollments
      "c1" roster_without_asha "2024-03-07T08:05:00" true
    = Return (returned, file, enr') /\
    students returned = students file /\
    map student_record_id (students file) = [IdInt 41; IdInt 42] /\
    map attendance (students file) = map attendance (students history_class) /\
    map e_status enr' = ["active"; "inactive"].
Proof.
  do 3 eexists. split; [reflexivity|].
  destruct (teacher_removal_keeps_records history_class _ _
              history_enrollments _ "c1" roster_without_asha _
              "2024-03-07T08:05:00" true eq_refl eq_refl eq_refl)
    as (Hr & _ & _).
  split; [exact Hr|]. repeat split; reflexivity.
Defined.

(** ** The invariant of the enrollment file *)

Lemma find_none_not_in (student_id : string) (enr : list enrollment) :
  find (fun e => (e_student_id e =? student_id)%string) enr = None ->
  ~ In student_id (map e_student_id enr).
Proof.
  intros H Hin. apply in_map_iff in Hin. destruct Hin as (e & <- & He).
  pose proof (find_none _ _ H e He) as Hn. cbn beta in Hn.
  now rewrite String.eqb_refl in Hn.
Qed.

(** What a committed enrollment is made of: a re-enrollment or a first
    enrollment. *)
Lemma enroll_shape (cd cd' : class_data) (enr enr' : list enrollment)
    (student_id class_id : string) (info : DatabaseManager.student_info)
    (now : string) (fresh_id : Z) (te : bool)
    (rep : DatabaseManager.enroll_report) :
  DatabaseManager.enroll_student (Some cd) enr student_id class_id info now
    fresh_id te = Return (enr', cd', rep) ->
  DatabaseManager.find_active_enrollment enr student_id = None /\
  ((exists previous l1 l2,
      enr = (l1 ++ previous :: l2)%list /\
      (forall x, In x l1 -> e_student_id x <> student_id) /\
      e_student_id previous = student_id /\
      enr' = (l1 ++ DatabaseManager.reactivate info now previous :: l2)%list /\
      DatabaseManager.r_student_record_id rep = e_student_record_id previous /\
      DatabaseManager.r_status rep = "re-enrolled" /\
      (forall x, id_in x (map student_record_id (students cd')) = true <->
                 (x = e_student_record_id previous
                  \/ id_in x (map student_record_id (students cd)) = true)))
   \/
   (~ In student_id (map e_student_id enr) /\
    enr' = (enr ++ [mk_enrollment student_id (IdInt fresh_id) class_id
                      (DatabaseManager.info_rollNo info) "active" now
                      None None])%list /\
    DatabaseManager.r_student_record_id rep = IdInt fresh_id /\
    DatabaseManager.r_status rep = "enrolled" /\
    students cd'
    = (students cd
       ++ [mk_student (IdInt fresh_id) (DatabaseManager.info_rollNo info)
             (DatabaseManager.info_name info)
             (DatabaseManager.info_email info) []])%list)).
Proof.
  unfold DatabaseManager.enroll_student,
    DatabaseManager.find_active_enrollment.
  destruct (c_teacher_id cd =? "")%string; [discriminate|].
  rewrite existsb_find.
  destruct (find (fun e => (e_student_id e =? student_id)%string
                           && (e_status e =? "active")%string) enr);
    [discriminate|].
  intros H. split; [reflexivity|].
  destruct (find (fun e => (e_student_id e =? student_id)%string) enr)
    as [previous|] eqn:Ef.
  - left. injection H as <- <- <-.
    destruct (find_split _ _ _ Ef) as (l1 & l2 & E & H1 & Hp).
    apply String.eqb_eq in Hp.
    exists previous, l1, l2. split; [exact E|].
    split. { intros x Hx. apply String.eqb_neq. now apply H1. }
    split; [exact Hp|].
    split.
    { rewrite E at 1. apply update_first_middle; [exact H1|].
      now apply String.eqb_eq. }
    split; [reflexivity|]. split; [reflexivity|].
    intros x.
    rewrite (proj1 (refresh_keeps_roster _ _ _ _)).
    cbn [students DatabaseManager.set_students].
    change (fun s => record_id_eqb (student_record_id s)
                                   (e_student_record_id previous))
      with (has_id (e_student_record_id previous)).
    destruct (find (has_id (e_student_record_id previous)) (students cd))
      as [s0|] eqn:Es.
    + rewrite map_update_first by reflexivity.
      split; [now right|]. intros [->|Hx]; [|exact Hx].
      apply find_some in Es. destruct Es as [Hin Hid].
      apply id_in_In, in_map_iff. exists s0. split; [|exact Hin].
      now apply record_id_eqb_eq.
    + rewrite map_app, id_in_app. cbn [map student_record_id id_in existsb].
      rewrite orb_false_r, orb_true_iff, record_id_eqb_eq. tauto.
  - right. injection H as <- <- <-.
    split; [now apply find_none_not_in|].
    split; [reflexivity|]. split; [reflexivity|]. split; [reflexivity|].
    now rewrite (proj1 (refresh_keeps_roster _ _ _ _)).
Qed.

Lemma find_active_middle (l1 l2 : list enrollment) (e : enrollment)
    (student_id : string) :
  (forall x, In x l1 -> e_student_id x <> student_id) ->
  e_student_id e = student_id -> e_status e = "active" ->
  DatabaseManager.find_active_enrollment (l1 ++ e :: l2) student_id = Some e.
Proof.
  intros H1 Hs Ha. unfold DatabaseManager.find_active_enrollment.
  apply find_middle.
  - intros x Hx. now rewrite (proj2 (String.eqb_neq _ _) (H1 x Hx)).
  - now rewrite Hs, Ha, !String.eqb_refl.
Qed.

(** X19. [enroll_student] keeps the invariant of the enrollment file (one
    enrollment per student, the record of every enrollment on the
    roster): after a committed enrollment the invariant holds again,
    the student has an active enrollment with the record id reported,
    no record id has left the roster, and enrolling the same student
    once more is rejected with "You are already enrolled in this
    class". *)
Theorem enroll_keeps_the_invariant (cd cd' : class_data)
    (enr enr' : list enrollment) (student_id class_id : string)
    (info : DatabaseManager.student_info) (now : string) (fresh_id : Z)
    (te : bool) (rep : DatabaseManager.enroll_report) :
  enrollment_invariant enr cd ->
  DatabaseManager.enroll_student (Some cd) enr student_id class_id info now
    fresh_id te = Return (enr', cd', rep) ->
  enrollment_invariant enr' cd' /\
  (exists e, DatabaseManager.find_active_enrollment enr' student_id = Some e /\
             e_student_record_id e = DatabaseManager.r_student_record_id rep) /\
  (forall c info2 now2 fresh2 te2,
     DatabaseManager.enroll_student (Some cd') enr' student_id c info2 now2
       fresh2 te2 = Raise "You are already enrolled in this class") /\
  (forall x, id_in x (map student_record_id (students cd)) = true ->
             id_in x (map student_record_id (students cd')) = true).
Proof.
  intros [Hnd Hrec] H.
  assert (Ht : (c_teacher_id cd' =? "")%string = false).
  { revert H. unfold DatabaseManager.enroll_student.
    destruct (c_teacher_id cd =? "")%string eqn:Et; [discriminate|].
    destruct (existsb _ enr); [discriminate|].
    destruct (find _ enr); intros [= _ <- _];
      now rewrite (proj2 (refresh_keeps_roster _ _ _ _)). }
  destruct (enroll_shape _ _ _ _ _ _ _ _ _ _ _ H) as [Hnone Hcases].
  assert (Hagain : forall e,
            DatabaseManager.find_active_enrollment enr' student_id = Some e ->
            forall c info2 now2 fresh2 te2,
              DatabaseManager.enroll_student (Some cd') enr' student_id c info2
                now2 fresh2 te2 = Raise "You are already enrolled in this class").
  { intros e He c info2 now2 fresh2 te2.
    unfold DatabaseManager.enroll_student. rewrite Ht, existsb_find.
    unfold DatabaseManager.find_active_enrollment in He. now rewrite He. }
  destruct Hcases
    as [(previous & l1 & l2 & E & H1 & Hp & E' & Hr & _ & Hroster)
       |(Hfresh & E' & Hr & _ & Hsts)].
  - assert (He : DatabaseManager.find_active_enrollment enr' student_id
                 = Some (DatabaseManager.reactivate info now previous)).
    { rewrite E'. now apply find_active_middle. }
    split.
    { split.
      - rewrite E', map_app. cbn [map DatabaseManager.reactivate e_student_id].
        rewrite E, map_app in Hnd. exact Hnd.
      - intros e Hin. apply Hroster.
        rewrite E' in Hin. apply in_app_or in Hin.
        destruct Hin as [Hin|[<-|Hin]].
        + right. apply Hrec. rewrite E. apply in_or_app. now left.
        + now left.
        + right. apply Hrec. rewrite E. apply in_or_app. right. now right. }
    split; [eexists; split; [exact He | now rewrite Hr]|].
    split; [now apply (Hagain _ He)|].
    intros x Hx. apply Hroster. now right.
  - assert (He : DatabaseManager.find_active_enrollment enr' student_id
                 = Some (mk_enrollment student_id (IdInt fresh_id) class_id
                           (DatabaseManager.info_rollNo info) "active" now
                           None None)).
    { rewrite E'. apply find_active_middle; [|reflexivity|reflexivity].
      intros x Hx Hid. apply Hfresh. rewrite <- Hid. now apply in_map. }
    split.
    { split.
      - rewrite E', map_app. cbn [map e_student_id].
        apply NoDup_app; [exact Hnd | repeat constructor; intros [] |].
        intros x Hx [<-|[]]. contradiction.
      - intros e Hin. rewrite Hsts, map_app, id_in_app.
        rewrite E' in Hin. apply in_app_or in Hin.
        destruct Hin as [Hin|[<-|[]]].
        + now rewrite (Hrec e Hin).
        + cbn [map student_record_id e_student_record_id id_in existsb].
          rewrite (proj2 (record_id_eqb_eq _ _) eq_refl).
          now rewrite orb_true_r. }
    split; [eexists; split; [exact He | now rewrite Hr]|].
    split; [now apply (Hagain _ He)|].
    intros x Hx. rewrite Hsts, map_app, id_in_app. now rewrite Hx.
Qed.

Lemma enroll_keeps_the_invariant_witness :
  enrollment_invariant history_enrollments history_class /\
  exists enr' cd' rep,
    DatabaseManager.enroll_student (Some history_class) history_enrollments
      "u-ravi" "c1"
      (DatabaseManager.mk_student_info "Ravi" "9" "ravi@example.org")
      "2024-03-08T09:00:00" 1709888400000 true = Return (enr', cd', rep) /\
    enrollment_invariant enr' cd' /\
    DatabaseManager.enroll_student (Some cd') enr' "u-ravi" "c1"
      (DatabaseManager.mk_student_info "Ravi" "9" "ravi@example.org")
      "2024-03-08T09:01:00" 1709888460000 true
    = Raise "You are already enrolled in this class".
Proof.
  assert (Hinv : enrollment_invariant history_enrollments history_class).
  { split.
    - simpl. repeat constructor; simpl; intuition discriminate.
    - intros e [<-|[<-|[]]]; reflexivity. }
  split; [exact Hinv|].
  do 3 eexists. split; [reflexivity|].
  destruct (enroll_keeps_the_invariant history_class _ history_enrollments _
              "u-ravi" "c1"
              (DatabaseManager.mk_student_info "Ravi" "9" "ravi@example.org")
              "2024-03-08T09:00:00" 1709888400000 true _ Hinv eq_refl)
    as (Hinv' & _ & Hagain & _).
  split; [exact Hinv' | apply Hagain].
Defined.

(** X20. [unenroll_student] keeps the invariant of the enrollment file
    and the roster; it returns [True] exactly when the student had an
    active enrollment and changes nothing when it returns [False];
    afterwards the student has no active enrollment, and a second
    [unenroll_student] returns [False] and changes nothing. *)
Theorem unenroll_keeps_the_invariant (cd : class_data)
    (enr enr' : list enrollment) (cd' : option class_data)
    (student_id now : string) (te : bool) (b : bool) :
  enrollment_invariant enr cd ->
  DatabaseManager.unenroll_student enr (Some cd) student_id now te
  = (b, enr', cd') ->
  (exists c, cd' = Some c /\ students c = students cd
             /\ enrollment_invariant enr' c) /\
  b = (match DatabaseManager.find_active_enrollment enr student_id with
       | Some _ => true
       | None => false
       end) /\
  (b = false -> enr' = enr /\ cd' = Some cd) /\
  DatabaseManager.find_active_enrollment enr' student_id = None /\
  (forall now2 te2,
     DatabaseManager.unenroll_student enr' cd' student_id now2 te2
     = (false, enr', cd')).
Proof.
  intros [Hnd Hrec] H.
  assert (Hagain : DatabaseManager.find_active_enrollment enr' student_id = None
                   -> forall now2 te2,
                      DatabaseManager.unenroll_student enr' cd' student_id now2
                        te2 = (false, enr', cd')).
  { intros Hn now2 te2. unfold DatabaseManager.unenroll_student.
    unfold DatabaseManager.find_active_enrollment in Hn. now rewrite Hn. }
  destruct b.
  - destruct (unenroll_shape _ _ _ _ _ _ _ H)
      as (e & l1 & l2 & c1 & He & E & H1 & Hs & Ha & E1 & -> & Hst & _).
    assert (Hn : DatabaseManager.find_active_enrollment enr' student_id = None).
    { unfold DatabaseManager.find_active_enrollment.
      destruct (find _ enr') as [x|] eqn:Ef; [|reflexivity]. exfalso.
      apply find_some in Ef. destruct Ef as [Hin Hx].
      apply andb_prop in Hx. destruct Hx as [Hxs Hxa].
      apply String.eqb_eq in Hxs, Hxa.
      rewrite E1 in Hin. apply in_app_or in Hin.
      rewrite E, map_app in Hnd. cbn [map] in Hnd.
      apply NoDup_remove_2 in Hnd.
      destruct Hin as [Hin|[<-|Hin]].
      + apply Hnd, in_or_app. left. rewrite Hs, <- Hxs. now apply in_map.
      + discriminate.
      + apply Hnd, in_or_app. right. rewrite Hs, <- Hxs. now apply in_map. }
    split.
    { exists c1. split; [reflexivity|]. split; [exact Hst|]. split.
      - rewrite E1, map_app. cbn [map DatabaseManager.deactivate e_student_id].
        rewrite E, map_app in Hnd. exact Hnd.
      - intros x Hx. rewrite Hst. rewrite E1 in Hx. apply in_app_or in Hx.
        destruct Hx as [Hx|[<-|Hx]].
        + apply Hrec. rewrite E. apply in_or_app. now left.
        + apply (Hrec e). rewrite E. apply in_or_app. right. now left.
        + apply Hrec. rewrite E. apply in_or_app. right. now right. }
    split; [now rewrite He|]. split; [discriminate|].
    split; [exact Hn | now apply Hagain].
  - revert H. unfold DatabaseManager.unenroll_student.
    fold (DatabaseManager.find_active_enrollment enr student_id).
    destruct (DatabaseManager.find_active_enrollment enr student_id) eqn:Ef;
      [discriminate|].
    intros [= <- <-].
    split; [exists cd; repeat split; assumption|].
    split; [reflexivity|]. split; [now split|].
    split; [exact Ef | now apply Hagain].
Qed.

Lemma unenroll_keeps_the_invariant_witness :
  enrollment_invariant history_enrollments history_class /\
  exists enr' cd',
    DatabaseManager.unenroll_student history_enrollments (Some history_class)
      "u-asha" "2024-03-06T09:00:00" true = (true, enr', cd') /\
    DatabaseManager.find_active_enrollment enr' "u-asha" = None /\
    DatabaseManager.unenroll_student enr' cd' "u-asha" "2024-03-06T09:01:00"
      true = (false, enr', cd').
Proof.
  assert (Hinv : enrollment_invariant history_enrollments history_class).
  { split.
    - simpl. repeat constructor; simpl; intuition discriminate.
    - intros e [<-|[<-|[]]]; reflexivity. }
  split; [exact Hinv|].
  do 2 eexists. split; [reflexivity|].
  destruct (unenroll_keeps_the_invariant history_class history_enrollments _
              _ "u-asha" "2024-03-06T09:00:00" true true Hinv eq_refl)
    as (_ & _ & _ & Hn & Hagain).
  split; [exact Hn | apply Hagain].
Defined.

(** ** The QR sessions of the document store *)

(** X21. A session started in the document store is the only active
    session of the class and date: there was none before the start and
    there is one after it; the new document is appended, with an empty
    scanned list and a number above that of every earlier document;
    [get_qr_session] returns it, and a second start is rejected. *)
Theorem mongo_start_opens_the_only_session (docs docs' : list qr_session)
    (class_id teacher_id date : string) (rotation_interval : Z)
    (now code : string) (s : qr_session) :
  MongoDBManager.start_qr_session docs class_id teacher_id date
    rotation_interval now code = Return (docs', s) ->
  count_of MongoDBManager.is_active docs = 0 /\
  count_of MongoDBManager.is_active docs' = 1 /\
  docs' = (docs ++ [s])%list /\
  (forall d, In d docs -> session_number d < session_number s) /\
  scanned_students s = [] /\
  MongoDBManager.get_qr_session docs' false now code = (docs', Some s) /\
  (forall c t d i now2 code2,
     MongoDBManager.start_qr_session docs' c t d i now2 code2
     = Raise "An active QR session already exists for this date").
Proof.
  unfold MongoDBManager.start_qr_session.
  destruct (find MongoDBManager.is_active docs) eqn:Ef; [discriminate|].
  intros [= <- <-].
  assert (Hfind : find MongoDBManager.is_active
                    (docs ++ [mk_qr_session class_id teacher_id date
                                (match docs with
                                 | [] => 1
                                 | d :: rest =>
                                     fold_left Z.max (map session_number rest)
                                               (session_number d) + 1
                                 end) now rotation_interval code now (Some now)
                                [] "active" None None])
                  = Some (mk_qr_session class_id teacher_id date
                            (match docs with
                             | [] => 1
                             | d :: rest =>
                                 fold_left Z.max (map session_number rest)
                                           (session_number d) + 1
                             end) now rotation_interval code now (Some now)
                            [] "active" None None)).
  { rewrite find_app_none by exact Ef. reflexivity. }
  split; [now apply count_of_none|].
  split. { rewrite count_of_app, (count_of_none _ _ Ef). reflexivity. }
  split; [reflexivity|].
  split.
  { intros d Hd. cbn [session_number].
    destruct docs as [|d0 rest]; [contradiction|].
    destruct (fold_max_left_ge (map session_number rest) (session_number d0))
      as [H1 H2].
    destruct Hd as [<-|Hd]; [lia|].
    specialize (H2 (session_number d) (in_map _ _ _ Hd)). lia. }
  split; [reflexivity|].
  split.
  { unfold MongoDBManager.get_qr_session. rewrite Hfind.
    cbn [MongoDBManager._maybe_rotate_qr_session].
    now rewrite update_first_same. }
  intros c t d i now2 code2. now rewrite Hfind.
Qed.

Lemma mongo_start_opens_the_only_session_witness :
  exists docs' s,
    MongoDBManager.start_qr_session [stopped_session] "c1" "t1" "2024-03-04" 5
      "2024-03-04T10:00:00" "Q7XK2M9A" = Return (docs', s) /\
    count_of MongoDBManager.is_active docs' = 1 /\
    session_number stopped_session < session_number s.
Proof.
  do 2 eexists. split; [reflexivity|].
  destruct (mongo_start_opens_the_only_session [stopped_session] _ "c1" "t1"
              "2024-03-04" 5 "2024-03-04T10:00:00" "Q7XK2M9A" _ eq_refl)
    as (_ & Hone & _ & Hnum & _).
  split; [exact Hone | apply Hnum; now left].
Defined.

Lemma rotate_keeps_status (s : qr_session) (expired : bool)
    (now code : string) :
  MongoDBManager.is_active
    (MongoDBManager._maybe_rotate_qr_session s expired now code)
  = MongoDBManager.is_active s.
Proof. now destruct expired. Qed.

(** What a committed stop of the document store is made of. *)
Lemma mongo_stop_returns (docs docs' : list qr_session)
    (enr : list enrollment) (cd : option class_data) (cd' : class_data)
    (rep : stop_report) (teacher_id date now : string) (expired : bool)
    (new_code : string) :
  MongoDBManager.stop_qr_session docs enr cd teacher_id date now expired
    new_code = Return (cd', docs', rep) ->
  exists session,
    find MongoDBManager.is_active docs = Some session /\
    qr_teacher_id session = teacher_id /\
    docs'
    = update_first MongoDBManager.is_active
        (fun s => MongoDBManager.stop_session now
                    (MongoDBManager._maybe_rotate_qr_session s expired now
                       new_code))
        docs /\
    report_session_number rep = session_number session.
Proof.
  unfold MongoDBManager.stop_qr_session, MongoDBManager.get_qr_session.
  destruct (find MongoDBManager.is_active docs) as [session|] eqn:Ef;
    [|discriminate].
  destruct (negb (qr_status _ =? "active")%string); [discriminate|].
  destruct (String.eqb_spec
              (qr_teacher_id (MongoDBManager._maybe_rotate_qr_session session
                                expired now new_code)) teacher_id)
    as [Ht|]; [|discriminate].
  destruct cd as [cd0|]; [|discriminate].
  cbn [negb]. intros [= _ <- <-].
  exists session. split; [reflexivity|].
  split; [now destruct expired|].
  split.
  - apply update_first_twice. intros x Hx. now rewrite rotate_keeps_status.
  - now destruct expired.
Qed.

(** X22. Stopping a session in the document store, at most one session
    being active: afterwards none is active and the numbers of the
    documents are unchanged; [get_qr_session] returns no session, a
    second stop is rejected with "No active session", and the next
    start succeeds with a number above the one the stop reported. *)
Theorem mongo_stop_closes_the_session (docs docs' : list qr_session)
    (enr : list enrollment) (cd : option class_data) (cd' : class_data)
    (rep : stop_report) (teacher_id date now : string) (expired : bool)
    (new_code : string) :
  count_of MongoDBManager.is_active docs <= 1 ->
  MongoDBManager.stop_qr_session docs enr cd teacher_id date now expired
    new_code = Return (cd', docs', rep) ->
  count_of MongoDBManager.is_active docs' = 0 /\
  map session_number docs' = map session_number docs /\
  (forall expired2 now2 code2,
     MongoDBManager.get_qr_session docs' expired2 now2 code2 = (docs', None)) /\
  (forall enr2 cd2 t d now2 expired2 code2,
     MongoDBManager.stop_qr_session docs' enr2 cd2 t d now2 expired2 code2
     = Raise "No active session") /\
  (forall c t d i now2 code2,
     exists docs2 s,
       MongoDBManager.start_qr_session docs' c t d i now2 code2
       = Return (docs2, s) /\
       report_session_number rep < session_number s).
Proof.
  intros Hone H.
  destruct (mongo_stop_returns _ _ _ _ _ _ _ _ _ _ _ H)
    as (session & Ef & _ & -> & Hrep).
  set (f := fun s => MongoDBManager.stop_session now
                       (MongoDBManager._maybe_rotate_qr_session s expired now
                          new_code)).
  assert (Hcount : count_of MongoDBManager.is_active
                     (update_first MongoDBManager.is_active f docs) = 0).
  { rewrite count_of_update_first_off by reflexivity.
    rewrite existsb_find, Ef.
    assert (1 <= count_of MongoDBManager.is_active docs); [|lia].
    destruct (find_split _ _ _ Ef) as (l1 & l2 & -> & _ & Ha).
    rewrite count_of_app, count_of_cons, Ha.
    pose proof (count_of_nonneg MongoDBManager.is_active l1).
    pose proof (count_of_nonneg MongoDBManager.is_active l2). lia. }
  assert (Hnums : map session_number
                      (update_first MongoDBManager.is_active f docs)
                  = map session_number docs).
  { apply map_update_first. intros x. unfold f. now destruct expired. }
  pose proof (count_zero_find _ _ Hcount) as Hnone.
  split; [exact Hcount|]. split; [exact Hnums|].
  split.
  { intros expired2 now2 code2. unfold MongoDBManager.get_qr_session.
    now rewrite Hnone. }
  split.
  { intros enr2 cd2 t d now2 expired2 code2.
    unfold MongoDBManager.stop_qr_session, MongoDBManager.get_qr_session.
    now rewrite Hnone. }
  intros c t d i now2 code2. unfold MongoDBManager.start_qr_session.
  rewrite Hnone. do 2 eexists. split; [reflexivity|].
  cbn [session_number]. rewrite Hrep.
  assert (Hin : In (session_number session)
                   (map session_number
                        (update_first MongoDBManager.is_active f docs))).
  { rewrite Hnums. apply in_map. now apply find_some in Ef. }
  destruct (update_first MongoDBManager.is_active f docs) as [|d0 rest];
    [contradiction|].
  cbn [map] in Hin.
  destruct (fold_max_left_ge (map session_number rest) (session_number d0))
    as [H1 H2].
  destruct Hin as [Hin|Hin]; [lia|]. specialize (H2 _ Hin). lia.
Qed.

Lemma mongo_stop_closes_the_session_witness :
  count_of MongoDBManager.is_active [stopped_session; third_session] <= 1 /\
  exists cd' docs' rep,
    MongoDBManager.stop_qr_session [stopped_session; third_session]
      qr_enrollments (Some qr_class) "t1" "2024-03-04" "2024-03-04T14:05:00"
      false "Z3R8T1WQ" = Return (cd', docs', rep) /\
    count_of MongoDBManager.is_active docs' = 0 /\
    exists docs2 s,
      MongoDBManager.start_qr_session docs' "c1" "t1" "2024-03-04" 5
        "2024-03-04T15:00:00" "K4M2P9XA" = Return (docs2, s) /\
      report_session_number rep < session_number s.
Proof.
  assert (Hone : count_of MongoDBManager.is_active
                   [stopped_session; third_session] <= 1)
    by (vm_compute; discriminate).
  split; [exact Hone|].
  do 3 eexists. split; [reflexivity|].
  destruct (mongo_stop_closes_the_session [stopped_session; third_session] _
              qr_enrollments (Some qr_class) _ _ "t1" "2024-03-04"
              "2024-03-04T14:05:00" false "Z3R8T1WQ" Hone eq_refl)
    as (Hzero & _ & _ & _ & Hstart).
  split; [exact Hzero|].
  exact (Hstart "c1" "t1" "2024-03-04" 5 "2024-03-04T15:00:00" "K4M2P9XA").
Defined.

(** ** The stop endpoint *)

(** The absence merge of the stop endpoint is the one of the file
    manager. *)
Lemma endpoint_absent_cell_eq (n : Z) (now : string) (v : option cell) :
  Main.absent_cell n now v = DatabaseManager.absent_cell n now v.
Proof.
  unfold Main.absent_cell, DatabaseManager.absent_cell.
  destruct (n =? 1); [reflexivity|].
  destruct v as [[|s|st c|ss u|]|]; try reflexivity.
  do 2 f_equal. unfold fill_missing. apply fold_left_pointwise.
  intros x i. unfold fill_step, new_session.
  now destruct (i =? n).
Qed.

(** X23. The stop endpoint of [main.py] over the file backend, on a class
    in enrollment mode, stores the roster it was shown: the class file
    is left with the records of the actively enrolled students only,
    each as it was if the student scanned and with the absence merge of
    the file manager applied otherwise (stamped with the clock string of
    the endpoint), so that the record of a student who is not actively
    enrolled is no longer in the file.  [absent_count] is the number of
    students shown who did not scan; [updated_at] of the class is the
    clock string of the endpoint, and the statistics stored are those
    of the class as it is left, with the clock string of the file
    manager as [lastCalculated]. *)
Theorem endpoint_stop_stores_the_shown_roster (user_id : string)
    (session : qr_session) (enr : list enrollment) (cd file : class_data)
    (class_id date stamp now : string) (te : bool) (rep : stop_report) :
  enrollment_mode cd = Some "enrollment_via_id" ->
  Main.stop_qr_session (Some user_id) (Some session) enr (Some cd) class_id
    date stamp now te = Return (file, rep) ->
  let shown :=
    filter (fun s => id_in (student_record_id s)
                           (DatabaseManager.active_student_ids enr))
           (students cd) in
  Forall2
    (fun s s' =>
       s' = (if id_in (student_record_id s) (scanned_students session)
             then s
             else update_student_attendance s
                    (DatabaseManager.absent_attendance
                       (session_number session) stamp date (attendance s))))
    shown (students file) /\
  map student_record_id (students file) = map student_record_id shown /\
  (forall s, In s (students cd) ->
     id_in (student_record_id s) (DatabaseManager.active_student_ids enr)
     = false ->
     ~ In s (students file)) /\
  absent_count rep
  = count_of (fun s => negb (id_in (student_record_id s)
                                   (scanned_students session))) shown /\
  updated_at file = stamp /\
  statistics file
  = Some (DatabaseManager.calculate_class_statistics file now).
Proof.
  intros Hm. unfold Main.stop_qr_session.
  destruct ((class_id =? "")%string || (date =? "")%string); [discriminate|].
  destruct (negb (qr_teacher_id session =? user_id)%string); [discriminate|].
  unfold DatabaseManager.get_class. rewrite Hm.
  change ("enrollment_via_id" =? "enrollment_via_id")%string with true.
  cbv iota.
  change (map e_student_record_id (DatabaseManager.get_class_enrollments enr))
    with (DatabaseManager.active_student_ids enr).
  cbn [students DatabaseManager.set_statistics DatabaseManager.set_students
       c_id c_teacher_id enrollment_mode class_thresholds statistics].
  intros [= <- <-]. set (shown := filter _ (students cd)).
  set (mark := fun student : student =>
         if negb (id_in (student_record_id student)
                        (nodup record_id_eq_dec (scanned_students session)))
         then update_student_attendance student
                match Main.absent_cell (session_number session) stamp
                        (attendance_get (attendance student) date) with
                | Some c => attendance_set (attendance student) date c
                | None => attendance student
                end
         else student).
  assert (Hids : map student_record_id (map mark shown)
                 = map student_record_id shown).
  { rewrite map_map. apply map_ext. intros x. unfold mark.
    now destruct (negb _). }
  assert (Hactive : forallb (fun s => id_in (student_record_id s)
                                 (DatabaseManager.active_student_ids enr))
                            (map mark shown) = true).
  { apply forallb_forall. intros x Hx. apply in_map_iff in Hx.
    destruct Hx as (y & <- & Hy).
    replace (student_record_id (mark y)) with (student_record_id y)
      by (unfold mark; now destruct (negb _)).
    now apply filter_In in Hy. }
  match goal with
  | |- context [DatabaseManager.refresh_statistics te enr ?c now] =>
      set (final := c)
  end.
  assert (Hfinal : students final = map mark shown) by reflexivity.
  rewrite (proj1 (refresh_keeps_roster te enr final now)), Hfinal.
  split.
  { clear. induction shown as [|s l IH]; [constructor|].
    cbn [map]. constructor; [|exact IH].
    unfold mark. rewrite id_in_nodup.
    destruct (id_in (student_record_id s) (scanned_students session));
      cbn [negb]; [reflexivity|].
    unfold DatabaseManager.absent_attendance.
    now rewrite endpoint_absent_cell_eq. }
  split; [exact Hids|].
  split.
  { intros s Hs Hoff Hin.
    assert (Hid : In (student_record_id s)
                     (map student_record_id (map mark shown)))
      by now apply in_map.
    rewrite Hids in Hid. apply in_map_iff in Hid.
    destruct Hid as (y & Hy & Hyin). apply filter_In in Hyin.
    destruct Hyin as [_ Hon]. rewrite Hy in Hon. congruence. }
  split.
  { cbn [absent_count]. unfold count_of. do 2 f_equal. apply filter_ext.
    intros x. now rewrite id_in_nodup. }
  split; [now destruct te|].
  destruct te; [|reflexivity].
  unfold DatabaseManager.refresh_statistics.
  assert (Hmf : enrollment_mode final = Some "enrollment_via_id")
    by exact Hm.
  rewrite Hmf.
  change ("enrollment_via_id" =? "enrollment_via_id")%string with true.
  cbv iota. cbn [statistics students]. rewrite Hfinal.
  rewrite (filter_true _ _ Hactive). rewrite <- Hfinal.
  reflexivity.
Qed.

Lemma endpoint_stop_stores_the_shown_roster_witness :
  exists file rep,
    Main.stop_qr_session (Some "t1") (Some running_session) left_enrollments
      (Some history_class) "c1" "2024-03-04" "2024-03-04T10:05:00+00:00"
      "2024-03-04T10:05:00" true
    = Return (file, rep) /\
    map student_record_id (students history_class) = [IdInt 41; IdInt 42] /\
    map student_record_id (students file) = [IdInt 41] /\
    absent_count rep = 1 /\
    updated_at file = "2024-03-04T10:05:00+00:00" /\
    statistics file
    = Some (DatabaseManager.calculate_class_statistics file
              "2024-03-04T10:05:00").
Proof.
  do 2 eexists. split; [reflexivity|].
  destruct (endpoint_stop_stores_the_shown_roster "t1" running_session
              left_enrollments history_class _ "c1" "2024-03-04"
              "2024-03-04T10:05:00+00:00" "2024-03-04T10:05:00" true _
              eq_refl eq_refl)
    as (_ & Hids & _ & Hcount & Hup & Hst).
  split; [reflexivity|]. split; [exact Hids|].
  split; [exact Hcount|]. split; [exact Hup | exact Hst].
Defined.

(** ** The counters of the class statistics *)

Lemma class_step_bounds (th : thresholds) (acc : DatabaseManager.class_acc)
    (st : student) :
  let acc' := DatabaseManager.class_student_step th acc st in
  DatabaseManager.at_risk acc <= DatabaseManager.at_risk acc' /\
  DatabaseManager.excellent_count acc <= DatabaseManager.excellent_count acc' /\
  DatabaseManager.at_risk acc' + DatabaseManager.excellent_count acc'
  <= DatabaseManager.at_risk acc + DatabaseManager.excellent_count acc + 1.
Proof.
  unfold DatabaseManager.class_student_step.
  destruct (attendance st) as [|dc att]; [cbn; lia|].
  destruct (_ >? 0); [|cbn; lia].
  destruct (PyFloat.ge _ _); [cbn; lia|].
  destruct (PyFloat.lt _ _); cbn; lia.
Qed.

Lemma class_fold_bounds (th : thresholds) (sts : list student)
    (acc : DatabaseManager.class_acc) :
  let acc' := fold_left (DatabaseManager.class_student_step th) sts acc in
  DatabaseManager.at_risk acc <= DatabaseManager.at_risk acc' /\
  DatabaseManager.excellent_count acc <= DatabaseManager.excellent_count acc' /\
  DatabaseManager.at_risk acc' + DatabaseManager.excellent_count acc'
  <= DatabaseManager.at_risk acc + DatabaseManager.excellent_count acc
     + Z.of_nat (List.length sts).
Proof.
  revert acc. induction sts as [|s sts IH]; intros acc; [cbn; lia|].
  cbn [fold_left List.length].
  pose proof (class_step_bounds th acc s) as Hs.
  pose proof (IH (DatabaseManager.class_student_step th acc s)) as Hf.
  cbv zeta in Hs, Hf |- *. lia.
Qed.

(** X25. The counters of [calculate_class_statistics] of the file
    backend are bounded by the roster: [totalStudents] is the size of
    the roster, [atRiskCount] and [excellentCount] are not negative, and
    together they never exceed [totalStudents] (no student is counted
    in both). *)
Theorem class_counters_bounded (cd : class_data) (now : string) :
  let st := DatabaseManager.calculate_class_statistics cd now in
  totalStudents st = Z.of_nat (List.length (students cd)) /\
  exists a e,
    atRiskCount st = Some a /\ excellentCount st = Some e /\
    0 <= a /\ 0 <= e /\ a + e <= totalStudents st.
Proof.
  unfold DatabaseManager.calculate_class_statistics.
  destruct (students cd) as [|s sts] eqn:E.
  - split; [reflexivity|]. exists 0, 0. cbn. repeat split; lia.
  - cbv zeta. cbn [totalStudents atRiskCount excellentCount].
    split; [reflexivity|]. do 2 eexists.
    split; [reflexivity|]. split; [reflexivity|].
    pose proof (class_fold_bounds
                  (match class_thresholds cd with
                   | Some t => t
                   | None => default_thresholds
                   end) (s :: sts) DatabaseManager.class_acc0) as H.
    cbv zeta in H.
    cbn [DatabaseManager.at_risk DatabaseManager.excellent_count
         DatabaseManager.class_acc0] in H.
    lia.
Qed.

(** ** Numbering after a stop *)

Lemma absent_cell_count (n : Z) (now : string) (v : option cell) :
  1 <= n -> mergeable v = true ->
  exists c, DatabaseManager.absent_cell n now v = Some c /\
            n <= DatabaseManager.day_session_count (Some c).
Proof.
  intros Hn Hm. unfold DatabaseManager.absent_cell.
  destruct (Z.eqb_spec n 1) as [->|Hne].
  - eexists. split; [reflexivity | vm_compute; discriminate].
  - assert (Hnew : forall g : Z -> string,
              n <= DatabaseManager.day_session_count
                     (Some (Sessions
                              (map (fun i => mk_session (Some (session_key i))
                                                (Some (qr_session_name i))
                                                (Some (g i)))
                                   (py_range 1 (n + 1))) now))).
    { intros g. cbn [DatabaseManager.day_session_count truthy].
      rewrite count_of_all.
      - rewrite length_map, py_range_length. lia.
      - apply forallb_forall. intros x Hx. apply in_map_iff in Hx.
        now destruct Hx as (i & <- & _). }
    destruct v as [[|s|st c|ss u|]|]; try discriminate.
    + eexists. split; [reflexivity|].
      apply (Hnew (fun i => if i =? 1 then s else "A")).
    + cbn [mergeable] in Hm. eexists. split; [reflexivity|].
      cbn [DatabaseManager.day_session_count truthy].
      rewrite count_of_all.
      * apply all_keys_length. intros i Hi. now apply fill_missing_has_all.
      * now apply fill_missing_valid.
    + eexists. split; [reflexivity|]. apply (Hnew (fun _ => "A")).
Qed.

Lemma count_of_pos_In {A : Type} (p : A -> bool) (l : list A) :
  0 < count_of p l -> exists x, In x l /\ p x = true.
Proof.
  induction l as [|x l IH]; [unfold count_of; simpl; lia|].
  rewrite count_of_cons. destruct (p x) eqn:E.
  - intros _. exists x. split; [now left | exact E].
  - intros Hpos. destruct IH as (y & Hy & Hp); [lia|].
    exists y. split; [now right | exact Hp].
Qed.

Lemma count_of_zero_all {A : Type} (p : A -> bool) (l : list A) :
  count_of p l = 0 -> forall x, In x l -> p x = false.
Proof.
  induction l as [|y l IH]; [intros _ x []|].
  rewrite count_of_cons. pose proof (count_of_nonneg p l) as Hl.
  destruct (p y) eqn:E; [lia|].
  intros Hz x [<-|Hx]; [exact E | apply IH; [lia | exact Hx]].
Qed.

(** X26. After a committed stop of session [n >= 1] in the file backend
    that marked at least one student, the count of valid sessions of
    the date is at least [n], so that the next session started gets a
    number above [n]; this holds when no value of the date is
    legacy-counted or unrecognized and no session entry of the date
    lacks a status.  A stop that marks nobody leaves the roster as it
    is. *)
Theorem stop_advances_numbering (sd sd' : qr_session)
    (enr : list enrollment) (cd cd' : class_data) (rep : stop_report)
    (teacher_id date now : string) :
  DatabaseManager.stop_qr_session (Some sd) enr (Some cd) teacher_id date now
  = Return (cd', sd', rep) ->
  1 <= session_number sd ->
  forallb (fun s => mergeable (attendance_get (attendance s) date))
          (students cd) = true ->
  (0 < absent_count rep ->
   session_number sd
   <= DatabaseManager._count_valid_sessions_for_date cd' date) /\
  (absent_count rep = 0 -> students cd' = students cd).
Proof.
  intros H Hn Hall.
  assert (Hrep : absent_count rep
                 = count_of (DatabaseManager.to_mark
                               (DatabaseManager.active_student_ids enr)
                               (nodup record_id_eq_dec (scanned_students sd)))
                            (students cd)).
  { revert H. unfold DatabaseManager.stop_qr_session.
    destruct (negb (qr_status sd =? "active")%string); [discriminate|].
    destruct (negb (qr_teacher_id sd =? teacher_id)%string); [discriminate|].
    now intros [= _ _ <-]. }
  destruct (stop_returns _ _ _ _ _ _ _ _ _ H)
    as (cd0 & [= <-] & _ & _ & Hst & _ & _).
  split.
  - intros Hpos. rewrite Hrep in Hpos.
    destruct (count_of_pos_In _ _ Hpos) as (s & Hin & Hmark).
    assert (Hs : mergeable (attendance_get (attendance s) date) = true).
    { rewrite forallb_forall in Hall. now apply Hall. }
    destruct (absent_cell_count (session_number sd) now _ Hn Hs) as (c & Hc & Hle).
    rewrite db_count_valid_max, Hst.
    etransitivity; [exact Hle|].
    apply fold_max_ge. unfold day_counts. rewrite map_map.
    apply in_map_iff. exists s. split; [|exact Hin].
    rewrite Hmark. cbn [update_student_attendance attendance].
    unfold DatabaseManager.absent_attendance. rewrite Hc.
    rewrite attendance_get_set; [reflexivity|].
    intros ->.
    destruct (scan_not_null (session_number sd) now
                (attendance_get (attendance s) date)) as (_ & _ & Hnn).
    now apply Hnn.
  - intros Hzero. rewrite Hrep in Hzero.
    rewrite Hst. apply map_id_ext. intros s Hs.
    now rewrite (count_of_zero_all _ _ Hzero s Hs).
Qed.

Lemma stop_advances_numbering_witness :
  exists cd' sd' rep,
    DatabaseManager.stop_qr_session (Some running_session) qr_enrollments
      (Some qr_class) "t1" "2024-03-04" "2024-03-04T10:05:00"
    = Return (cd', sd', rep) /\
    absent_count rep = 1 /\
    1 <= DatabaseManager._count_valid_sessions_for_date cd' "2024-03-04".
Proof.
  do 3 eexists. split; [reflexivity|]. split; [reflexivity|].
  assert (Hn : 1 <= session_number running_session) by (simpl; lia).
  destruct (stop_advances_numbering running_session _ qr_enrollments qr_class
              _ _ "t1" "2024-03-04" "2024-03-04T10:05:00" eq_refl Hn eq_refl)
    as [Hpos _].
  apply Hpos. vm_compute. reflexivity.
Defined.

(** ** The counters of the student statistics *)

Lemma tally_add_adds_up (st : option string) (n : Z) (t : tally) :
  tally_adds_up t -> tally_adds_up (tally_add st n t).
Proof.
  unfold tally_adds_up, tally_add. intros H.
  destruct st as [s|]; [|exact H].
  destruct (in_PAL s) eqn:E; [|exact H].
  destruct (s =? "P")%string eqn:EP; [cbn; lia|].
  destruct (s =? "A")%string eqn:EA; [cbn; lia|].
  destruct (s =? "L")%string eqn:EL; [cbn; lia|].
  unfold in_PAL in E. rewrite EP, EA, EL in E. discriminate.
Qed.

Lemma sessions_add_up (sessions : list session) (t : tally) :
  tally_adds_up t ->
  tally_adds_up
    (fold_left (fun acc s => tally_add (session_status s) 1 acc) sessions t).
Proof.
  revert t. induction sessions as [|s ss IH]; intros t H; [exact H|].
  cbn [fold_left]. now apply IH, tally_add_adds_up.
Qed.

Lemma student_fold_adds_up (att : attendance_map) (t : tally) :
  tally_adds_up t ->
  tally_adds_up (fold_left DatabaseManager.student_tally_step att t) /\
  tally_adds_up (fold_left MongoDBManager.student_tally_step att t).
Proof.
  revert t. induction att as [|[d c] att IH]; intros t H; [now split|].
  cbn [fold_left]. split.
  - apply IH. unfold DatabaseManager.student_tally_step. cbn [snd].
    destruct c; try exact H;
      [now apply tally_add_adds_up | now apply tally_add_adds_up
       | now apply sessions_add_up].
  - apply IH. unfold MongoDBManager.student_tally_step. cbn [snd].
    destruct c; try exact H;
      [now apply tally_add_adds_up | now apply tally_add_adds_up
       | now apply sessions_add_up].
Qed.

(** X27. The counters of [calculate_student_statistics] add up in both
    backends, on every attendance mapping of the embedding: its values
    are marks, counted values whose [count] is an integer or is not
    there (then read as 1), sessions arrays, and values of no stored
    shape, which are skipped.  [total_classes] is
    [present + absent + late]; with an empty attendance mapping it is
    0.  A counted value whose [count] holds null is not a value of the
    embedding: the file backend raises [TypeError] on it. *)
Theorem student_counters_add_up (student_record : student)
    (th : option thresholds) :
  let r := DatabaseManager.calculate_student_statistics student_record th in
  let m := MongoDBManager.calculate_student_statistics student_record th in
  total_classes r = present r + absent r + late r /\
  total_classes m = present m + absent m + late m /\
  (attendance student_record = [] -> total_classes r = 0 /\ total_classes m = 0).
Proof.
  unfold DatabaseManager.calculate_student_statistics,
    MongoDBManager.calculate_student_statistics.
  destruct (attendance student_record) as [|dc att] eqn:E.
  - cbn. repeat split; intros; reflexivity.
  - cbv zeta.
    destruct (student_fold_adds_up (dc :: att) tally0 eq_refl) as [Hd Hm].
    cbn [total_classes present absent late].
    split; [exact Hd|]. split; [exact Hm | discriminate].
Qed.
